(** * The egos-2000 SD card emulator of hw/riscv/sifive_e.c

    A shallow embedding of [egos_sd_read] and [egos_sd_write], the two
    register handlers of the SD card that sits behind QSPI1, together with
    the properties of the command framing state machine and of the
    single-block read (CMD17) sub-protocol.

    Conventions of the embedding:
    - a C [char] cell is kept as its raw byte, a [Z] in [0, 256); reading it
      promotes it to [int] through [char_to_int], which depends on whether
      plain [char] is signed on the host ([char_signed]);
    - an [int] is a [Z] in [-2^31, 2^31); QEMU is built with [-fwrapv], so
      shifts and products wrap ([wrap32]);
    - [uint64_t] values are reduced with [to_u64];
    - [assert(0)] is the outcome [Abort]; an access outside an array is the
      outcome [Undefined], tagged with the array;
    - [usleep] and [printf] have no effect on the modelled state. *)

From Stdlib Require Import ZArith Lia Bool.
From stdpp Require Import base tactics option list.

Local Open Scope Z_scope.

(** ** Machine integers *)

Definition wrap32 (x : Z) : Z := (x + 2 ^ 31) mod 2 ^ 32 - 2 ^ 31.
Definition to_u32 (x : Z) : Z := x mod 2 ^ 32.
Definition to_u64 (x : Z) : Z := x mod 2 ^ 64.

(** [(char)x]: the raw byte that ends up in the cell. *)
Definition to_char (x : Z) : Z := x mod 256.

Definition is_byte (c : Z) : Prop := 0 <= c < 256.

(** ** Constants *)

Definition BLOCK_SIZE : Z := 512.
Definition SPI1_TXDATA : Z := 72.
Definition SPI1_RXDATA : Z := 76.
(** [sizeof(sd_storage)] *)
Definition STORAGE_SIZE : Z := 4 * 1024 * 1024.

Inductive sd_state_t : Set :=
| SD_IDLE
| SD_READY
| SD_GETTING_CMD0
| SD_GETTING_CMD8
| SD_GETTING_CMD16
| SD_GETTING_CMD55
| SD_GETTING_CMD58
| SD_GETTING_ACMD41
| SD_GETTING_CMD17.

#[global] Instance sd_state_eq_dec : EqDecision sd_state_t.
Proof. solve_decision. Defined.

(** ** Outcomes of a register access *)

Inductive object : Set :=
| The_sd_cmd
| The_sd_storage
| The_block_to_read
| The_cmd8_reply
| The_cmd58_reply.

Inductive outcome (A : Type) : Type :=
| Ok (a : A)
| Abort
| Undefined (o : object).

Arguments Ok {A} a.
Arguments Abort {A}.
Arguments Undefined {A} o.

Definition bind {A B : Type} (m : outcome A) (k : A -> outcome B) : outcome B :=
  match m with
  | Ok a => k a
  | Abort => Abort
  | Undefined o => Undefined o
  end.

Notation "x <- m ;; k" := (bind m (fun x => k))
  (at level 100, m at next level, right associativity).

(** [a[i]] as an rvalue, and [a[i] = c]. *)
Definition aget (o : object) (a : list Z) (i : Z) : outcome Z :=
  if 0 <=? i then
    match a !! Z.to_nat i with
    | Some c => Ok c
    | None => Undefined o
    end
  else Undefined o.

Definition aset (o : object) (a : list Z) (i c : Z) : outcome (list Z) :=
  if (0 <=? i) && (i <? Z.of_nat (length a)) then Ok (<[Z.to_nat i := c]> a)
  else Undefined o.

(** [memcpy(dst + d, src + so, n)] where [src] is the backing store. *)
Fixpoint memcpy (dst : list Z) (d : nat) (src : Z -> Z) (so : Z) (n : nat) : list Z :=
  match n with
  | O => dst
  | S n' => memcpy (<[d := src so]> dst) (S d) src (so + 1) n'
  end.

(** ** The device state: the file-scope statics and the statics of
    [egos_sd_read] *)

Record sd : Type := Sd {
  sd_state : sd_state_t;
  sd_cmd_idx : Z;
  sd_cmd : list Z;          (* char sd_cmd[32] *)
  sd_storage : Z -> Z;      (* char sd_storage[4 * 1024 * 1024] *)
  cmd8_idx : Z;
  cmd58_idx : Z;
  cmd17_idx : Z;
  block_to_read : list Z    (* char block_to_read[BLOCK_SIZE + 1] *)
}.

Definition set_sd_state (v : sd_state_t) (s : sd) : sd :=
  Sd v (sd_cmd_idx s) (sd_cmd s) (sd_storage s)
     (cmd8_idx s) (cmd58_idx s) (cmd17_idx s) (block_to_read s).
Definition set_sd_cmd_idx (v : Z) (s : sd) : sd :=
  Sd (sd_state s) v (sd_cmd s) (sd_storage s)
     (cmd8_idx s) (cmd58_idx s) (cmd17_idx s) (block_to_read s).
Definition set_sd_cmd (v : list Z) (s : sd) : sd :=
  Sd (sd_state s) (sd_cmd_idx s) v (sd_storage s)
     (cmd8_idx s) (cmd58_idx s) (cmd17_idx s) (block_to_read s).
Definition set_cmd8_idx (v : Z) (s : sd) : sd :=
  Sd (sd_state s) (sd_cmd_idx s) (sd_cmd s) (sd_storage s)
     v (cmd58_idx s) (cmd17_idx s) (block_to_read s).
Definition set_cmd58_idx (v : Z) (s : sd) : sd :=
  Sd (sd_state s) (sd_cmd_idx s) (sd_cmd s) (sd_storage s)
     (cmd8_idx s) v (cmd17_idx s) (block_to_read s).
Definition set_cmd17_idx (v : Z) (s : sd) : sd :=
  Sd (sd_state s) (sd_cmd_idx s) (sd_cmd s) (sd_storage s)
     (cmd8_idx s) (cmd58_idx s) v (block_to_read s).
Definition set_block_to_read (v : list Z) (s : sd) : sd :=
  Sd (sd_state s) (sd_cmd_idx s) (sd_cmd s) (sd_storage s)
     (cmd8_idx s) (cmd58_idx s) (cmd17_idx s) v.

(** The statics as the loader leaves them, with the image [st] read into
    [sd_storage] by [egos_sd_reset]. *)
Definition sd_init (st : Z -> Z) : sd :=
  Sd SD_IDLE 0 (replicate 32 0) st 0 0 (-1) (replicate 513 0).

Definition cmd58_reply : list Z := [0x00; 0xC0; 0xFF; 0x80; 0x00].
Definition cmd8_reply : list Z := [0x01; 0x00; 0x00; 0x01; 0xAA].

(** [sd_cmd_idx = 0; sd_state = SD_IDLE;] *)
Definition sd_done (s : sd) : sd := set_sd_state SD_IDLE (set_sd_cmd_idx 0 s).

(** The logical command buffer of the specification: the [sd_cmd_idx]
    bytes collected so far. *)
Definition command_buffer (s : sd) : list Z := take (Z.to_nat (sd_cmd_idx s)) (sd_cmd s).

(** Example states: a CMD0 frame fully received, and a CMD17 frame for
    block 1 found complete by a read; [image251] is the disk image. *)
Definition image251 : Z -> Z := fun i => i mod 251.
Definition cmd0_received : sd :=
  Sd SD_GETTING_CMD0 6 ([0x40; 0x00; 0x00; 0x00; 0x00; 0x95] ++ replicate 26 0)
     image251 0 0 (-1) (replicate 513 0).
Definition cmd17_ready : sd :=
  Sd SD_READY 6 ([0x51; 0x00; 0x00; 0x00; 0x01; 0xFF] ++ replicate 26 0)
     image251 0 0 (-1) (replicate 513 0).

(** Two more states of the example device: ready with the CMD17 frame of
    block 0x2000, the first block past the end of the store, and ready with
    31 bytes held, a CMD0 frame followed by 25 zero bytes. *)
Definition cmd17_past_end : sd :=
  Sd SD_READY 6 ([0x51; 0x00; 0x00; 0x20; 0x00; 0xFF] ++ replicate 26 0)
     image251 0 0 (-1) (replicate 513 0).
Definition cmd0_overlong : sd :=
  Sd SD_READY 31 ([0x40; 0x00; 0x00; 0x00; 0x00; 0x95] ++ replicate 26 0)
     image251 0 0 (-1) (replicate 513 0).

(** Ready with a CMD0 frame held, its reply not read yet. *)
Definition cmd0_ready : sd :=
  Sd SD_READY 6 ([0x40; 0x00; 0x00; 0x00; 0x00; 0x95] ++ replicate 26 0)
     image251 0 0 (-1) (replicate 513 0).

Inductive access : Set :=
| Rd (addr : Z)
| Wr (addr val64 : Z).

(** A six-byte command frame written to TXDATA, and [n] reads of RXDATA. *)
Definition frame (op a1 a2 a3 a4 crc : Z) : list access :=
  [Wr SPI1_TXDATA op; Wr SPI1_TXDATA a1; Wr SPI1_TXDATA a2;
   Wr SPI1_TXDATA a3; Wr SPI1_TXDATA a4; Wr SPI1_TXDATA crc].
Definition reads (n : nat) : list access := replicate n (Rd SPI1_RXDATA).

(** [sd_cmd] once a frame has been stored from index 0. *)
Definition frame_cmd (op a1 a2 a3 a4 crc : Z) (old : list Z) : list Z :=
  op :: to_char a1 :: to_char a2 :: to_char a3 :: to_char a4 :: to_char crc
     :: drop 6 old.

(** The unsigned big-endian reading of four bytes. *)
Definition be32 (c1 c2 c3 c4 : Z) : Z :=
  c1 * 2 ^ 24 + c2 * 2 ^ 16 + c3 * 2 ^ 8 + c4.

(** One CMD0 exchange: the frame, the read that finds it complete, and the
    read of the reply. *)
Definition cmd0_exchange : list access :=
  frame 0x40 0x00 0x00 0x00 0x00 0x95 ++ reads 2.


(** ** Access patterns of a driver *)

(** One SPI exchange: a byte is written, then the byte received is read. *)
Definition exchange (b : Z) : list access :=
  [Wr SPI1_TXDATA b; Rd SPI1_RXDATA].

(** A frame sent exchange by exchange, and [n] exchanges of the idle byte. *)
Definition frame_exchanges (op a1 a2 a3 a4 crc : Z) : list access :=
  exchange op ++ exchange a1 ++ exchange a2 ++ exchange a3 ++ exchange a4
    ++ exchange crc.
Definition polls (n : nat) : list access := concat (replicate n (exchange 0xFF)).

(** The accesses of a host that only waits: reads of RXDATA and writes of the
    idle byte 0xFF to TXDATA. *)
Definition is_poll (a : access) : bool :=
  match a with
  | Rd addr => addr =? SPI1_RXDATA
  | Wr addr v => (addr =? SPI1_TXDATA) && (v =? 0xFF)
  end.

Definition is_read (a : access) : bool :=
  match a with
  | Rd _ => true
  | Wr _ _ => false
  end.

(** The accesses that reach one of the two registers of the device. *)
Definition on_sd_register (a : access) : bool :=
  match a with
  | Rd addr => addr =? SPI1_RXDATA
  | Wr addr _ => addr =? SPI1_TXDATA
  end.

(** The state a run ends in, or how it stopped. *)
Definition final (x : outcome (list Z * sd)) : outcome sd :=
  match x with
  | Ok p => Ok (snd p)
  | Abort => Abort
  | Undefined o => Undefined o
  end.

(** [r] put in front of the bytes read by a run. *)
Definition cons_out (r : Z) (x : outcome (list Z)) : outcome (list Z) :=
  match x with
  | Ok l => Ok (r :: l)
  | Abort => Abort
  | Undefined o => Undefined o
  end.

(** ** Loading the image: [egos_sd_reset], lines 373-387

    The environment is the file tools/disk.img: [st_size] is what [stat] left
    in [st.st_size], [file] holds its bytes, and [avail] tells, call by call,
    what [read] finds: a positive number of bytes ready (the call returns at
    most the count it was asked for and copies that many bytes from the file
    position), or 0 at end of file, or -1 on error (nothing is copied).  The
    counter [nread] is an [int].  The result is [None] when the calls listed
    in [avail] do not end the loop. *)
Fixpoint load_loop (avail : list Z) (st_size : Z) (file : Z -> Z)
    (pos nread : Z) (sto : Z -> Z) : option (outcome (Z -> Z)) :=
  if nread <? st_size then
    match avail with
    | [] => None
    | a :: avail' =>
        if 0 <? a then
          let r := Z.min a (st_size - nread) in
          if (0 <=? nread) && (nread + r <=? STORAGE_SIZE) then
            load_loop avail' st_size file (pos + r) (wrap32 (nread + r))
              (fun i => if (nread <=? i) && (i <? nread + r)
                        then file (pos + (i - nread)) else sto i)
          else Some (Undefined The_sd_storage)
        else load_loop avail' st_size file pos (wrap32 (nread + a)) sto
    end
  else Some (Ok sto).

Definition egos_sd_reset (st_size : Z) (file : Z -> Z) (avail : list Z)
    (sto : Z -> Z) : option (outcome (Z -> Z)) :=
  if negb (st_size =? STORAGE_SIZE) then Some Abort
  else load_loop avail st_size file 0 0 sto.

(** The sum of a list of byte counts. *)
Definition total (l : list Z) : Z := foldr Z.add 0 l.

Section Device.

(** Whether plain [char] is signed on the host that runs QEMU. *)
Variable char_signed : bool.

(** Integer promotion of a [char] cell. *)
Definition char_to_int (c : Z) : Z :=
  if char_signed && (128 <=? c) then c - 256 else c.

(** Lines 279-283: the block number of a CMD17 frame.  [0xFF000000] does not
    fit [int], so the first mask is computed on [unsigned int] and converted
    back on assignment to [part1]. *)
Definition cmd17_block_no (c1 c2 c3 c4 : Z) : Z :=
  let part1 := wrap32 (Z.land (to_u32 (wrap32 (Z.shiftl (char_to_int c1) 24))) 0xFF000000) in
  let part2 := Z.land (wrap32 (Z.shiftl (char_to_int c2) 16)) 0x00FF0000 in
  let part3 := Z.land (wrap32 (Z.shiftl (char_to_int c3) 8)) 0x0000FF00 in
  let part4 := Z.land (char_to_int c4) 0x000000FF in
  Z.lor (Z.lor (Z.lor part1 part2) part3) part4.

(** Lines 288-289: [memcpy(block_to_read + 1, sd_storage + off, BLOCK_SIZE)]. *)
Definition copy_block (btr : list Z) (st : Z -> Z) (off : Z) : outcome (list Z) :=
  if (0 <=? off) && (off + BLOCK_SIZE <=? STORAGE_SIZE) then
    if 1 + BLOCK_SIZE <=? Z.of_nat (length btr) then
      Ok (memcpy btr 1 st off (Z.to_nat BLOCK_SIZE))
    else Undefined The_block_to_read
  else Undefined The_sd_storage.

(** Lines 255-274: the [switch] on [sd_cmd[0]], here [op]. *)
Definition reply_switch (op : Z) (s : sd) : outcome (Z * sd) :=
  if op =? 0x40 then Ok (0x01, s)
  else if op =? 0x48 then
    c <- aget The_cmd8_reply cmd8_reply (cmd8_idx s) ;;
    Ok (to_u64 (char_to_int c), set_cmd8_idx (cmd8_idx s + 1) s)
  else if op =? 0x7A then
    c <- aget The_cmd58_reply cmd58_reply (cmd58_idx s) ;;
    Ok (to_u64 (char_to_int c), set_cmd58_idx (cmd58_idx s + 1) s)
  else if (op =? 0x50) || (op =? 0x51) || (op =? 0x69) || (op =? 0x77) then
    Ok (0x00, s)
  else Abort.

(** Lines 276-310: the chain of [if]s that follows the [switch].  A read
    never writes [sd_cmd], so every [sd_cmd[0]] of the chain is the [op] of
    the [switch]; [ret] is the value the [switch] left. *)
Definition reply_chain (op ret : Z) (s : sd) : outcome (Z * sd) :=
  if (op =? 0x51) && (cmd17_idx s =? -1) then
    let s := set_cmd17_idx 0 s in
    c1 <- aget The_sd_cmd (sd_cmd s) 1 ;;
    c2 <- aget The_sd_cmd (sd_cmd s) 2 ;;
    c3 <- aget The_sd_cmd (sd_cmd s) 3 ;;
    c4 <- aget The_sd_cmd (sd_cmd s) 4 ;;
    let block_no := cmd17_block_no c1 c2 c3 c4 in
    btr <- copy_block (block_to_read s) (sd_storage s) (wrap32 (block_no * BLOCK_SIZE)) ;;
    Ok (ret, set_block_to_read btr s)
  else if (op =? 0x51) && (cmd17_idx s <? BLOCK_SIZE) then
    c <- aget The_block_to_read (block_to_read s) (cmd17_idx s) ;;
    Ok (to_u64 (char_to_int c), set_cmd17_idx (cmd17_idx s + 1) s)
  else if (op =? 0x51) && (cmd17_idx s =? BLOCK_SIZE) then
    c <- aget The_block_to_read (block_to_read s) (cmd17_idx s) ;;
    Ok (to_u64 (char_to_int c), sd_done (set_cmd17_idx (-1) s))
  else if (op =? 0x7A) && (cmd58_idx s =? 5) then
    Ok (ret, sd_done (set_cmd58_idx 0 s))
  else if (op =? 0x48) && (cmd8_idx s =? 5) then
    Ok (ret, sd_done (set_cmd8_idx 0 s))
  else if negb (op =? 0x7A) && negb (op =? 0x48) then
    Ok (ret, sd_done s)
  else Ok (ret, s).

(** [egos_sd_read], lines 236-314.  The increments [cmd8_idx++],
    [cmd58_idx++] and [cmd17_idx++] follow an access at that index, which is
    inside an array of at most 513 cells, so they cannot wrap. *)
Definition egos_sd_read (s : sd) (addr : Z) : outcome (Z * sd) :=
  if negb (addr =? SPI1_RXDATA) then Ok (0, s)
  else if negb (bool_decide (sd_state s = SD_READY)) then
    Ok (0xFF, if 6 <=? sd_cmd_idx s then set_sd_state SD_READY s else s)
  else
    btr <- aset The_block_to_read (block_to_read s) 0 0xFE ;;
    let s := set_block_to_read btr s in
    c0 <- aget The_sd_cmd (sd_cmd s) 0 ;;
    let op := char_to_int c0 in
    rs <- reply_switch op s ;;
    rs <- reply_chain op (fst rs) (snd rs) ;;
    Ok (Z.land (fst rs) 0xFF, snd rs).

(** [sd_cmd[sd_cmd_idx++] = c]. *)
Definition push_cmd (c : Z) (s : sd) : outcome sd :=
  a <- aset The_sd_cmd (sd_cmd s) (sd_cmd_idx s) c ;;
  Ok (set_sd_cmd_idx (sd_cmd_idx s + 1) (set_sd_cmd a s)).

(** The [Receiving*] state a recognised opcode leads to (lines 328-356). *)
Definition opcode_state (val64 : Z) : option sd_state_t :=
  if val64 =? 0x40 then Some SD_GETTING_CMD0
  else if val64 =? 0x48 then Some SD_GETTING_CMD8
  else if val64 =? 0x50 then Some SD_GETTING_CMD16
  else if val64 =? 0x51 then Some SD_GETTING_CMD17
  else if val64 =? 0x69 then Some SD_GETTING_ACMD41
  else if val64 =? 0x77 then Some SD_GETTING_CMD55
  else if val64 =? 0x7A then Some SD_GETTING_CMD58
  else None.

(** [egos_sd_write], lines 316-363.  In every recognised case the byte
    stored is the case label itself, that is [val64]. *)
Definition egos_sd_write (s : sd) (addr val64 : Z) : outcome sd :=
  if negb (addr =? SPI1_TXDATA) then Ok s
  else if negb (bool_decide (sd_state s = SD_IDLE))
          && negb (bool_decide (sd_state s = SD_READY)) then
    s1 <- push_cmd (to_char val64) s ;;
    if sd_cmd_idx s1 =? 32 then Abort else Ok s1
  else
    match opcode_state val64 with
    | Some st =>
        s1 <- push_cmd val64 s ;;
        Ok (set_sd_state st s1)
    | None => if val64 =? 0xFF then Ok s else Abort
    end.

(** The recognised opcodes with their receiving states (lines 328-356). *)
Definition opcode_table : list (Z * sd_state_t) :=
  [(0x40, SD_GETTING_CMD0); (0x48, SD_GETTING_CMD8); (0x50, SD_GETTING_CMD16);
   (0x51, SD_GETTING_CMD17); (0x69, SD_GETTING_ACMD41);
   (0x77, SD_GETTING_CMD55); (0x7A, SD_GETTING_CMD58)].

(** The two operations of the specification. *)
Definition handle_outgoing_byte (s : sd) (value : Z) : outcome sd :=
  egos_sd_write s SPI1_TXDATA value.
Definition handle_incoming_byte_request (s : sd) : outcome (Z * sd) :=
  egos_sd_read s SPI1_RXDATA.

(** A sequence of register accesses; the bytes read are collected in order. *)
Fixpoint run (ops : list access) (s : sd) : outcome (list Z * sd) :=
  match ops with
  | [] => Ok ([], s)
  | Rd a :: ops' =>
      rs <- egos_sd_read s a ;;
      x <- run ops' (snd rs) ;;
      Ok (fst rs :: fst x, snd x)
  | Wr a v :: ops' =>
      s1 <- egos_sd_write s a v ;;
      run ops' s1
  end.

(** States the device can be in after reset and any number of accesses that
    neither abort nor leave an array (C gives no meaning to what follows an
    access outside an array). *)
Inductive reachable : sd -> Prop :=
| reach_init (st : Z -> Z) :
    (forall i, is_byte (st i)) -> reachable (sd_init st)
| reach_read (s : sd) (addr r : Z) (s' : sd) :
    reachable s -> egos_sd_read s addr = Ok (r, s') -> reachable s'
| reach_write (s : sd) (addr v : Z) (s' : sd) :
    reachable s -> egos_sd_write s addr v = Ok s' -> reachable s'.

(** ** Definitions used by the proofs *)

(** The value of a byte read as a signed 8-bit quantity. *)
Definition signed8 (c : Z) : Z := if 128 <=? c then c - 256 else c.

(** ** The invariant of the reachable states *)

Definition inv (s : sd) : Prop :=
  length (sd_cmd s) = 32%nat /\
  length (block_to_read s) = 513%nat /\
  Forall is_byte (sd_cmd s) /\
  (forall i, is_byte (sd_storage s i)) /\
  0 <= sd_cmd_idx s <= 32 /\
  (sd_state s = SD_IDLE <-> sd_cmd_idx s = 0) /\
  (sd_state s = SD_READY -> 6 <= sd_cmd_idx s) /\
  0 <= cmd8_idx s < 5 /\
  (cmd8_idx s <> 0 -> sd_cmd s !! 0%nat = Some 0x48 /\ sd_cmd_idx s <> 0) /\
  0 <= cmd58_idx s < 5 /\
  (cmd58_idx s <> 0 -> sd_cmd s !! 0%nat = Some 0x7A /\ sd_cmd_idx s <> 0) /\
  -1 <= cmd17_idx s <= 512 /\
  (cmd17_idx s <> -1 -> sd_cmd s !! 0%nat = Some 0x51 /\ sd_cmd_idx s <> 0).

(** The commands answered by a single byte: CMD0, CMD16, ACMD41, CMD55. *)
Definition one_byte_reply (c0 : Z) : option Z :=
  if c0 =? 0x40 then Some 0x01
  else if (c0 =? 0x50) || (c0 =? 0x69) || (c0 =? 0x77) then Some 0x00
  else None.

(** The state once a whole frame has been written from idle. *)
Definition after_frame (st : sd_state_t) (op a1 a2 a3 a4 crc : Z) (s : sd) : sd :=
  set_sd_state st
    (set_sd_cmd_idx 6 (set_sd_cmd (frame_cmd op a1 a2 a3 a4 crc (sd_cmd s)) s)).

(** What an access sequence lets the host see: the bytes read, or how the
    run stopped. *)
Definition outputs (x : outcome (list Z * sd)) : outcome (list Z) :=
  match x with
  | Ok p => Ok (fst p)
  | Abort => Abort
  | Undefined o => Undefined o
  end.

(** Agreement of two states on all that later accesses can depend on. *)
Definition same_visible (s t : sd) : Prop :=
  sd_state s = sd_state t /\ sd_cmd_idx s = sd_cmd_idx t /\
  sd_storage s = sd_storage t /\
  cmd8_idx s = cmd8_idx t /\ cmd58_idx s = cmd58_idx t /\
  cmd17_idx s = cmd17_idx t /\
  command_buffer s = command_buffer t /\
  (cmd17_idx s <> -1 -> block_to_read s = block_to_read t).

Definition sim_outcome {A : Type} (R : A -> A -> Prop) (x y : outcome A) : Prop :=
  match x, y with
  | Ok a, Ok b => R a b
  | Abort, Abort => True
  | Undefined o, Undefined o' => o = o'
  | _, _ => False
  end.

Definition read_rel (x y : Z * sd) : Prop :=
  fst x = fst y /\ same_visible (snd x) (snd y).

(** The staging buffer during a transfer from byte offset [off]. *)
Definition staged (sto : Z -> Z) (off : Z) : list Z :=
  0xFE :: map sto (seqZ off BLOCK_SIZE).

(** The opcode of the frame being received or answered is a recognised one. *)
Definition inv_opcode (s : sd) : Prop :=
  sd_cmd_idx s <> 0 ->
  exists c st, sd_cmd s !! 0%nat = Some c /\ opcode_state c = Some st.

(** Two ready states that differ at most in [sd_cmd_idx] and in the cells of
    [sd_cmd] from index 5 on. *)
Definition ready_rel (s t : sd) : Prop :=
  sd_state s = SD_READY /\ sd_state t = SD_READY /\
  sd_storage s = sd_storage t /\
  cmd8_idx s = cmd8_idx t /\ cmd58_idx s = cmd58_idx t /\
  cmd17_idx s = cmd17_idx t /\
  block_to_read s = block_to_read t /\
  (forall i : nat, (i < 5)%nat -> sd_cmd s !! i = sd_cmd t !! i).

(** Two idle states with an empty command buffer. *)
Definition idle_rel (s t : sd) : Prop :=
  sd_state s = SD_IDLE /\ sd_state t = SD_IDLE /\
  sd_cmd_idx s = 0 /\ sd_cmd_idx t = 0.

Definition wait_rel (s t : sd) : Prop := ready_rel s t \/ idle_rel s t.

Definition wait_read_rel (x y : Z * sd) : Prop :=
  fst x = fst y /\ wait_rel (snd x) (snd y).

(** * Lemmas *)

(** ** Arithmetic of bytes and words *)

Lemma byte_forallb (P : Z -> bool) :
  forallb P (map Z.of_nat (seq 0 256)) = true ->
  forall c, is_byte c -> P c = true.
Proof.
  intros H c Hc. rewrite forallb_forall in H. apply H.
  apply in_map_iff. exists (Z.to_nat c). unfold is_byte in Hc.
  split; [lia | apply in_seq; lia].
Qed.

Lemma to_char_byte (x : Z) : is_byte (to_char x).
Proof. unfold is_byte, to_char. apply Z.mod_pos_bound. lia. Qed.

Lemma to_char_id (c : Z) : is_byte c -> to_char c = c.
Proof. unfold is_byte, to_char. intros H. apply Z.mod_small. lia. Qed.

(** What a read returns for a [char] cell: [ret = cell; ret &= 0xFF]. *)
Lemma char_ret (c : Z) :
  is_byte c -> Z.land (to_u64 (char_to_int c)) 0xFF = c.
Proof.
  intros Hc. apply Z.eqb_eq. revert c Hc. unfold char_to_int.
  destruct char_signed; apply byte_forallb; vm_compute; reflexivity.
Qed.

Lemma char_to_int_low (c : Z) : 0 <= c < 128 -> char_to_int c = c.
Proof.
  intros Hc. unfold char_to_int.
  destruct (128 <=? c) eqn:E; [apply Z.leb_le in E; lia |].
  now rewrite andb_false_r.
Qed.

(** An opcode below 0x80 is recognised exactly when the cell holds it. *)
Lemma char_to_int_eq_low (c k : Z) :
  is_byte c -> 0 <= k < 128 -> char_to_int c = k <-> c = k.
Proof.
  unfold is_byte, char_to_int. intros Hc Hk.
  destruct char_signed; simpl; [| tauto].
  destruct (128 <=? c) eqn:E; [apply Z.leb_le in E | apply Z.leb_gt in E]; lia.
Qed.

Lemma land_shifted_disjoint (a b n : Z) :
  0 <= n -> 0 <= b < 2 ^ n -> Z.land (a * 2 ^ n) b = 0.
Proof.
  intros Hn Hb. apply Z.bits_inj'. intros i Hi.
  rewrite Z.land_spec, Z.bits_0.
  destruct (Z.lt_ge_cases i n) as [Hlt | Hge].
  - rewrite Z.mul_pow2_bits_low by lia. reflexivity.
  - assert (Z.testbit b i = false) as ->; [| apply andb_false_r].
    destruct (Z.eq_dec b 0) as [-> | Hb0]; [apply Z.bits_0 |].
    apply Z.bits_above_log2; [lia |].
    apply Z.log2_lt_pow2; [lia |].
    apply Z.lt_le_trans with (2 ^ n); [lia |].
    apply Z.pow_le_mono_r; lia.
Qed.

Lemma lor_shifted_add (a b n : Z) :
  0 <= n -> 0 <= b < 2 ^ n -> Z.lor (a * 2 ^ n) b = a * 2 ^ n + b.
Proof.
  intros Hn Hb. pose proof (land_shifted_disjoint a b n Hn Hb) as H0.
  rewrite <- Z.lxor_lor by exact H0.
  symmetry. apply Z.add_nocarry_lxor. exact H0.
Qed.

Lemma block_no_part1 (c : Z) :
  is_byte c ->
  wrap32 (Z.land (to_u32 (wrap32 (Z.shiftl (char_to_int c) 24))) 0xFF000000)
  = signed8 c * 2 ^ 24.
Proof.
  intros Hc. apply Z.eqb_eq. revert c Hc. unfold char_to_int.
  destruct char_signed; apply byte_forallb; vm_compute; reflexivity.
Qed.

Lemma block_no_part2 (c : Z) :
  is_byte c ->
  Z.land (wrap32 (Z.shiftl (char_to_int c) 16)) 0x00FF0000 = c * 2 ^ 16.
Proof.
  intros Hc. apply Z.eqb_eq. revert c Hc. unfold char_to_int.
  destruct char_signed; apply byte_forallb; vm_compute; reflexivity.
Qed.

Lemma block_no_part3 (c : Z) :
  is_byte c ->
  Z.land (wrap32 (Z.shiftl (char_to_int c) 8)) 0x0000FF00 = c * 2 ^ 8.
Proof.
  intros Hc. apply Z.eqb_eq. revert c Hc. unfold char_to_int.
  destruct char_signed; apply byte_forallb; vm_compute; reflexivity.
Qed.

Lemma block_no_part4 (c : Z) :
  is_byte c -> Z.land (char_to_int c) 0x000000FF = c.
Proof.
  intros Hc. apply Z.eqb_eq. revert c Hc. unfold char_to_int.
  destruct char_signed; apply byte_forallb; vm_compute; reflexivity.
Qed.

Lemma signed8_range (c : Z) : is_byte c -> -128 <= signed8 c < 128.
Proof.
  unfold is_byte, signed8. intros Hc.
  destruct (128 <=? c) eqn:E; [apply Z.leb_le in E | apply Z.leb_gt in E]; lia.
Qed.

Lemma cmd17_block_no_sum (c1 c2 c3 c4 : Z) :
  is_byte c1 -> is_byte c2 -> is_byte c3 -> is_byte c4 ->
  cmd17_block_no c1 c2 c3 c4
  = signed8 c1 * 2 ^ 24 + c2 * 2 ^ 16 + c3 * 2 ^ 8 + c4.
Proof.
  intros H1 H2 H3 H4. unfold cmd17_block_no. cbv zeta.
  rewrite block_no_part1, block_no_part2, block_no_part3, block_no_part4
    by assumption.
  unfold is_byte in *.
  rewrite (lor_shifted_add (signed8 c1) (c2 * 2 ^ 16) 24) by lia.
  replace (signed8 c1 * 2 ^ 24 + c2 * 2 ^ 16)
    with ((signed8 c1 * 2 ^ 8 + c2) * 2 ^ 16) by lia.
  rewrite (lor_shifted_add _ (c3 * 2 ^ 8) 16) by lia.
  replace ((signed8 c1 * 2 ^ 8 + c2) * 2 ^ 16 + c3 * 2 ^ 8)
    with (((signed8 c1 * 2 ^ 8 + c2) * 2 ^ 8 + c3) * 2 ^ 8) by lia.
  rewrite (lor_shifted_add _ c4 8) by lia.
  lia.
Qed.

(** ** Array accesses *)

Lemma aget_Ok (o : object) (a : list Z) (i c : Z) :
  0 <= i -> a !! Z.to_nat i = Some c -> aget o a i = Ok c.
Proof.
  intros Hi Hl. unfold aget.
  destruct (0 <=? i) eqn:E; [| apply Z.leb_gt in E; lia].
  now rewrite Hl.
Qed.

Lemma aget_Ok_inv (o : object) (a : list Z) (i c : Z) :
  aget o a i = Ok c -> 0 <= i /\ a !! Z.to_nat i = Some c.
Proof.
  unfold aget. destruct (0 <=? i) eqn:E; [| discriminate].
  apply Z.leb_le in E. destruct (a !! Z.to_nat i); [| discriminate].
  intros [= ->]. auto.
Qed.

Lemma aget_in_range (o : object) (a : list Z) (i : Z) :
  0 <= i < Z.of_nat (length a) -> exists c, aget o a i = Ok c.
Proof.
  intros Hi. destruct (lookup_lt_is_Some_2 a (Z.to_nat i)) as [c Hc]; [lia |].
  exists c. apply aget_Ok; [lia | exact Hc].
Qed.

Lemma aset_Ok (o : object) (a : list Z) (i c : Z) :
  0 <= i < Z.of_nat (length a) -> aset o a i c = Ok (<[Z.to_nat i := c]> a).
Proof.
  intros Hi. unfold aset.
  destruct (0 <=? i) eqn:E1; [| apply Z.leb_gt in E1; lia].
  destruct (i <? Z.of_nat (length a)) eqn:E2; [| apply Z.ltb_ge in E2; lia].
  reflexivity.
Qed.

Lemma aset_Ok_inv (o : object) (a a' : list Z) (i c : Z) :
  aset o a i c = Ok a' ->
  0 <= i < Z.of_nat (length a) /\ a' = <[Z.to_nat i := c]> a.
Proof.
  unfold aset.
  destruct (0 <=? i) eqn:E1; [apply Z.leb_le in E1 | discriminate].
  destruct (i <? Z.of_nat (length a)) eqn:E2; [apply Z.ltb_lt in E2 | discriminate].
  simpl. intros [= <-]. auto.
Qed.

Lemma aset_out (o : object) (a : list Z) (i c : Z) :
  ~ 0 <= i < Z.of_nat (length a) -> aset o a i c = Undefined o.
Proof.
  intros Hi. unfold aset.
  destruct (0 <=? i) eqn:E1; [apply Z.leb_le in E1 | reflexivity].
  destruct (i <? Z.of_nat (length a)) eqn:E2; [apply Z.ltb_lt in E2; lia | reflexivity].
Qed.

(** ** [memcpy] *)

Lemma length_memcpy (n : nat) (dst : list Z) (d : nat) (src : Z -> Z) (so : Z) :
  length (memcpy dst d src so n) = length dst.
Proof.
  revert dst d so. induction n as [| n IH]; intros dst d so; simpl; [reflexivity |].
  rewrite IH. apply length_insert.
Qed.

Lemma memcpy_spec (n : nat) (dst : list Z) (d : nat) (src : Z -> Z) (so : Z) :
  (d + n <= length dst)%nat ->
  memcpy dst d src so n
  = take d dst ++ map src (seqZ so (Z.of_nat n)) ++ drop (d + n) dst.
Proof.
  revert dst d so. induction n as [| n IH]; intros dst d so Hlen.
  - simpl. rewrite Nat.add_0_r. symmetry. apply take_drop.
  - cbn [memcpy]. rewrite IH by (rewrite length_insert; lia).
    rewrite (seqZ_cons so (Z.of_nat (S n))) by lia.
    replace (Z.pred (Z.of_nat (S n))) with (Z.of_nat n) by lia.
    replace (Z.succ so) with (so + 1) by lia.
    destruct (lookup_lt_is_Some_2 dst d) as [x Hx]; [lia |].
    rewrite (take_S_r (<[d:=src so]> dst) d (src so))
      by (apply list_lookup_insert_eq; lia).
    rewrite take_insert_ge by lia.
    rewrite drop_insert_lt by lia.
    replace (S d + n)%nat with (d + S n)%nat by lia.
    rewrite <- app_assoc. reflexivity.
Qed.

Lemma seqZ_bytes (src : Z -> Z) (so n : Z) :
  (forall i, is_byte (src i)) -> Forall is_byte (map src (seqZ so n)).
Proof.
  intros H. apply Forall_forall. intros x Hx.
  apply list_elem_of_fmap in Hx. destruct Hx as [y [-> _]]. apply H.
Qed.

(** The staging buffer after the copy: the start token, then the block. *)
Lemma copy_block_Ok (btr : list Z) (st : Z -> Z) (off : Z) :
  length btr = 513%nat ->
  0 <= off -> off + BLOCK_SIZE <= STORAGE_SIZE ->
  copy_block btr st off = Ok (take 1 btr ++ map st (seqZ off BLOCK_SIZE)).
Proof.
  intros Hlen H0 H1. unfold copy_block.
  destruct (0 <=? off) eqn:E1; [| apply Z.leb_gt in E1; lia].
  destruct (off + BLOCK_SIZE <=? STORAGE_SIZE) eqn:E2; [| apply Z.leb_gt in E2; lia].
  cbn [andb].
  assert ((1 + BLOCK_SIZE <=? Z.of_nat (length btr)) = true) as ->
    by (apply Z.leb_le; rewrite Hlen; unfold BLOCK_SIZE; lia).
  assert (Z.to_nat BLOCK_SIZE = 512%nat) as Hn by reflexivity.
  rewrite memcpy_spec by lia.
  rewrite (drop_ge btr) by lia.
  rewrite app_nil_r, Hn. reflexivity.
Qed.

Lemma copy_block_out (btr : list Z) (st : Z -> Z) (off : Z) :
  ~ (0 <= off /\ off + BLOCK_SIZE <= STORAGE_SIZE) ->
  copy_block btr st off = Undefined The_sd_storage.
Proof.
  intros H. unfold copy_block.
  destruct (0 <=? off) eqn:E1; [apply Z.leb_le in E1 | reflexivity].
  destruct (off + BLOCK_SIZE <=? STORAGE_SIZE) eqn:E2;
    [apply Z.leb_le in E2; tauto | reflexivity].
Qed.

Lemma copy_block_Ok_inv (btr btr' : list Z) (st : Z -> Z) (off : Z) :
  copy_block btr st off = Ok btr' ->
  0 <= off /\ off + BLOCK_SIZE <= STORAGE_SIZE /\
  513 <= Z.of_nat (length btr) /\
  btr' = memcpy btr 1 st off (Z.to_nat BLOCK_SIZE).
Proof.
  unfold copy_block.
  destruct (0 <=? off) eqn:E1; [apply Z.leb_le in E1 | discriminate].
  destruct (off + BLOCK_SIZE <=? STORAGE_SIZE) eqn:E2;
    [apply Z.leb_le in E2 | discriminate].
  cbn [andb].
  destruct (1 + BLOCK_SIZE <=? Z.of_nat (length btr)) eqn:E3;
    [apply Z.leb_le in E3 | discriminate].
  intros H.
  split; [exact E1 | split; [exact E2 | split]].
  - unfold BLOCK_SIZE in E3. lia.
  - apply (f_equal (fun o => match o with Ok x => x | _ => btr' end)) in H.
    symmetry. exact H.
Qed.

Ltac bool_hyps :=
  repeat match goal with
  | H : _ && _ = true |- _ => apply andb_true_iff in H; destruct H
  | H : _ && _ = false |- _ => apply andb_false_iff in H
  | H : _ || _ = true |- _ => apply orb_true_iff in H
  | H : _ || _ = false |- _ => apply orb_false_iff in H; destruct H
  | H : negb _ = true |- _ => apply negb_true_iff in H
  | H : negb _ = false |- _ => apply negb_false_iff in H
  | H : (_ =? _) = true |- _ => apply Z.eqb_eq in H
  | H : (_ =? _) = false |- _ => apply Z.eqb_neq in H
  | H : (_ <=? _) = true |- _ => apply Z.leb_le in H
  | H : (_ <=? _) = false |- _ => apply Z.leb_gt in H
  | H : (_ <? _) = true |- _ => apply Z.ltb_lt in H
  | H : (_ <? _) = false |- _ => apply Z.ltb_ge in H
  | H : bool_decide _ = true |- _ => apply bool_decide_eq_true in H
  | H : bool_decide _ = false |- _ => apply bool_decide_eq_false in H
  end.

Lemma opcode_state_Some (v : Z) (st : sd_state_t) :
  opcode_state v = Some st ->
  (v = 0x40 /\ st = SD_GETTING_CMD0) \/ (v = 0x48 /\ st = SD_GETTING_CMD8) \/
  (v = 0x50 /\ st = SD_GETTING_CMD16) \/ (v = 0x51 /\ st = SD_GETTING_CMD17) \/
  (v = 0x69 /\ st = SD_GETTING_ACMD41) \/ (v = 0x77 /\ st = SD_GETTING_CMD55) \/
  (v = 0x7A /\ st = SD_GETTING_CMD58).
Proof.
  unfold opcode_state.
  repeat (destruct (v =? _) eqn:?; bool_hyps;
          [intros [= <-]; tauto |]).
  discriminate.
Qed.

Lemma opcode_state_receiving (v : Z) (st : sd_state_t) :
  opcode_state v = Some st -> st <> SD_IDLE /\ st <> SD_READY /\ 0 <= v < 128.
Proof.
  intros H. apply opcode_state_Some in H.
  repeat (destruct H as [[-> ->] | H]; [repeat split; (discriminate || lia) |]).
  destruct H as [-> ->]. repeat split; (discriminate || lia).
Qed.

Lemma inv_init (st : Z -> Z) : (forall i, is_byte (st i)) -> inv (sd_init st).
Proof.
  intros Hst. unfold inv, sd_init.
  cbn [sd_state sd_cmd_idx sd_cmd sd_storage cmd8_idx cmd58_idx cmd17_idx
       block_to_read].
  rewrite !length_replicate.
  repeat split; try lia; try done.
  all: try (apply Forall_replicate; unfold is_byte; lia).
  all: apply Hst.
Qed.

Lemma push_cmd_Ok_inv (c : Z) (s s1 : sd) :
  push_cmd c s = Ok s1 ->
  0 <= sd_cmd_idx s < Z.of_nat (length (sd_cmd s)) /\
  s1 = set_sd_cmd_idx (sd_cmd_idx s + 1)
         (set_sd_cmd (<[Z.to_nat (sd_cmd_idx s) := c]> (sd_cmd s)) s).
Proof.
  unfold push_cmd.
  destruct (aset The_sd_cmd (sd_cmd s) (sd_cmd_idx s) c) as [a | |] eqn:E;
    try discriminate.
  apply aset_Ok_inv in E. destruct E as [Hr ->].
  simpl. intros [= <-]. auto.
Qed.

Lemma push_cmd_Ok (c : Z) (s : sd) :
  0 <= sd_cmd_idx s < Z.of_nat (length (sd_cmd s)) ->
  push_cmd c s
  = Ok (set_sd_cmd_idx (sd_cmd_idx s + 1)
          (set_sd_cmd (<[Z.to_nat (sd_cmd_idx s) := c]> (sd_cmd s)) s)).
Proof. intros H. unfold push_cmd. rewrite aset_Ok by exact H. reflexivity. Qed.

Lemma lookup0_insert_pos (l : list Z) (i c : Z) :
  0 < i -> <[Z.to_nat i := c]> l !! 0%nat = l !! 0%nat.
Proof. intros Hi. apply list_lookup_insert_ne. lia. Qed.

Lemma Forall_insert_byte (l : list Z) (i : nat) (c : Z) :
  Forall is_byte l -> is_byte c -> Forall is_byte (<[i := c]> l).
Proof. intros Hl Hc. apply Forall_insert; assumption. Qed.

Lemma inv_write (s : sd) (addr v : Z) (s' : sd) :
  inv s -> egos_sd_write s addr v = Ok s' -> inv s'.
Proof.
  intros Hinv. unfold egos_sd_write.
  destruct (negb (addr =? SPI1_TXDATA)); [intros [= <-]; exact Hinv |].
  destruct Hinv as (Hlc & Hlb & Hbc & Hst & Hidx & Hidle & Hready
                    & H8 & H8op & H58 & H58op & H17 & H17op).
  destruct (negb (bool_decide (sd_state s = SD_IDLE))
            && negb (bool_decide (sd_state s = SD_READY))) eqn:Est.
  - (* a frame byte *)
    bool_hyps.
    destruct (push_cmd (to_char v) s) as [s1 | |] eqn:Ep; try discriminate.
    apply push_cmd_Ok_inv in Ep. destruct Ep as [Hr ->]. simpl.
    destruct (sd_cmd_idx s + 1 =? 32) eqn:E32; [discriminate |].
    bool_hyps. intros [= <-].
    assert (sd_cmd_idx s <> 0) by tauto.
    unfold inv. simpl. rewrite length_insert.
    rewrite lookup0_insert_pos by lia.
    repeat split; try lia; try tauto; try (intros; exfalso; tauto).
    + apply Forall_insert_byte; [assumption | apply to_char_byte].
    + apply Hst.
    + apply Hst.
  - (* an opcode, the idle byte, or an unknown command *)
    destruct (opcode_state v) as [st |] eqn:Eop.
    + destruct (push_cmd v s) as [s1 | |] eqn:Ep; try discriminate.
      apply push_cmd_Ok_inv in Ep. destruct Ep as [Hr ->]. simpl.
      intros [= <-].
      pose proof (opcode_state_receiving v st Eop) as (Hni & Hnr & Hv).
      unfold inv. simpl. rewrite length_insert.
      assert (Hl0 : sd_cmd_idx s <> 0 ->
                    <[Z.to_nat (sd_cmd_idx s) := v]> (sd_cmd s) !! 0%nat
                    = sd_cmd s !! 0%nat)
        by (intros; apply lookup0_insert_pos; lia).
      repeat split; try lia; try tauto; try (intros; exfalso; tauto).
      * apply Forall_insert_byte; [assumption | unfold is_byte; lia].
      * apply Hst.
      * apply Hst.
      * rewrite Hl0 by tauto. tauto.
      * rewrite Hl0 by tauto. tauto.
      * rewrite Hl0 by tauto. tauto.
    + destruct (v =? 0xFF); [| discriminate].
      intros [= <-]. unfold inv. tauto.
Qed.

Lemma char_to_int_eqb (c k : Z) :
  is_byte c -> 0 <= k < 128 -> (char_to_int c =? k) = (c =? k).
Proof.
  intros Hc Hk. pose proof (char_to_int_eq_low c k Hc Hk) as H.
  destruct (c =? k) eqn:E; bool_hyps.
  - apply Z.eqb_eq. tauto.
  - apply Z.eqb_neq. tauto.
Qed.

#[local] Arguments memcpy : simpl never.
#[local] Arguments copy_block : simpl never.
#[local] Arguments cmd17_block_no : simpl never.
#[local] Arguments wrap32 : simpl never.
#[local] Arguments aget : simpl never.
#[local] Arguments aset : simpl never.

Ltac inv_leaf :=
  unfold inv; simpl; rewrite ?length_memcpy, ?length_insert;
  try match goal with H : _ !! 0%nat = Some _ |- _ => rewrite ?H end;
  repeat split; try lia; try tauto; try discriminate;
  try (intros; exfalso; lia); try (intros; f_equal; lia);
  try match goal with H : forall i, is_byte _ |- _ => apply H end;
  try assumption.

Lemma inv_read (s : sd) (addr r : Z) (s' : sd) :
  inv s -> egos_sd_read s addr = Ok (r, s') -> inv s'.
Proof.
  intros Hinv. unfold egos_sd_read.
  destruct (negb (addr =? SPI1_RXDATA)); [intros [= _ <-]; exact Hinv |].
  destruct Hinv as (Hlc & Hlb & Hbc & Hst & Hidx & Hidle & Hready
                    & H8 & H8op & H58 & H58op & H17 & H17op).
  destruct (negb (bool_decide (sd_state s = SD_READY))) eqn:Est; bool_hyps.
  - (* not ready: the filler byte *)
    destruct (6 <=? sd_cmd_idx s) eqn:E6; bool_hyps; intros [= _ <-].
    + inv_leaf.
    + unfold inv. tauto.
  - (* ready: one byte of the reply *)
    rewrite aset_Ok by lia. cbn [bind].
    destruct (lookup_lt_is_Some_2 (sd_cmd s) 0%nat) as [c0 Hc0]; [lia |].
    assert (Hb0 : is_byte c0)
      by (eapply Forall_lookup_1; [exact Hbc | exact Hc0]).
    cbn [sd_cmd set_block_to_read].
    rewrite (aget_Ok _ _ 0 c0) by (exact Hc0 || lia).
    cbn [bind]. rewrite Hc0 in H8op, H58op, H17op.
    assert (H8' : cmd8_idx s <> 0 -> c0 = 0x48)
      by (intros X; apply H8op in X; destruct X; congruence).
    assert (H58' : cmd58_idx s <> 0 -> c0 = 0x7A)
      by (intros X; apply H58op in X; destruct X; congruence).
    assert (H17' : cmd17_idx s <> -1 -> c0 = 0x51)
      by (intros X; apply H17op in X; destruct X; congruence).
    assert (Hpos : 6 <= sd_cmd_idx s) by tauto.
    clear H8op H58op H17op.
    unfold reply_switch, reply_chain.
    rewrite !(char_to_int_eqb c0) by (assumption || lia).
    destruct (c0 =? 64) eqn:E40; bool_hyps.
    { subst c0. simpl. intros [= _ <-]. inv_leaf. }
    destruct (c0 =? 72) eqn:E48; bool_hyps.
    { subst c0. simpl.
      destruct (aget The_cmd8_reply cmd8_reply (cmd8_idx s)) as [c | |] eqn:Ec;
        try discriminate.
      simpl. destruct (cmd8_idx s + 1 =? 5) eqn:E5; bool_hyps;
        intros [= _ <-]; inv_leaf. }
    destruct (c0 =? 122) eqn:E7A; bool_hyps.
    { subst c0. simpl.
      destruct (aget The_cmd58_reply cmd58_reply (cmd58_idx s)) as [c | |] eqn:Ec;
        try discriminate.
      simpl. destruct (cmd58_idx s + 1 =? 5) eqn:E5; bool_hyps;
        intros [= _ <-]; inv_leaf. }
    destruct (c0 =? 81) eqn:E51; bool_hyps.
    { subst c0.
      cbn [bind fst snd cmd17_idx cmd8_idx cmd58_idx set_block_to_read
           sd_cmd sd_storage block_to_read negb andb orb Z.eqb Pos.eqb].
      destruct (cmd17_idx s =? -1) eqn:Efirst; bool_hyps.
      { (* staging the block *)
        cbn [cmd17_idx cmd8_idx cmd58_idx set_block_to_read set_cmd17_idx
             sd_cmd sd_storage block_to_read].
        repeat match goal with
        | |- context [aget The_sd_cmd (sd_cmd s) ?i] =>
            destruct (aget The_sd_cmd (sd_cmd s) i) as [? | |];
            [cbn [bind] | discriminate | discriminate]
        end.
        match goal with
        | |- context [copy_block ?b ?st ?off] =>
            destruct (copy_block b st off) as [btr' | |] eqn:Ecp;
            [cbn [bind] | discriminate | discriminate]
        end.
        apply copy_block_Ok_inv in Ecp. destruct Ecp as (_ & _ & _ & Hb').
        assert (Hlen' : length btr' = 513%nat)
          by (rewrite Hb', length_memcpy, length_insert; exact Hlb).
        clear Hb'.
        intros [= _ <-]. inv_leaf. }
      destruct (cmd17_idx s <? BLOCK_SIZE) eqn:Elt; bool_hyps.
      { destruct (aget The_block_to_read _ (cmd17_idx s)) as [c | |] eqn:Ec;
          try discriminate.
        apply aget_Ok_inv in Ec. destruct Ec as [Hge _].
        unfold BLOCK_SIZE in *.
        cbn [bind]. intros [= _ <-]. inv_leaf. }
      destruct (cmd17_idx s =? BLOCK_SIZE) eqn:Elast; bool_hyps.
      { destruct (aget The_block_to_read _ (cmd17_idx s)) as [c | |] eqn:Ec;
          try discriminate.
        cbn [bind]. intros [= _ <-]. inv_leaf. }
      unfold BLOCK_SIZE in *. lia. }
    destruct ((c0 =? 80) || false || (c0 =? 105) || (c0 =? 119)) eqn:Eo;
      [| discriminate].
    simpl.
    assert (Hn : (c0 =? 81) = false) by (apply Z.eqb_neq; assumption).
    assert (Hn1 : (c0 =? 122) = false) by (apply Z.eqb_neq; assumption).
    assert (Hn2 : (c0 =? 72) = false) by (apply Z.eqb_neq; assumption).
    rewrite ?Hn, ?Hn1, ?Hn2. simpl. intros [= _ <-]. inv_leaf.
Qed.

Theorem reachable_inv (s : sd) : reachable s -> inv s.
Proof.
  induction 1 as [st Hst | s addr r s' _ IH Hrd | s addr v s' _ IH Hwr].
  - apply inv_init. exact Hst.
  - eapply inv_read; eassumption.
  - eapply inv_write; eassumption.
Qed.

Ltac sd_cbn :=
  unfold sd_done, set_sd_state, set_sd_cmd_idx, set_sd_cmd, set_cmd8_idx,
    set_cmd58_idx, set_cmd17_idx, set_block_to_read;
  cbn [bind fst snd Z.eqb Pos.eqb Z.ltb Z.leb Z.compare Pos.compare
       Pos.compare_cont andb negb orb
       sd_state sd_cmd_idx sd_cmd sd_storage cmd8_idx cmd58_idx cmd17_idx
       block_to_read].

(** ** One access at a time *)

Lemma read_other_offset (s : sd) (addr : Z) :
  addr <> SPI1_RXDATA -> egos_sd_read s addr = Ok (0, s).
Proof.
  intros H. unfold egos_sd_read.
  destruct (addr =? SPI1_RXDATA) eqn:E; bool_hyps; [contradiction | reflexivity].
Qed.

Lemma read_not_ready (s : sd) :
  sd_state s <> SD_READY ->
  egos_sd_read s SPI1_RXDATA
  = Ok (0xFF, if 6 <=? sd_cmd_idx s then set_sd_state SD_READY s else s).
Proof.
  intros H. unfold egos_sd_read. rewrite Z.eqb_refl. cbn [negb].
  rewrite bool_decide_eq_false_2 by exact H. reflexivity.
Qed.

(** The common prefix of every read in state [SD_READY]. *)
Lemma read_ready (s : sd) (c0 : Z) :
  sd_state s = SD_READY ->
  (0 < length (block_to_read s))%nat ->
  sd_cmd s !! 0%nat = Some c0 ->
  egos_sd_read s SPI1_RXDATA
  = (rs <- reply_switch (char_to_int c0)
             (set_block_to_read (<[0%nat := 0xFE]> (block_to_read s)) s) ;;
     rs <- reply_chain (char_to_int c0) (fst rs) (snd rs) ;;
     Ok (Z.land (fst rs) 0xFF, snd rs)).
Proof.
  intros Hst Hlen Hc0. unfold egos_sd_read. rewrite Z.eqb_refl. cbn [negb].
  rewrite bool_decide_eq_true_2 by exact Hst. cbn [negb].
  rewrite aset_Ok by lia. cbn [bind].
  cbn [sd_cmd set_block_to_read].
  rewrite (aget_Ok _ _ 0 c0) by (exact Hc0 || lia). reflexivity.
Qed.

Lemma read_ready_one_byte (s : sd) (c0 ret : Z) :
  sd_state s = SD_READY ->
  (0 < length (block_to_read s))%nat ->
  sd_cmd s !! 0%nat = Some c0 ->
  one_byte_reply c0 = Some ret ->
  egos_sd_read s SPI1_RXDATA
  = Ok (ret, sd_done (set_block_to_read (<[0%nat := 0xFE]> (block_to_read s)) s)).
Proof.
  intros Hst Hlen Hc0 Hret. rewrite (read_ready s c0) by assumption.
  unfold one_byte_reply in Hret.
  assert (Hlow : 0 <= c0 < 128)
    by (repeat (destruct (c0 =? _) eqn:? in Hret; bool_hyps; [lia |]);
        discriminate).
  rewrite char_to_int_low by exact Hlow.
  unfold reply_switch, reply_chain.
  destruct (c0 =? 64) eqn:E40; bool_hyps.
  - subst c0. injection Hret as <-. reflexivity.
  - destruct (c0 =? 80) eqn:E50; bool_hyps;
      [subst c0; injection Hret as <-; reflexivity |].
    destruct (c0 =? 105) eqn:E69; bool_hyps;
      [subst c0; injection Hret as <-; reflexivity |].
    destruct (c0 =? 119) eqn:E77; bool_hyps;
      [subst c0; injection Hret as <-; reflexivity |].
    discriminate.
Qed.

Lemma read_ready_cmd8 (s : sd) (c : Z) :
  sd_state s = SD_READY ->
  (0 < length (block_to_read s))%nat ->
  sd_cmd s !! 0%nat = Some 0x48 ->
  aget The_cmd8_reply cmd8_reply (cmd8_idx s) = Ok c ->
  is_byte c ->
  egos_sd_read s SPI1_RXDATA
  = Ok (c, let s0 := set_block_to_read (<[0%nat := 0xFE]> (block_to_read s)) s in
           if cmd8_idx s + 1 =? 5 then sd_done (set_cmd8_idx 0 s0)
           else set_cmd8_idx (cmd8_idx s + 1) s0).
Proof.
  intros Hst Hlen Hc0 Hc Hb. rewrite (read_ready s 0x48) by assumption.
  rewrite char_to_int_low by lia.
  unfold reply_switch, reply_chain. sd_cbn. rewrite Hc. sd_cbn.
  destruct (cmd8_idx s + 1 =? 5); sd_cbn; rewrite char_ret by exact Hb;
    reflexivity.
Qed.

Lemma read_ready_cmd58 (s : sd) (c : Z) :
  sd_state s = SD_READY ->
  (0 < length (block_to_read s))%nat ->
  sd_cmd s !! 0%nat = Some 0x7A ->
  aget The_cmd58_reply cmd58_reply (cmd58_idx s) = Ok c ->
  is_byte c ->
  egos_sd_read s SPI1_RXDATA
  = Ok (c, let s0 := set_block_to_read (<[0%nat := 0xFE]> (block_to_read s)) s in
           if cmd58_idx s + 1 =? 5 then sd_done (set_cmd58_idx 0 s0)
           else set_cmd58_idx (cmd58_idx s + 1) s0).
Proof.
  intros Hst Hlen Hc0 Hc Hb. rewrite (read_ready s 0x7A) by assumption.
  rewrite char_to_int_low by lia.
  unfold reply_switch, reply_chain. sd_cbn. rewrite Hc. sd_cbn.
  destruct (cmd58_idx s + 1 =? 5); sd_cbn; rewrite char_ret by exact Hb;
    reflexivity.
Qed.

(** CMD17, first dispatch: the acknowledgement, and the block is staged. *)
Lemma read_cmd17_first (s : sd) (c1 c2 c3 c4 : Z) :
  sd_state s = SD_READY ->
  (0 < length (block_to_read s))%nat ->
  sd_cmd s !! 0%nat = Some 0x51 ->
  sd_cmd s !! 1%nat = Some c1 -> sd_cmd s !! 2%nat = Some c2 ->
  sd_cmd s !! 3%nat = Some c3 -> sd_cmd s !! 4%nat = Some c4 ->
  cmd17_idx s = -1 ->
  egos_sd_read s SPI1_RXDATA
  = (btr <- copy_block (<[0%nat := 0xFE]> (block_to_read s)) (sd_storage s)
              (wrap32 (cmd17_block_no c1 c2 c3 c4 * BLOCK_SIZE)) ;;
     Ok (0x00, set_block_to_read btr (set_cmd17_idx 0 s))).
Proof.
  intros Hst Hlen H0 H1 H2 H3 H4 Hidx.
  rewrite (read_ready s 0x51) by assumption.
  rewrite char_to_int_low by lia.
  unfold reply_switch, reply_chain. sd_cbn. rewrite Hidx. sd_cbn.
  rewrite (aget_Ok _ _ 1 c1), (aget_Ok _ _ 2 c2), (aget_Ok _ _ 3 c3),
    (aget_Ok _ _ 4 c4) by (assumption || lia).
  sd_cbn.
  destruct (copy_block _ _ _); reflexivity.
Qed.

(** CMD17, while [cmd17_idx < BLOCK_SIZE]: the next staged byte. *)
Lemma read_cmd17_next (s : sd) (c : Z) :
  sd_state s = SD_READY ->
  sd_cmd s !! 0%nat = Some 0x51 ->
  block_to_read s !! 0%nat = Some 0xFE ->
  0 <= cmd17_idx s < BLOCK_SIZE ->
  block_to_read s !! Z.to_nat (cmd17_idx s) = Some c ->
  is_byte c ->
  egos_sd_read s SPI1_RXDATA = Ok (c, set_cmd17_idx (cmd17_idx s + 1) s).
Proof.
  intros Hst H0 Hfe Hidx Hc Hb.
  rewrite (read_ready s 0x51)
    by (assumption || (apply lookup_lt_Some in Hfe; lia)).
  rewrite char_to_int_low by lia.
  rewrite list_insert_id by exact Hfe.
  unfold reply_switch, reply_chain. sd_cbn.
  destruct (cmd17_idx s =? -1) eqn:E1; bool_hyps; [lia |].
  destruct (cmd17_idx s <? BLOCK_SIZE) eqn:E2; bool_hyps; [| lia].
  rewrite (aget_Ok _ _ _ c) by (assumption || lia). sd_cbn.
  rewrite char_ret by exact Hb.
  destruct s; reflexivity.
Qed.

(** CMD17, [cmd17_idx == BLOCK_SIZE]: the last byte, then back to idle. *)
Lemma read_cmd17_last (s : sd) (c : Z) :
  sd_state s = SD_READY ->
  sd_cmd s !! 0%nat = Some 0x51 ->
  block_to_read s !! 0%nat = Some 0xFE ->
  cmd17_idx s = BLOCK_SIZE ->
  block_to_read s !! Z.to_nat BLOCK_SIZE = Some c ->
  is_byte c ->
  egos_sd_read s SPI1_RXDATA = Ok (c, sd_done (set_cmd17_idx (-1) s)).
Proof.
  intros Hst H0 Hfe Hidx Hc Hb.
  rewrite (read_ready s 0x51)
    by (assumption || (apply lookup_lt_Some in Hfe; lia)).
  rewrite char_to_int_low by lia.
  rewrite list_insert_id by exact Hfe.
  unfold reply_switch, reply_chain. sd_cbn. rewrite Hidx.
  unfold BLOCK_SIZE in *. sd_cbn.
  rewrite (aget_Ok _ _ _ c) by (assumption || lia). sd_cbn.
  rewrite char_ret by exact Hb.
  destruct s; reflexivity.
Qed.

Lemma write_other_offset (s : sd) (addr v : Z) :
  addr <> SPI1_TXDATA -> egos_sd_write s addr v = Ok s.
Proof.
  intros H. unfold egos_sd_write.
  destruct (addr =? SPI1_TXDATA) eqn:E; bool_hyps; [contradiction | reflexivity].
Qed.

(** A byte written while a frame is being received. *)
Lemma write_frame_byte (s : sd) (v : Z) :
  sd_state s <> SD_IDLE -> sd_state s <> SD_READY ->
  0 <= sd_cmd_idx s < Z.of_nat (length (sd_cmd s)) ->
  egos_sd_write s SPI1_TXDATA v
  = if sd_cmd_idx s + 1 =? 32 then Abort
    else Ok (set_sd_cmd_idx (sd_cmd_idx s + 1)
               (set_sd_cmd (<[Z.to_nat (sd_cmd_idx s) := to_char v]> (sd_cmd s)) s)).
Proof.
  intros Hi Hr Hidx. unfold egos_sd_write. rewrite Z.eqb_refl. cbn [negb].
  rewrite !bool_decide_eq_false_2 by assumption. cbn [negb andb].
  rewrite push_cmd_Ok by exact Hidx. reflexivity.
Qed.

(** A recognised opcode written while idle or ready. *)
Lemma write_opcode (s : sd) (v : Z) (st : sd_state_t) :
  sd_state s = SD_IDLE \/ sd_state s = SD_READY ->
  opcode_state v = Some st ->
  0 <= sd_cmd_idx s < Z.of_nat (length (sd_cmd s)) ->
  egos_sd_write s SPI1_TXDATA v
  = Ok (set_sd_state st
          (set_sd_cmd_idx (sd_cmd_idx s + 1)
             (set_sd_cmd (<[Z.to_nat (sd_cmd_idx s) := v]> (sd_cmd s)) s))).
Proof.
  intros Hst Hop Hidx. unfold egos_sd_write. rewrite Z.eqb_refl. cbn [negb].
  assert (negb (bool_decide (sd_state s = SD_IDLE))
          && negb (bool_decide (sd_state s = SD_READY)) = false) as ->.
  { destruct Hst as [-> | ->]; reflexivity. }
  rewrite Hop, push_cmd_Ok by exact Hidx. reflexivity.
Qed.

(** ** Sequences of accesses *)

Lemma run_app (ops1 ops2 : list access) (s : sd) :
  run (ops1 ++ ops2) s
  = (x <- run ops1 s ;;
     y <- run ops2 (snd x) ;;
     Ok (fst x ++ fst y, snd y)).
Proof.
  revert s. induction ops1 as [| [a | a v] ops1 IH]; intros s.
  - cbn [app run bind fst snd]. destruct (run ops2 s) as [[o s'] | |]; reflexivity.
  - cbn [app run]. destruct (egos_sd_read s a) as [[r s1] | |]; cbn [bind fst snd];
      [| reflexivity | reflexivity].
    rewrite IH. destruct (run ops1 s1) as [[o1 s2] | |]; cbn [bind fst snd];
      [| reflexivity | reflexivity].
    destruct (run ops2 s2) as [[o2 s3] | |]; reflexivity.
  - cbn [app run]. destruct (egos_sd_write s a v) as [s1 | |]; cbn [bind];
      [| reflexivity | reflexivity].
    apply IH.
Qed.

Lemma run_Ok_app (ops1 ops2 : list access) (s s1 : sd) (o1 : list Z) :
  run ops1 s = Ok (o1, s1) ->
  run (ops1 ++ ops2) s = (y <- run ops2 s1 ;; Ok (o1 ++ fst y, snd y)).
Proof. intros H. rewrite run_app, H. reflexivity. Qed.

Lemma reads_S (n : nat) : reads (S n) = Rd SPI1_RXDATA :: reads n.
Proof. reflexivity. Qed.

Lemma reads_add (n m : nat) : reads (n + m) = reads n ++ reads m.
Proof. unfold reads. apply replicate_add. Qed.

Lemma run_read_cons (ops : list access) (s s1 : sd) (r : Z) :
  egos_sd_read s SPI1_RXDATA = Ok (r, s1) ->
  run (Rd SPI1_RXDATA :: ops) s = (x <- run ops s1 ;; Ok (r :: fst x, snd x)).
Proof. intros H. cbn [run]. rewrite H. reflexivity. Qed.

Lemma insert_frame (op b1 b2 b3 b4 b5 : Z) (cmd : list Z) :
  (6 <= length cmd)%nat ->
  <[5%nat := b5]> (<[4%nat := b4]> (<[3%nat := b3]> (<[2%nat := b2]>
    (<[1%nat := b1]> (<[0%nat := op]> cmd)))))
  = op :: b1 :: b2 :: b3 :: b4 :: b5 :: drop 6 cmd.
Proof.
  intros Hlen.
  do 6 (destruct cmd as [| ? cmd]; [simpl in Hlen; lia |]).
  reflexivity.
Qed.

Ltac norm_consts :=
  repeat match goal with
  | |- context [0 + 1] => change (0 + 1) with 1
  | |- context [Z.pos ?p + 1] =>
      let v := eval vm_compute in (Z.pos p + 1) in
      change (Z.pos p + 1) with v
  | |- context [Z.pos ?p =? 32] =>
      let v := eval vm_compute in (Z.pos p =? 32) in
      change (Z.pos p =? 32) with v
  | |- context [Z.to_nat (Z.pos ?p)] =>
      let v := eval vm_compute in (Z.to_nat (Z.pos p)) in
      change (Z.to_nat (Z.pos p)) with v
  | |- context [Z.to_nat 0] => change (Z.to_nat 0) with 0%nat
  end.

Lemma run_frame (s : sd) (op a1 a2 a3 a4 crc : Z) (st : sd_state_t) :
  sd_state s = SD_IDLE -> sd_cmd_idx s = 0 -> length (sd_cmd s) = 32%nat ->
  opcode_state op = Some st ->
  run (frame op a1 a2 a3 a4 crc) s = Ok ([], after_frame st op a1 a2 a3 a4 crc s).
Proof.
  intros Hst Hidx Hlen Hop.
  destruct (opcode_state_receiving op st Hop) as (Hni & Hnr & _).
  destruct s as [state idx cmd sto i8 i58 i17 btr].
  cbn [sd_state sd_cmd_idx sd_cmd] in Hst, Hidx, Hlen.
  subst state idx. unfold frame. cbn [run].
  rewrite (write_opcode _ op st)
    by (cbn [sd_state sd_cmd_idx sd_cmd]; (auto || lia)).
  sd_cbn. norm_consts.
  do 5 (rewrite write_frame_byte
          by (sd_cbn; rewrite ?length_insert; (assumption || lia));
        sd_cbn; norm_consts; sd_cbn).
  unfold after_frame, frame_cmd. sd_cbn.
  rewrite insert_frame by lia. reflexivity.
Qed.

(** After the frame, the first read finds it complete and turns to
    [SD_READY]; it returns the filler byte. *)
Lemma run_frame_ready (s : sd) (op a1 a2 a3 a4 crc : Z) (st : sd_state_t) :
  sd_state s = SD_IDLE -> sd_cmd_idx s = 0 -> length (sd_cmd s) = 32%nat ->
  opcode_state op = Some st ->
  run (frame op a1 a2 a3 a4 crc ++ reads 1) s
  = Ok ([0xFF], after_frame SD_READY op a1 a2 a3 a4 crc s).
Proof.
  intros Hst Hidx Hlen Hop.
  destruct (opcode_state_receiving op st Hop) as (Hni & Hnr & _).
  rewrite (run_Ok_app _ _ _ _ _ (run_frame s op a1 a2 a3 a4 crc st Hst Hidx Hlen Hop)).
  unfold reads. cbn [replicate run].
  rewrite read_not_ready by exact Hnr. reflexivity.
Qed.

Lemma idle_fields (s : sd) :
  inv s -> sd_state s = SD_IDLE ->
  sd_cmd_idx s = 0 /\ cmd8_idx s = 0 /\ cmd58_idx s = 0 /\ cmd17_idx s = -1 /\
  length (sd_cmd s) = 32%nat /\ length (block_to_read s) = 513%nat.
Proof.
  intros (Hlc & Hlb & Hbc & Hst & Hidx & Hidle & Hready
          & H8 & H8op & H58 & H58op & H17 & H17op) Hs.
  assert (sd_cmd_idx s = 0) by tauto.
  repeat split; try assumption.
  - destruct (Z.eq_dec (cmd8_idx s) 0); [assumption | exfalso; tauto].
  - destruct (Z.eq_dec (cmd58_idx s) 0); [assumption | exfalso; tauto].
  - destruct (Z.eq_dec (cmd17_idx s) (-1)); [assumption | exfalso; tauto].
Qed.

(** The reads of the two five-byte replies, on states written out field by
    field. *)
Lemma read_cmd8_Sd (idx : Z) (cmd : list Z) (sto : Z -> Z) (k i58 i17 : Z)
    (btr : list Z) (c : Z) :
  (0 < length btr)%nat -> cmd !! 0%nat = Some 0x48 ->
  aget The_cmd8_reply cmd8_reply k = Ok c -> is_byte c ->
  egos_sd_read (Sd SD_READY idx cmd sto k i58 i17 btr) SPI1_RXDATA
  = Ok (c, if k + 1 =? 5
           then Sd SD_IDLE 0 cmd sto 0 i58 i17 (<[0%nat := 0xFE]> btr)
           else Sd SD_READY idx cmd sto (k + 1) i58 i17 (<[0%nat := 0xFE]> btr)).
Proof.
  intros Hlen Hc0 Hc Hb.
  rewrite (read_ready_cmd8 _ c) by (sd_cbn; (assumption || reflexivity)).
  cbn [cmd8_idx]. destruct (k + 1 =? 5); reflexivity.
Qed.

Lemma read_cmd58_Sd (idx : Z) (cmd : list Z) (sto : Z -> Z) (i8 k i17 : Z)
    (btr : list Z) (c : Z) :
  (0 < length btr)%nat -> cmd !! 0%nat = Some 0x7A ->
  aget The_cmd58_reply cmd58_reply k = Ok c -> is_byte c ->
  egos_sd_read (Sd SD_READY idx cmd sto i8 k i17 btr) SPI1_RXDATA
  = Ok (c, if k + 1 =? 5
           then Sd SD_IDLE 0 cmd sto i8 0 i17 (<[0%nat := 0xFE]> btr)
           else Sd SD_READY idx cmd sto i8 (k + 1) i17 (<[0%nat := 0xFE]> btr)).
Proof.
  intros Hlen Hc0 Hc Hb.
  rewrite (read_ready_cmd58 _ c) by (sd_cbn; (assumption || reflexivity)).
  cbn [cmd58_idx]. destruct (k + 1 =? 5); reflexivity.
Qed.

Ltac read_step lem c s1 :=
  rewrite (run_read_cons _ _ s1 c);
  [ cbn [bind fst snd]
  | rewrite (lem _ _ _ _ _ _ _ c);
    [ rewrite ?list_insert_insert_eq; reflexivity
    | rewrite ?length_insert; lia | assumption
    | reflexivity | unfold is_byte; lia ] ].

Lemma cmd8_reads (idx : Z) (cmd : list Z) (sto : Z -> Z) (i58 i17 : Z)
    (btr : list Z) :
  (0 < length btr)%nat -> cmd !! 0%nat = Some 0x48 ->
  run (reads 4) (Sd SD_READY idx cmd sto 0 i58 i17 btr)
  = Ok ([0x01; 0x00; 0x00; 0x01],
        Sd SD_READY idx cmd sto 4 i58 i17 (<[0%nat := 0xFE]> btr)) /\
  run (reads 5) (Sd SD_READY idx cmd sto 0 i58 i17 btr)
  = Ok ([0x01; 0x00; 0x00; 0x01; 0xAA],
        Sd SD_IDLE 0 cmd sto 0 i58 i17 (<[0%nat := 0xFE]> btr)).
Proof.
  intros Hlen Hc0. unfold reads. cbn [replicate].
  split.
  - read_step read_cmd8_Sd 0x01 (Sd SD_READY idx cmd sto 1 i58 i17 (<[0%nat := 0xFE]> btr)).
    read_step read_cmd8_Sd 0x00 (Sd SD_READY idx cmd sto 2 i58 i17 (<[0%nat := 0xFE]> btr)).
    read_step read_cmd8_Sd 0x00 (Sd SD_READY idx cmd sto 3 i58 i17 (<[0%nat := 0xFE]> btr)).
    read_step read_cmd8_Sd 0x01 (Sd SD_READY idx cmd sto 4 i58 i17 (<[0%nat := 0xFE]> btr)).
    reflexivity.
  - read_step read_cmd8_Sd 0x01 (Sd SD_READY idx cmd sto 1 i58 i17 (<[0%nat := 0xFE]> btr)).
    read_step read_cmd8_Sd 0x00 (Sd SD_READY idx cmd sto 2 i58 i17 (<[0%nat := 0xFE]> btr)).
    read_step read_cmd8_Sd 0x00 (Sd SD_READY idx cmd sto 3 i58 i17 (<[0%nat := 0xFE]> btr)).
    read_step read_cmd8_Sd 0x01 (Sd SD_READY idx cmd sto 4 i58 i17 (<[0%nat := 0xFE]> btr)).
    read_step read_cmd8_Sd 0xAA (Sd SD_IDLE 0 cmd sto 0 i58 i17 (<[0%nat := 0xFE]> btr)).
    reflexivity.
Qed.

Lemma cmd58_reads (idx : Z) (cmd : list Z) (sto : Z -> Z) (i8 i17 : Z)
    (btr : list Z) :
  (0 < length btr)%nat -> cmd !! 0%nat = Some 0x7A ->
  run (reads 4) (Sd SD_READY idx cmd sto i8 0 i17 btr)
  = Ok ([0x00; 0xC0; 0xFF; 0x80],
        Sd SD_READY idx cmd sto i8 4 i17 (<[0%nat := 0xFE]> btr)) /\
  run (reads 5) (Sd SD_READY idx cmd sto i8 0 i17 btr)
  = Ok ([0x00; 0xC0; 0xFF; 0x80; 0x00],
        Sd SD_IDLE 0 cmd sto i8 0 i17 (<[0%nat := 0xFE]> btr)).
Proof.
  intros Hlen Hc0. unfold reads. cbn [replicate].
  split.
  - read_step read_cmd58_Sd 0x00 (Sd SD_READY idx cmd sto i8 1 i17 (<[0%nat := 0xFE]> btr)).
    read_step read_cmd58_Sd 0xC0 (Sd SD_READY idx cmd sto i8 2 i17 (<[0%nat := 0xFE]> btr)).
    read_step read_cmd58_Sd 0xFF (Sd SD_READY idx cmd sto i8 3 i17 (<[0%nat := 0xFE]> btr)).
    read_step read_cmd58_Sd 0x80 (Sd SD_READY idx cmd sto i8 4 i17 (<[0%nat := 0xFE]> btr)).
    reflexivity.
  - read_step read_cmd58_Sd 0x00 (Sd SD_READY idx cmd sto i8 1 i17 (<[0%nat := 0xFE]> btr)).
    read_step read_cmd58_Sd 0xC0 (Sd SD_READY idx cmd sto i8 2 i17 (<[0%nat := 0xFE]> btr)).
    read_step read_cmd58_Sd 0xFF (Sd SD_READY idx cmd sto i8 3 i17 (<[0%nat := 0xFE]> btr)).
    read_step read_cmd58_Sd 0x80 (Sd SD_READY idx cmd sto i8 4 i17 (<[0%nat := 0xFE]> btr)).
    read_step read_cmd58_Sd 0x00 (Sd SD_IDLE 0 cmd sto i8 0 i17 (<[0%nat := 0xFE]> btr)).
    reflexivity.
Qed.

(** * The claims *)

(** C6. A read while the state is not [SD_READY] returns 0xFF; if six or
    more frame bytes have been collected that same read moves the state to
    [SD_READY] and changes nothing else, otherwise it changes nothing.  The
    first byte of the reply is therefore produced by a later read. *)
Theorem C6_read_before_ready (s : sd) :
  sd_state s <> SD_READY ->
  exists s',
    handle_incoming_byte_request s = Ok (0xFF, s') /\
    (6 <= sd_cmd_idx s -> s' = set_sd_state SD_READY s /\ sd_state s' = SD_READY) /\
    (sd_cmd_idx s < 6 -> s' = s).
Proof.
  intros Hst. unfold handle_incoming_byte_request.
  rewrite read_not_ready by exact Hst.
  destruct (6 <=? sd_cmd_idx s) eqn:E; bool_hyps.
  - exists (set_sd_state SD_READY s). repeat split; intros; (reflexivity || lia).
  - exists s. repeat split; intros; (reflexivity || lia).
Qed.

(** C5. From any reachable idle state, a CMD8 frame followed by reads gives
    the filler byte of the read that completes the frame and then
    0x01, 0x00, 0x00, 0x01, 0xAA; a CMD58 frame gives 0x00, 0xC0, 0xFF, 0x80,
    0x00.  The state is still [SD_READY] after four reply bytes and is
    [SD_IDLE], with an empty command buffer and the cursor back at 0, after
    the fifth. *)
Theorem C5_cmd8_cmd58_replies (s : sd) (a1 a2 a3 a4 crc : Z) :
  reachable s -> sd_state s = SD_IDLE ->
  (exists s4 s5,
     run (frame 0x48 a1 a2 a3 a4 crc ++ reads 5) s
       = Ok ([0xFF; 0x01; 0x00; 0x00; 0x01], s4) /\
     sd_state s4 = SD_READY /\
     run (frame 0x48 a1 a2 a3 a4 crc ++ reads 6) s
       = Ok ([0xFF; 0x01; 0x00; 0x00; 0x01; 0xAA], s5) /\
     sd_state s5 = SD_IDLE /\ sd_cmd_idx s5 = 0 /\ cmd8_idx s5 = 0) /\
  (exists s4 s5,
     run (frame 0x7A a1 a2 a3 a4 crc ++ reads 5) s
       = Ok ([0xFF; 0x00; 0xC0; 0xFF; 0x80], s4) /\
     sd_state s4 = SD_READY /\
     run (frame 0x7A a1 a2 a3 a4 crc ++ reads 6) s
       = Ok ([0xFF; 0x00; 0xC0; 0xFF; 0x80; 0x00], s5) /\
     sd_state s5 = SD_IDLE /\ sd_cmd_idx s5 = 0 /\ cmd58_idx s5 = 0).
Proof.
  intros Hreach Hidle.
  destruct (idle_fields s (reachable_inv s Hreach) Hidle)
    as (Hidx & H8 & H58 & H17 & Hlc & Hlb).
  change (reads 5) with (reads 1 ++ reads 4).
  change (reads 6) with (reads 1 ++ reads 5).
  rewrite !app_assoc.
  rewrite !(run_Ok_app _ _ _ _ _
              (run_frame_ready s 0x48 a1 a2 a3 a4 crc SD_GETTING_CMD8
                 Hidle Hidx Hlc eq_refl)).
  rewrite !(run_Ok_app _ _ _ _ _
              (run_frame_ready s 0x7A a1 a2 a3 a4 crc SD_GETTING_CMD58
                 Hidle Hidx Hlc eq_refl)).
  destruct s as [state idx cmd sto i8 i58 i17 btr].
  cbn [sd_state sd_cmd_idx sd_cmd cmd8_idx cmd58_idx cmd17_idx block_to_read] in *.
  subst. unfold after_frame, frame_cmd. sd_cbn.
  split.
  - destruct (cmd8_reads 6 (0x48 :: to_char a1 :: to_char a2 :: to_char a3
                              :: to_char a4 :: to_char crc :: drop 6 cmd)
                sto 0 (-1) btr) as [E4 E5]; [lia | reflexivity |].
    rewrite E4, E5. sd_cbn. do 2 eexists. repeat split; reflexivity.
  - destruct (cmd58_reads 6 (0x7A :: to_char a1 :: to_char a2 :: to_char a3
                               :: to_char a4 :: to_char crc :: drop 6 cmd)
                sto 0 (-1) btr) as [E4 E5]; [lia | reflexivity |].
    rewrite E4, E5. sd_cbn. do 2 eexists. repeat split; reflexivity.
Qed.

(** ** The CMD17 transfer *)

Lemma wrap32_small (x : Z) : - 2 ^ 31 <= x < 2 ^ 31 -> wrap32 x = x.
Proof. intros H. unfold wrap32. rewrite Z.mod_small by lia. lia. Qed.

Lemma wrap32_be32 (c1 c2 c3 c4 : Z) :
  is_byte c1 -> is_byte c2 -> is_byte c3 -> is_byte c4 ->
  signed8 c1 * 2 ^ 24 + c2 * 2 ^ 16 + c3 * 2 ^ 8 + c4 = wrap32 (be32 c1 c2 c3 c4).
Proof.
  unfold is_byte, be32, signed8, wrap32. intros H1 H2 H3 H4.
  destruct (128 <=? c1) eqn:E; bool_hyps.
  - replace (c1 * 2 ^ 24 + c2 * 2 ^ 16 + c3 * 2 ^ 8 + c4 + 2 ^ 31)
      with ((c1 - 128) * 2 ^ 24 + c2 * 2 ^ 16 + c3 * 2 ^ 8 + c4 + 1 * 2 ^ 32)
      by lia.
    rewrite Z.mod_add by lia. rewrite Z.mod_small by lia. lia.
  - rewrite Z.mod_small by lia. lia.
Qed.

(** For a block inside the store the byte offset is [512 * block]. *)
Lemma block_offset (c1 c2 c3 c4 : Z) :
  is_byte c1 -> is_byte c2 -> is_byte c3 -> is_byte c4 ->
  be32 c1 c2 c3 c4 * BLOCK_SIZE + BLOCK_SIZE <= STORAGE_SIZE ->
  wrap32 (cmd17_block_no c1 c2 c3 c4 * BLOCK_SIZE) = be32 c1 c2 c3 c4 * BLOCK_SIZE.
Proof.
  intros H1 H2 H3 H4 Hr.
  rewrite cmd17_block_no_sum, wrap32_be32 by assumption.
  unfold is_byte, be32, BLOCK_SIZE, STORAGE_SIZE in *.
  rewrite (wrap32_small (c1 * 2 ^ 24 + c2 * 2 ^ 16 + c3 * 2 ^ 8 + c4)) by lia.
  apply wrap32_small. lia.
Qed.

Lemma set_cmd17_idx_twice (a b : Z) (s : sd) :
  set_cmd17_idx a (set_cmd17_idx b s) = set_cmd17_idx a s.
Proof. reflexivity. Qed.

Lemma set_cmd17_idx_same (s : sd) : set_cmd17_idx (cmd17_idx s) s = s.
Proof. destruct s; reflexivity. Qed.

(** [n] reads in the middle of a transfer return the next [n] staged bytes. *)
Lemma cmd17_stream (n : nat) (s : sd) :
  sd_state s = SD_READY ->
  sd_cmd s !! 0%nat = Some 0x51 ->
  block_to_read s !! 0%nat = Some 0xFE ->
  Forall is_byte (block_to_read s) ->
  length (block_to_read s) = 513%nat ->
  0 <= cmd17_idx s -> cmd17_idx s + Z.of_nat n <= BLOCK_SIZE ->
  run (reads n) s
  = Ok (take n (drop (Z.to_nat (cmd17_idx s)) (block_to_read s)),
        set_cmd17_idx (cmd17_idx s + Z.of_nat n) s).
Proof.
  revert s. induction n as [| n IH]; intros s Hst H0 Hfe Hby Hlen Hge Hle.
  - cbn [reads replicate run take]. rewrite Z.add_0_r, set_cmd17_idx_same.
    reflexivity.
  - unfold BLOCK_SIZE in *.
    destruct (lookup_lt_is_Some_2 (block_to_read s) (Z.to_nat (cmd17_idx s)))
      as [c Hc]; [lia |].
    assert (Hcb : is_byte c) by (eapply Forall_lookup_1; eassumption).
    rewrite reads_S.
    rewrite (run_read_cons _ _ _ c
               (read_cmd17_next s c Hst H0 Hfe ltac:(unfold BLOCK_SIZE; lia) Hc Hcb)).
    rewrite IH; cbn [sd_state sd_cmd block_to_read cmd17_idx set_cmd17_idx];
      try assumption; try (unfold BLOCK_SIZE; lia).
    cbn [bind fst snd].
    rewrite (drop_S _ _ _ Hc). cbn [take].
    replace (Z.to_nat (cmd17_idx s + 1)) with (S (Z.to_nat (cmd17_idx s))) by lia.
    replace (cmd17_idx s + 1 + Z.of_nat n) with (cmd17_idx s + Z.of_nat (S n)) by lia.
    reflexivity.
Qed.

Lemma length_staged (sto : Z -> Z) (off : Z) : length (staged sto off) = 513%nat.
Proof.
  unfold staged. cbn [length]. rewrite length_map, length_seqZ. reflexivity.
Qed.

Lemma staged_bytes (sto : Z -> Z) (off : Z) :
  (forall i, is_byte (sto i)) -> Forall is_byte (staged sto off).
Proof.
  intros H. unfold staged. constructor; [unfold is_byte; lia |].
  apply seqZ_bytes. exact H.
Qed.

(** The whole reply to a CMD17 frame whose block lies inside the store:
    the acknowledgement, then the 513 staged bytes. *)
Lemma cmd17_transfer (s : sd) (c1 c2 c3 c4 off : Z) :
  sd_state s = SD_READY ->
  length (block_to_read s) = 513%nat ->
  (forall i, is_byte (sd_storage s i)) ->
  sd_cmd s !! 0%nat = Some 0x51 ->
  sd_cmd s !! 1%nat = Some c1 -> sd_cmd s !! 2%nat = Some c2 ->
  sd_cmd s !! 3%nat = Some c3 -> sd_cmd s !! 4%nat = Some c4 ->
  cmd17_idx s = -1 ->
  off = wrap32 (cmd17_block_no c1 c2 c3 c4 * BLOCK_SIZE) ->
  0 <= off -> off + BLOCK_SIZE <= STORAGE_SIZE ->
  let s0 := set_block_to_read (staged (sd_storage s) off) s in
  egos_sd_read s SPI1_RXDATA = Ok (0x00, set_cmd17_idx 0 s0) /\
  (forall n : nat, (n <= 512)%nat ->
     run (reads n) (set_cmd17_idx 0 s0)
     = Ok (take n (staged (sd_storage s) off), set_cmd17_idx (Z.of_nat n) s0)) /\
  run (reads 513) (set_cmd17_idx 0 s0)
  = Ok (staged (sd_storage s) off, sd_done (set_cmd17_idx (-1) s0)).
Proof.
  intros Hst Hlen Hsto H0 H1 H2 H3 H4 Hidx Hoff Hge Hle s0.
  assert (Hlen0 : length (staged (sd_storage s) off) = 513%nat)
    by apply length_staged.
  assert (Hstream : forall n : nat, (n <= 512)%nat ->
     run (reads n) (set_cmd17_idx 0 s0)
     = Ok (take n (staged (sd_storage s) off), set_cmd17_idx (Z.of_nat n) s0)).
  { intros n Hn.
    rewrite cmd17_stream;
      cbn [sd_state sd_cmd block_to_read cmd17_idx set_cmd17_idx s0
           set_block_to_read];
      try assumption; try reflexivity; try (unfold BLOCK_SIZE; lia).
    apply staged_bytes. exact Hsto. }
  split; [| split; [exact Hstream |]].
  - rewrite (read_cmd17_first s c1 c2 c3 c4) by (assumption || lia).
    rewrite <- Hoff.
    rewrite copy_block_Ok by (rewrite ?length_insert; assumption).
    cbn [bind]. unfold s0, staged.
    destruct (block_to_read s) as [| b0 btr]; [discriminate Hlen |].
    reflexivity.
  - change 513%nat with (512 + 1)%nat. rewrite reads_add.
    rewrite (run_Ok_app _ _ _ _ _ (Hstream 512%nat (le_n _))).
    destruct (lookup_lt_is_Some_2 (staged (sd_storage s) off) 512) as [c Hc];
      [lia |].
    assert (Hcb : is_byte c)
      by (eapply Forall_lookup_1; [apply staged_bytes; exact Hsto | exact Hc]).
    cbn [reads replicate].
    rewrite (run_read_cons _ _ _ c
               (read_cmd17_last (set_cmd17_idx (Z.of_nat 512) s0) c
                  Hst H0 eq_refl eq_refl Hc Hcb)).
    cbn [run bind fst snd]. rewrite <- (take_S_r _ _ _ Hc).
    rewrite take_ge by lia. reflexivity.
Qed.

(** ** Stale cells are never observed

    Two states that agree on everything but the cells of [sd_cmd] past the
    command length, and on [block_to_read] while no transfer is in progress,
    answer every sequence of accesses alike. *)

Lemma sim_refl_Ok {A : Type} (R : A -> A -> Prop) (a b : A) :
  R a b -> sim_outcome R (Ok a) (Ok b).
Proof. intros H. exact H. Qed.

Lemma command_buffer_lookup (s t : sd) (i : nat) :
  command_buffer s = command_buffer t ->
  sd_cmd_idx s = sd_cmd_idx t ->
  (Z.of_nat i < sd_cmd_idx s) ->
  sd_cmd s !! i = sd_cmd t !! i.
Proof.
  unfold command_buffer. intros Hcb Hidx Hi.
  rewrite <- (lookup_take_lt (sd_cmd s) (Z.to_nat (sd_cmd_idx s)) i) by lia.
  rewrite <- (lookup_take_lt (sd_cmd t) (Z.to_nat (sd_cmd_idx t)) i) by lia.
  rewrite Hcb. reflexivity.
Qed.

Lemma push_cmd_sim (c : Z) (s t : sd) :
  inv s -> inv t -> same_visible s t ->
  sim_outcome same_visible (push_cmd c s) (push_cmd c t).
Proof.
  intros Is It (Hst & Hidx & Hsto & H8 & H58 & H17 & Hcb & Hbtr).
  destruct Is as (Ls & _ & _ & _ & Rs & _).
  destruct It as (Lt & _ & _ & _ & Rt & _).
  destruct (Z.eq_dec (sd_cmd_idx s) 32) as [E | E].
  - unfold push_cmd. rewrite !aset_out by lia. reflexivity.
  - rewrite !push_cmd_Ok by lia. apply sim_refl_Ok.
    unfold same_visible, command_buffer in *. sd_cbn.
    rewrite <- Hidx.
    repeat split; try assumption; try lia.
    replace (Z.to_nat (sd_cmd_idx s + 1)) with (S (Z.to_nat (sd_cmd_idx s)))
      by lia.
    rewrite !(take_S_r _ _ c) by (apply list_lookup_insert_eq; lia).
    rewrite !take_insert_ge by lia.
    rewrite Hcb, Hidx. reflexivity.
Qed.

Lemma set_sd_state_sim (st : sd_state_t) (s t : sd) :
  same_visible s t -> same_visible (set_sd_state st s) (set_sd_state st t).
Proof. unfold same_visible, command_buffer. sd_cbn. tauto. Qed.

Lemma write_sim (s t : sd) (addr v : Z) :
  inv s -> inv t -> same_visible s t ->
  sim_outcome same_visible (egos_sd_write s addr v) (egos_sd_write t addr v).
Proof.
  intros Is It R. pose proof R as (Hst & Hidx & _).
  unfold egos_sd_write. rewrite <- Hst.
  destruct (negb (addr =? SPI1_TXDATA)); [exact R |].
  destruct (negb (bool_decide (sd_state s = SD_IDLE))
            && negb (bool_decide (sd_state s = SD_READY))).
  - pose proof (push_cmd_sim (to_char v) s t Is It R) as Hp.
    destruct (push_cmd (to_char v) s) as [s1 | |],
             (push_cmd (to_char v) t) as [t1 | |];
      cbn [bind sim_outcome] in *; try contradiction; try trivial.
    destruct Hp as (Hst1 & Hidx1 & Hrest). rewrite <- Hidx1.
    destruct (sd_cmd_idx s1 =? 32); [exact I |].
    repeat split; tauto.
  - destruct (opcode_state v) as [st |].
    + pose proof (push_cmd_sim v s t Is It R) as Hp.
      destruct (push_cmd v s) as [s1 | |], (push_cmd v t) as [t1 | |];
        cbn [bind sim_outcome] in *; try contradiction; try trivial.
      apply set_sd_state_sim. exact Hp.
    + destruct (v =? 255); [exact R | exact I].
Qed.

Ltac sim_states :=
  unfold read_rel, same_visible, command_buffer in *; sd_cbn;
  repeat split; try reflexivity; try assumption; try tauto; try congruence;
  try (intros; f_equal; tauto).

Lemma aget_sim_reply (o : object) (a : list Z) (i : Z) (s t : sd)
    (f : Z -> sd -> Z * sd) :
  (forall c, read_rel (f c s) (f c t)) ->
  sim_outcome read_rel
    (c <- aget o a i ;; Ok (f c s)) (c <- aget o a i ;; Ok (f c t)).
Proof.
  intros H. destruct (aget o a i) as [c | | o']; cbn [bind sim_outcome];
    [apply H | exact I | reflexivity].
Qed.

Lemma read_sim (s t : sd) (addr : Z) :
  inv s -> inv t -> same_visible s t ->
  sim_outcome read_rel (egos_sd_read s addr) (egos_sd_read t addr).
Proof.
  intros Is It R.
  destruct (Z.eq_dec addr SPI1_RXDATA) as [-> | Hne];
    [| rewrite !read_other_offset by exact Hne; split; [reflexivity | exact R]].
  pose proof R as (Hst & Hidx & Hsto & H8 & H58 & H17 & Hcb & Hbtr).
  destruct (decide (sd_state s = SD_READY)) as [Hrdy | Hrdy].
  2:{ rewrite !read_not_ready by congruence. rewrite <- Hidx.
      destruct (6 <=? sd_cmd_idx s); (split; [reflexivity |]);
        [apply set_sd_state_sim |]; exact R. }
  pose proof Is as (Ls & Lbs & Bs & _ & _ & _ & Hready & _ & _ & _ & _ & R17 & _).
  pose proof It as (Lt & Lbt & _).
  assert (Hpos : 6 <= sd_cmd_idx s) by tauto.
  assert (Hlk : forall i : nat, (i < 5)%nat -> sd_cmd t !! i = sd_cmd s !! i)
    by (intros i Hi; symmetry; apply command_buffer_lookup; (assumption || lia)).
  destruct (lookup_lt_is_Some_2 (sd_cmd s) 0%nat) as [c0 Hc0]; [lia |].
  assert (Hb0 : is_byte c0) by (eapply Forall_lookup_1; eassumption).
  rewrite (read_ready s c0) by (assumption || lia).
  rewrite (read_ready t c0) by (congruence || lia || (rewrite Hlk by lia; assumption)).
  unfold reply_switch, reply_chain.
  rewrite !(char_to_int_eqb c0) by (assumption || lia).
  sd_cbn. rewrite <- ?H8, <- ?H58, <- ?H17, <- ?Hsto.
  assert (Hbtr0 : cmd17_idx s <> -1 ->
            <[0%nat := 0xFE]> (block_to_read s) = <[0%nat := 0xFE]> (block_to_read t))
    by (intros X; f_equal; tauto).
  destruct (c0 =? 64) eqn:E40; bool_hyps.
  { subst c0. sd_cbn. sim_states. }
  destruct (c0 =? 72) eqn:E48; bool_hyps.
  { subst c0.
    destruct (aget The_cmd8_reply cmd8_reply (cmd8_idx s)) as [c | | o'];
      sd_cbn; [| exact I | reflexivity].
    destruct (cmd8_idx s + 1 =? 5); sd_cbn; sim_states. }
  destruct (c0 =? 122) eqn:E7A; bool_hyps.
  { subst c0.
    destruct (aget The_cmd58_reply cmd58_reply (cmd58_idx s)) as [c | | o'];
      sd_cbn; [| exact I | reflexivity].
    destruct (cmd58_idx s + 1 =? 5); sd_cbn; sim_states. }
  destruct (c0 =? 81) eqn:E51; bool_hyps.
  { subst c0. sd_cbn.
    destruct (cmd17_idx s =? -1) eqn:Efirst; bool_hyps.
    { destruct (aget_in_range The_sd_cmd (sd_cmd s) 1) as [c1 A1]; [lia |].
      destruct (aget_in_range The_sd_cmd (sd_cmd s) 2) as [c2 A2]; [lia |].
      destruct (aget_in_range The_sd_cmd (sd_cmd s) 3) as [c3 A3]; [lia |].
      destruct (aget_in_range The_sd_cmd (sd_cmd s) 4) as [c4 A4]; [lia |].
      rewrite A1, A2, A3, A4.
      apply aget_Ok_inv in A1, A2, A3, A4.
      rewrite (aget_Ok _ (sd_cmd t) 1 c1), (aget_Ok _ (sd_cmd t) 2 c2),
        (aget_Ok _ (sd_cmd t) 3 c3), (aget_Ok _ (sd_cmd t) 4 c4)
        by (lia || (rewrite Hlk by lia; tauto)).
      sd_cbn.
      set (off := wrap32 (cmd17_block_no c1 c2 c3 c4 * BLOCK_SIZE)).
      destruct (decide (0 <= off /\ off + BLOCK_SIZE <= STORAGE_SIZE))
        as [Hin | Hout].
      - rewrite !copy_block_Ok by (rewrite ?length_insert; tauto).
        cbn [bind sim_outcome].
        destruct (block_to_read s) as [| bs btrs]; [discriminate Lbs |].
        destruct (block_to_read t) as [| bt btrt]; [discriminate Lbt |].
        sim_states.
      - rewrite !copy_block_out by exact Hout. reflexivity. }
    assert (Hbeq : <[0%nat := 0xFE]> (block_to_read t)
                   = <[0%nat := 0xFE]> (block_to_read s))
      by (symmetry; auto).
    rewrite Hbeq.
    destruct (cmd17_idx s <? BLOCK_SIZE).
    { destruct (aget The_block_to_read _ (cmd17_idx s)) as [c | | o'];
        sd_cbn; [| exact I | reflexivity].
      sim_states. }
    destruct (cmd17_idx s =? BLOCK_SIZE).
    { destruct (aget The_block_to_read _ (cmd17_idx s)) as [c | | o'];
        sd_cbn; [| exact I | reflexivity].
      sim_states. }
    sd_cbn. sim_states. }
  destruct ((c0 =? 80) || false || (c0 =? 105) || (c0 =? 119));
    [| exact I].
  sd_cbn. sim_states.
Qed.

(** Agreeing states answer every access sequence alike. *)
Lemma run_sim (ops : list access) (s t : sd) :
  inv s -> inv t -> same_visible s t ->
  outputs (run ops s) = outputs (run ops t).
Proof.
  revert s t. induction ops as [| [a | a v] ops IH]; intros s t Is It R.
  - reflexivity.
  - cbn [run]. pose proof (read_sim s t a Is It R) as Hs.
    destruct (egos_sd_read s a) as [[r s1] | | o] eqn:Es,
             (egos_sd_read t a) as [[r' t1] | | o'] eqn:Et;
      cbn [sim_outcome] in Hs; try contradiction; cbn [bind fst snd];
      [| reflexivity | congruence].
    destruct Hs as [Hr Hs]. cbn [fst snd] in Hr, Hs. subst r'.
    pose proof (IH s1 t1 (inv_read s a r s1 Is Es) (inv_read t a r t1 It Et) Hs)
      as Ho.
    destruct (run ops s1) as [[o1 s2] | |], (run ops t1) as [[o2 t2] | |];
      cbn [outputs bind fst snd] in *; congruence.
  - cbn [run]. pose proof (write_sim s t a v Is It R) as Hs.
    destruct (egos_sd_write s a v) as [s1 | | o] eqn:Es,
             (egos_sd_write t a v) as [t1 | | o'] eqn:Et;
      cbn [sim_outcome] in Hs; try contradiction; cbn [bind];
      [| reflexivity | congruence].
    exact (IH s1 t1 (inv_write s a v s1 Is Es) (inv_write t a v t1 It Et) Hs).
Qed.

Lemma reachable_run (ops : list access) (s s' : sd) (o : list Z) :
  reachable s -> run ops s = Ok (o, s') -> reachable s'.
Proof.
  revert s o. induction ops as [| [a | a v] ops IH]; intros s o Hr.
  - cbn [run]. intros [= _ <-]. exact Hr.
  - cbn [run]. destruct (egos_sd_read s a) as [[r s1] | |] eqn:E;
      cbn [bind fst snd]; try discriminate.
    destruct (run ops s1) as [[o1 s2] | |] eqn:E1; cbn [bind fst snd];
      try discriminate.
    intros [= _ <-]. apply (IH s1 o1); [| exact E1].
    eapply reach_read; eassumption.
  - cbn [run]. destruct (egos_sd_write s a v) as [s1 | |] eqn:E;
      cbn [bind]; try discriminate.
    intros H. apply (IH s1 o); [| exact H].
    eapply reach_write; eassumption.
Qed.

Lemma opcode_table_state (v : Z) (st : sd_state_t) :
  In (v, st) opcode_table -> opcode_state v = Some st.
Proof.
  unfold opcode_table. cbn [In].
  intros H. repeat (destruct H as [[= <- <-] | H]; [reflexivity |]).
  contradiction.
Qed.

(** C8. From any reachable idle state a CMD0 exchange (the frame, the read
    that completes it, the read of the reply) answers 0x01 and leaves the
    state idle with the command length, the command buffer and the three
    cursors as they were before it; a second exchange answers 0x01 again
    and leaves the device exactly in the state the first one left.  The
    cells of [sd_cmd] past the command length keep the bytes of the frame,
    but nothing is carried over: every later sequence of accesses is answered
    after the exchange as it would have been before it. *)
Theorem C8_cmd0_exchange_twice (s : sd) :
  reachable s -> sd_state s = SD_IDLE ->
  exists s1,
    run cmd0_exchange s = Ok ([0xFF; 0x01], s1) /\
    sd_state s1 = sd_state s /\
    sd_cmd_idx s1 = sd_cmd_idx s /\
    command_buffer s1 = command_buffer s /\
    cmd8_idx s1 = cmd8_idx s /\ cmd58_idx s1 = cmd58_idx s /\
    cmd17_idx s1 = cmd17_idx s /\ sd_storage s1 = sd_storage s /\
    run cmd0_exchange s1 = Ok ([0xFF; 0x01], s1) /\
    run (cmd0_exchange ++ cmd0_exchange) s = Ok ([0xFF; 0x01; 0xFF; 0x01], s1) /\
    (forall ops : list access, outputs (run ops s1) = outputs (run ops s)).
Proof.
  intros Hreach Hidle.
  destruct (idle_fields s (reachable_inv s Hreach) Hidle)
    as (Hidx & H8 & H58 & H17 & Hlc & Hlb).
  assert (Hex : forall cmd sto i8 i58 i17 btr,
             length cmd = 32%nat -> (0 < length btr)%nat ->
             run cmd0_exchange (Sd SD_IDLE 0 cmd sto i8 i58 i17 btr)
             = Ok ([0xFF; 0x01],
                   Sd SD_IDLE 0 (frame_cmd 0x40 0 0 0 0 0x95 cmd) sto i8 i58 i17
                      (<[0%nat := 0xFE]> btr))).
  { intros cmd sto i8 i58 i17 btr Hc Hb. unfold cmd0_exchange.
    change (reads 2) with (reads 1 ++ reads 1). rewrite app_assoc.
    rewrite (run_Ok_app _ _ _ _ _
               (run_frame_ready (Sd SD_IDLE 0 cmd sto i8 i58 i17 btr)
                  0x40 0 0 0 0 0x95 SD_GETTING_CMD0
                  eq_refl eq_refl Hc eq_refl)).
    cbn [reads replicate].
    rewrite (run_read_cons _ _ _ 0x01
               (read_ready_one_byte
                  (after_frame SD_READY 0x40 0 0 0 0 0x95
                     (Sd SD_IDLE 0 cmd sto i8 i58 i17 btr))
                  0x40 0x01 eq_refl Hb eq_refl eq_refl)).
    reflexivity. }
  destruct s as [state idx cmd sto i8 i58 i17 btr].
  cbn [sd_state sd_cmd_idx sd_cmd cmd8_idx cmd58_idx cmd17_idx block_to_read] in *.
  subst state idx.
  eexists. split; [apply Hex; lia |].
  assert (Hex2 :
    run cmd0_exchange
      (Sd SD_IDLE 0 (frame_cmd 0x40 0 0 0 0 0x95 cmd) sto i8 i58 i17
         (<[0%nat := 0xFE]> btr))
    = Ok ([0xFF; 0x01],
          Sd SD_IDLE 0 (frame_cmd 0x40 0 0 0 0 0x95 cmd) sto i8 i58 i17
            (<[0%nat := 0xFE]> btr))).
  { rewrite Hex; [| unfold frame_cmd; cbn [length]; rewrite length_drop; lia
                  | rewrite length_insert; lia].
    rewrite list_insert_insert_eq. reflexivity. }
  repeat split; try reflexivity.
  - exact Hex2.
  - rewrite (run_Ok_app _ _ _ _ _ (Hex cmd sto i8 i58 i17 btr Hlc ltac:(lia))).
    rewrite Hex2. reflexivity.
  - intros ops. apply run_sim.
    + apply reachable_inv.
      exact (reachable_run _ _ _ _ Hreach (Hex cmd sto i8 i58 i17 btr Hlc ltac:(lia))).
    + apply reachable_inv. exact Hreach.
    + unfold same_visible, command_buffer. sd_cbn.
      repeat split; try reflexivity. intros X. contradiction.
Qed.

(** C3, as the code has it.  In a reachable receiving state a written byte
    is appended without regard to the six-byte frame: while fewer than 31
    bytes are held the write succeeds and the command buffer grows by that
    byte (so a seventh byte is accepted); the write that brings the length
    to 32, the size of [sd_cmd], stores the byte and then aborts. *)
Theorem C3_frame_byte_limit (s : sd) (v : Z) :
  reachable s -> sd_state s <> SD_IDLE -> sd_state s <> SD_READY ->
  (sd_cmd_idx s < 31 ->
   exists s',
     handle_outgoing_byte s v = Ok s' /\
     sd_state s' = sd_state s /\ sd_cmd_idx s' = sd_cmd_idx s + 1 /\
     command_buffer s' = command_buffer s ++ [to_char v]) /\
  (sd_cmd_idx s = 31 -> handle_outgoing_byte s v = Abort).
Proof.
  intros Hreach Hni Hnr.
  destruct (reachable_inv s Hreach)
    as (Hlc & _ & _ & _ & Hidx & _).
  unfold handle_outgoing_byte. split.
  - intros Hlt. rewrite write_frame_byte by (assumption || lia).
    destruct (sd_cmd_idx s + 1 =? 32) eqn:E; bool_hyps; [lia |].
    eexists. split; [reflexivity |].
    unfold command_buffer. sd_cbn.
    repeat split.
    replace (Z.to_nat (sd_cmd_idx s + 1)) with (S (Z.to_nat (sd_cmd_idx s)))
      by lia.
    rewrite (take_S_r _ _ (to_char v)) by (apply list_lookup_insert_eq; lia).
    rewrite take_insert_ge by lia. reflexivity.
  - intros Heq. rewrite write_frame_byte by (assumption || lia).
    rewrite Heq. reflexivity.
Qed.

(** C7. For all four argument bytes, [cmd17_block_no] is the 32-bit word
    whose big-endian bytes are [sd_cmd[1..4]]: as the [int] it is stored in
    it is the two's complement reading of that word, its low 32 bits are the
    unsigned big-endian value, and the two agree whenever byte 1 is below
    0x80.  Sign extension of bytes at or above 0x80 does not leak into the
    other byte positions.  The first dispatch of a CMD17 frame copies from
    byte offset [block_no * 512], computed in [int]. *)
Theorem C7_block_number_big_endian (c1 c2 c3 c4 : Z) :
  is_byte c1 -> is_byte c2 -> is_byte c3 -> is_byte c4 ->
  cmd17_block_no c1 c2 c3 c4 = wrap32 (be32 c1 c2 c3 c4) /\
  cmd17_block_no c1 c2 c3 c4 mod 2 ^ 32 = be32 c1 c2 c3 c4 /\
  (c1 < 0x80 -> cmd17_block_no c1 c2 c3 c4 = be32 c1 c2 c3 c4) /\
  (forall s : sd,
     sd_state s = SD_READY -> (0 < length (block_to_read s))%nat ->
     sd_cmd s !! 0%nat = Some 0x51 ->
     sd_cmd s !! 1%nat = Some c1 -> sd_cmd s !! 2%nat = Some c2 ->
     sd_cmd s !! 3%nat = Some c3 -> sd_cmd s !! 4%nat = Some c4 ->
     cmd17_idx s = -1 ->
     handle_incoming_byte_request s
     = (btr <- copy_block (<[0%nat := 0xFE]> (block_to_read s)) (sd_storage s)
                 (wrap32 (wrap32 (be32 c1 c2 c3 c4) * BLOCK_SIZE)) ;;
        Ok (0x00, set_block_to_read btr (set_cmd17_idx 0 s)))).
Proof.
  intros H1 H2 H3 H4.
  assert (Hw : cmd17_block_no c1 c2 c3 c4 = wrap32 (be32 c1 c2 c3 c4))
    by (rewrite cmd17_block_no_sum, wrap32_be32 by assumption; reflexivity).
  assert (Hr : 0 <= be32 c1 c2 c3 c4 < 2 ^ 32)
    by (unfold is_byte, be32 in *; lia).
  repeat split.
  - exact Hw.
  - rewrite Hw. unfold wrap32.
    rewrite Zminus_mod_idemp_l.
    replace (be32 c1 c2 c3 c4 + 2 ^ 31 - 2 ^ 31) with (be32 c1 c2 c3 c4) by lia.
    apply Z.mod_small. exact Hr.
  - intros Hlow. rewrite Hw. apply wrap32_small.
    unfold is_byte, be32 in *. lia.
  - intros s Hst Hlen H0 E1 E2 E3 E4 Hidx. unfold handle_incoming_byte_request.
    rewrite (read_cmd17_first s c1 c2 c3 c4) by assumption.
    rewrite Hw. reflexivity.
Qed.

Lemma copy_block_not_abort (btr : list Z) (sto : Z -> Z) (off : Z) :
  copy_block btr sto off <> Abort.
Proof.
  unfold copy_block.
  destruct ((0 <=? off) && (off + BLOCK_SIZE <=? STORAGE_SIZE));
    [| discriminate].
  destruct (1 + BLOCK_SIZE <=? Z.of_nat (length btr)); discriminate.
Qed.

Lemma lookup_frame_cmd (op a1 a2 a3 a4 crc : Z) (old : list Z) :
  frame_cmd op a1 a2 a3 a4 crc old !! 0%nat = Some op /\
  frame_cmd op a1 a2 a3 a4 crc old !! 1%nat = Some (to_char a1) /\
  frame_cmd op a1 a2 a3 a4 crc old !! 2%nat = Some (to_char a2) /\
  frame_cmd op a1 a2 a3 a4 crc old !! 3%nat = Some (to_char a3) /\
  frame_cmd op a1 a2 a3 a4 crc old !! 4%nat = Some (to_char a4).
Proof. repeat split; reflexivity. Qed.

(** What the two reads after a CMD17 frame give, from an idle state. *)
Lemma run_cmd17_frame (s : sd) (a1 a2 a3 a4 crc : Z) :
  sd_state s = SD_IDLE -> sd_cmd_idx s = 0 -> length (sd_cmd s) = 32%nat ->
  (0 < length (block_to_read s))%nat -> cmd17_idx s = -1 ->
  run (frame 0x51 a1 a2 a3 a4 crc ++ reads 2) s
  = (btr <- copy_block (<[0%nat := 0xFE]> (block_to_read s)) (sd_storage s)
              (wrap32 (cmd17_block_no (to_char a1) (to_char a2) (to_char a3)
                         (to_char a4) * BLOCK_SIZE)) ;;
     Ok ([0xFF; 0x00],
         set_block_to_read btr
           (set_cmd17_idx 0 (after_frame SD_READY 0x51 a1 a2 a3 a4 crc s)))).
Proof.
  intros Hst Hidx Hlc Hlb H17.
  change (reads 2) with (reads 1 ++ reads 1). rewrite app_assoc.
  rewrite (run_Ok_app _ _ _ _ _
             (run_frame_ready s 0x51 a1 a2 a3 a4 crc SD_GETTING_CMD17
                Hst Hidx Hlc eq_refl)).
  cbn [reads replicate run].
  rewrite (read_cmd17_first (after_frame SD_READY 0x51 a1 a2 a3 a4 crc s)
             (to_char a1) (to_char a2) (to_char a3) (to_char a4));
    try reflexivity; try assumption.
  cbn [block_to_read sd_storage after_frame set_sd_state set_sd_cmd_idx
       set_sd_cmd].
  destruct (copy_block _ _ _); reflexivity.
Qed.

(** C1, evaluated on the code.  No CMD17 frame whatever reaches [assert(0)]:
    the code computes the offset and copies without comparing it to the size
    of [sd_storage].  For block 0x2000, the first block past the end of the
    4 MiB store, the copy reads outside [sd_storage].  For block 0x800000 the
    [int] product [block_no * 512] wraps to 0 and block 0 is served. *)
Theorem C1_out_of_range_block_not_fatal (sto : Z -> Z) :
  (forall a1 a2 a3 a4 crc : Z,
     run (frame 0x51 a1 a2 a3 a4 crc ++ reads 2) (sd_init sto) <> Abort) /\
  run (frame 0x51 0x00 0x00 0x20 0x00 0xFF ++ reads 2) (sd_init sto)
  = Undefined The_sd_storage /\
  (exists s',
     run (frame 0x51 0x00 0x80 0x00 0x00 0xFF ++ reads 2) (sd_init sto)
     = Ok ([0xFF; 0x00], s') /\
     block_to_read s' = staged sto 0).
Proof.
  assert (Hrun := fun a1 a2 a3 a4 crc =>
            run_cmd17_frame (sd_init sto) a1 a2 a3 a4 crc
              eq_refl eq_refl eq_refl ltac:(cbn; lia) eq_refl).
  split; [| split].
  - intros a1 a2 a3 a4 crc. rewrite Hrun.
    destruct (copy_block _ _ _) eqn:E; try discriminate.
    exfalso. exact (copy_block_not_abort _ _ _ E).
  - rewrite Hrun.
    assert (wrap32 (cmd17_block_no (to_char 0) (to_char 0) (to_char 32)
                      (to_char 0) * BLOCK_SIZE) = STORAGE_SIZE) as ->
      by (unfold cmd17_block_no, char_to_int; destruct char_signed;
          vm_compute; reflexivity).
    rewrite copy_block_out by (unfold BLOCK_SIZE, STORAGE_SIZE; lia).
    reflexivity.
  - rewrite Hrun.
    assert (wrap32 (cmd17_block_no (to_char 0) (to_char 128) (to_char 0)
                      (to_char 0) * BLOCK_SIZE) = 0) as ->
      by (unfold cmd17_block_no, char_to_int; destruct char_signed;
          vm_compute; reflexivity).
    rewrite copy_block_Ok
      by (rewrite ?length_insert; (reflexivity || (unfold BLOCK_SIZE, STORAGE_SIZE; lia))).
    cbn [bind]. eexists. split; reflexivity.
Qed.

(** C2, as the code has it.  From any reachable idle state, a CMD17 frame
    for a block inside the store is answered, after the filler byte of the
    read that completes the frame, by 514 bytes: the acknowledgement 0x00,
    the start token 0xFE, then the 512 bytes of
    [sd_storage[block * 512 .. block * 512 + 512)] in order.  The read that
    returns the last data byte resets the state to idle, the command length
    to 0 and the cursor to -1, and the read after that returns 0xFF and
    changes nothing. *)
Theorem C2_cmd17_reply (s : sd) (b1 b2 b3 b4 crc : Z) :
  reachable s -> sd_state s = SD_IDLE ->
  is_byte b1 -> is_byte b2 -> is_byte b3 -> is_byte b4 ->
  be32 b1 b2 b3 b4 * BLOCK_SIZE + BLOCK_SIZE <= STORAGE_SIZE ->
  exists s',
    run (frame 0x51 b1 b2 b3 b4 crc ++ reads 515) s
    = Ok (0xFF :: 0x00 :: 0xFE
            :: map (sd_storage s) (seqZ (be32 b1 b2 b3 b4 * BLOCK_SIZE) BLOCK_SIZE),
          s') /\
    sd_state s' = SD_IDLE /\ sd_cmd_idx s' = 0 /\ cmd17_idx s' = -1 /\
    sd_storage s' = sd_storage s /\
    handle_incoming_byte_request s' = Ok (0xFF, s').
Proof.
  intros Hreach Hidle H1 H2 H3 H4 Hrange.
  pose proof (reachable_inv s Hreach) as Hinv.
  destruct (idle_fields s Hinv Hidle) as (Hidx & H8 & H58 & H17 & Hlc & Hlb).
  destruct Hinv as (_ & _ & _ & Hsto & _).
  change (reads 515) with (reads 1 ++ reads 1 ++ reads 513).
  rewrite app_assoc.
  rewrite (run_Ok_app _ _ _ _ _
             (run_frame_ready s 0x51 b1 b2 b3 b4 crc SD_GETTING_CMD17
                Hidle Hidx Hlc eq_refl)).
  set (A := after_frame SD_READY 0x51 b1 b2 b3 b4 crc s).
  assert (Hbe : 0 <= be32 b1 b2 b3 b4)
    by (unfold is_byte, be32 in *; lia).
  destruct (cmd17_transfer A b1 b2 b3 b4 (be32 b1 b2 b3 b4 * BLOCK_SIZE))
    as (Hfirst & _ & Hrest);
    try (unfold A, after_frame, frame_cmd; sd_cbn;
         rewrite ?to_char_id by assumption; (reflexivity || assumption)).
  { symmetry. apply block_offset; assumption. }
  { unfold BLOCK_SIZE. lia. }
  cbn [reads replicate app] in *.
  rewrite (run_read_cons _ _ _ _ Hfirst).
  change (replicate 513 (Rd SPI1_RXDATA)) with (reads 513).
  rewrite Hrest. cbn [bind fst snd app].
  eexists. split; [reflexivity |].
  repeat split.
Qed.

(** C9. In a reachable ready state that holds a complete CMD17 frame for a
    block inside the store and has no transfer in progress, the first read
    returns 0x00 and stages the block (start token, then the 512 bytes of the
    block) with the cursor at 0; the second read returns the start token
    0xFE.  The state stays [SD_READY] through the first 513 reads, and the
    514th read returns the last data byte and resets to idle: the reply is
    0x00, 0xFE and the 512 data bytes. *)
Theorem C9_cmd17_ack_then_block (s : sd) (c1 c2 c3 c4 : Z) :
  reachable s -> sd_state s = SD_READY ->
  sd_cmd s !! 0%nat = Some 0x51 ->
  sd_cmd s !! 1%nat = Some c1 -> sd_cmd s !! 2%nat = Some c2 ->
  sd_cmd s !! 3%nat = Some c3 -> sd_cmd s !! 4%nat = Some c4 ->
  cmd17_idx s = -1 ->
  be32 c1 c2 c3 c4 * BLOCK_SIZE + BLOCK_SIZE <= STORAGE_SIZE ->
  let data := map (sd_storage s) (seqZ (be32 c1 c2 c3 c4 * BLOCK_SIZE) BLOCK_SIZE) in
  (exists s1 s2,
     handle_incoming_byte_request s = Ok (0x00, s1) /\
     sd_state s1 = SD_READY /\ cmd17_idx s1 = 0 /\
     block_to_read s1 = 0xFE :: data /\
     handle_incoming_byte_request s1 = Ok (0xFE, s2) /\
     sd_state s2 = SD_READY /\ cmd17_idx s2 = 1) /\
  (forall n : nat, (n <= 513)%nat ->
     exists sn,
       run (reads n) s = Ok (take n (0x00 :: 0xFE :: data), sn) /\
       sd_state sn = SD_READY) /\
  (exists s514,
     run (reads 514) s = Ok (0x00 :: 0xFE :: data, s514) /\
     sd_state s514 = SD_IDLE /\ sd_cmd_idx s514 = 0 /\ cmd17_idx s514 = -1).
Proof.
  intros Hreach Hst H0 E1 E2 E3 E4 Hidx Hrange data.
  destruct (reachable_inv s Hreach) as (_ & Hlb & Hbc & Hsto & _).
  assert (B1 : is_byte c1) by (eapply Forall_lookup_1; eassumption).
  assert (B2 : is_byte c2) by (eapply Forall_lookup_1; eassumption).
  assert (B3 : is_byte c3) by (eapply Forall_lookup_1; eassumption).
  assert (B4 : is_byte c4) by (eapply Forall_lookup_1; eassumption).
  assert (Hbe : 0 <= be32 c1 c2 c3 c4) by (unfold is_byte, be32 in *; lia).
  destruct (cmd17_transfer s c1 c2 c3 c4 (be32 c1 c2 c3 c4 * BLOCK_SIZE)
              Hst Hlb Hsto H0 E1 E2 E3 E4 Hidx
              (eq_sym (block_offset c1 c2 c3 c4 B1 B2 B3 B4 Hrange))
              ltac:(unfold BLOCK_SIZE; lia) Hrange)
    as (Hfirst & Hstream & Hlast).
  fold data in Hfirst, Hstream, Hlast.
  set (s0 := set_block_to_read (staged (sd_storage s) (be32 c1 c2 c3 c4 * BLOCK_SIZE)) s)
    in *.
  split; [| split].
  - exists (set_cmd17_idx 0 s0), (set_cmd17_idx 1 s0).
    unfold handle_incoming_byte_request.
    split; [exact Hfirst |].
    split; [exact Hst |]. split; [reflexivity |]. split; [reflexivity |].
    split; [| split; [exact Hst | reflexivity]].
    rewrite (read_cmd17_next (set_cmd17_idx 0 s0) 0xFE);
      try assumption; try reflexivity;
      cbn [cmd17_idx set_cmd17_idx]; unfold is_byte, BLOCK_SIZE; lia.
  - intros [| n] Hn.
    + exists s. split; [reflexivity | exact Hst].
    + rewrite reads_S, (run_read_cons _ _ _ _ Hfirst).
      rewrite Hstream by lia.
      eexists. split; [reflexivity | exact Hst].
  - rewrite reads_S, (run_read_cons _ _ _ _ Hfirst), Hlast.
    eexists. split; [reflexivity |]. repeat split.
Qed.

Lemma copy_block_undefined (btr : list Z) (sto : Z -> Z) (off : Z) (o : object) :
  (513 <= length btr)%nat ->
  copy_block btr sto off = Undefined o -> o = The_sd_storage.
Proof.
  intros Hlen. unfold copy_block.
  destruct ((0 <=? off) && (off + BLOCK_SIZE <=? STORAGE_SIZE));
    [| intros [= <-]; reflexivity].
  destruct (1 + BLOCK_SIZE <=? Z.of_nat (length btr)) eqn:E; bool_hyps;
    [discriminate |].
  unfold BLOCK_SIZE in E. lia.
Qed.

(** Under the invariant a read leaves no array other than, possibly,
    [sd_storage]. *)
Lemma read_safe (s : sd) (addr : Z) (o : object) :
  inv s -> egos_sd_read s addr = Undefined o -> o = The_sd_storage.
Proof.
  intros Hinv.
  destruct (Z.eq_dec addr SPI1_RXDATA) as [-> | Hne];
    [| rewrite read_other_offset by exact Hne; discriminate].
  destruct (decide (sd_state s = SD_READY)) as [Hst | Hst];
    [| rewrite read_not_ready by exact Hst; discriminate].
  destruct Hinv as (Hlc & Hlb & Hbc & Hsto & Hidx & Hidle & Hready
                    & H8 & H8op & H58 & H58op & H17 & H17op).
  destruct (lookup_lt_is_Some_2 (sd_cmd s) 0%nat) as [c0 Hc0]; [lia |].
  assert (Hb0 : is_byte c0) by (eapply Forall_lookup_1; eassumption).
  rewrite (read_ready s c0) by (assumption || lia).
  unfold reply_switch, reply_chain.
  rewrite !(char_to_int_eqb c0) by (assumption || lia).
  sd_cbn.
  destruct (c0 =? 64) eqn:E40; bool_hyps.
  { subst c0. sd_cbn. discriminate. }
  destruct (c0 =? 72) eqn:E48; bool_hyps.
  { subst c0.
    destruct (aget_in_range The_cmd8_reply cmd8_reply (cmd8_idx s)) as [c Hc];
      [cbn [length cmd8_reply]; lia |].
    rewrite Hc. sd_cbn. destruct (cmd8_idx s + 1 =? 5); discriminate. }
  destruct (c0 =? 122) eqn:E7A; bool_hyps.
  { subst c0.
    destruct (aget_in_range The_cmd58_reply cmd58_reply (cmd58_idx s)) as [c Hc];
      [cbn [length cmd58_reply]; lia |].
    rewrite Hc. sd_cbn. destruct (cmd58_idx s + 1 =? 5); discriminate. }
  destruct (c0 =? 81) eqn:E51; bool_hyps.
  { subst c0. sd_cbn.
    destruct (cmd17_idx s =? -1) eqn:Efirst; bool_hyps.
    { destruct (aget_in_range The_sd_cmd (sd_cmd s) 1) as [c1 ->]; [lia |].
      destruct (aget_in_range The_sd_cmd (sd_cmd s) 2) as [c2 ->]; [lia |].
      destruct (aget_in_range The_sd_cmd (sd_cmd s) 3) as [c3 ->]; [lia |].
      destruct (aget_in_range The_sd_cmd (sd_cmd s) 4) as [c4 ->]; [lia |].
      sd_cbn.
      destruct (copy_block _ _ _) as [b | | o'] eqn:Ecp; try discriminate.
      cbn [bind]. intros [= <-].
      eapply copy_block_undefined; [| exact Ecp].
      rewrite length_insert. lia. }
    destruct (aget_in_range The_block_to_read
                (<[0%nat := 0xFE]> (block_to_read s)) (cmd17_idx s)) as [c Hc];
      [rewrite length_insert; lia |].
    rewrite Hc. sd_cbn.
    destruct (cmd17_idx s <? BLOCK_SIZE); [discriminate |].
    destruct (cmd17_idx s =? BLOCK_SIZE); discriminate. }
  destruct ((c0 =? 80) || false || (c0 =? 105) || (c0 =? 119));
    [| discriminate].
  sd_cbn. discriminate.
Qed.

(** A write leaves no array other than, possibly, [sd_cmd]. *)
Lemma write_safe (s : sd) (addr v : Z) (o : object) :
  egos_sd_write s addr v = Undefined o -> o = The_sd_cmd.
Proof.
  assert (Hpush : forall c s0, push_cmd c s0 = Undefined o -> o = The_sd_cmd).
  { intros c s0. unfold push_cmd, aset.
    destruct ((0 <=? sd_cmd_idx s0) && (sd_cmd_idx s0 <? Z.of_nat (length (sd_cmd s0))));
      cbn [bind]; [discriminate | intros [= <-]; reflexivity]. }
  unfold egos_sd_write.
  destruct (negb (addr =? SPI1_TXDATA)); [discriminate |].
  destruct (negb (bool_decide (sd_state s = SD_IDLE))
            && negb (bool_decide (sd_state s = SD_READY))).
  - destruct (push_cmd (to_char v) s) as [s1 | | o'] eqn:E; cbn [bind].
    + destruct (sd_cmd_idx s1 =? 32); discriminate.
    + discriminate.
    + intros [= <-]. exact (Hpush _ _ E).
  - destruct (opcode_state v) as [st |].
    + destruct (push_cmd v s) as [s1 | | o'] eqn:E; cbn [bind]; try discriminate.
      intros [= <-]. exact (Hpush _ _ E).
    + destruct (v =? 255); discriminate.
Qed.

(** C10. In every reachable state the block cursor [cmd17_idx] is -1 or
    lies in 0..512 and the staging buffer has its 513 cells; no read and no
    write made in such a state uses an index outside [block_to_read] (a read
    can leave only [sd_storage], a write only [sd_cmd]). *)
Theorem C10_block_cursor_in_bounds (s : sd) :
  reachable s ->
  (cmd17_idx s = -1 \/ 0 <= cmd17_idx s <= 512) /\
  length (block_to_read s) = 513%nat /\
  (forall addr : Z, egos_sd_read s addr <> Undefined The_block_to_read) /\
  (forall addr v : Z, egos_sd_write s addr v <> Undefined The_block_to_read).
Proof.
  intros Hreach. pose proof (reachable_inv s Hreach) as Hinv.
  pose proof Hinv as (_ & Hlb & _ & _ & _ & _ & _ & _ & _ & _ & _ & H17 & _).
  repeat split.
  - lia.
  - exact Hlb.
  - intros addr H. apply (read_safe s addr _ Hinv) in H. discriminate.
  - intros addr v H. apply write_safe in H. discriminate.
Qed.

(** * Further properties of the device *)

(** ** What an access leaves alone *)

Lemma land_255_byte (x : Z) : is_byte (Z.land x 0xFF).
Proof.
  unfold is_byte. change 0xFF with (Z.ones 8). rewrite Z.land_ones by lia.
  apply Z.mod_pos_bound. lia.
Qed.

Lemma reply_switch_frame (op r : Z) (s s' : sd) :
  reply_switch op s = Ok (r, s') ->
  sd_storage s' = sd_storage s /\ sd_cmd s' = sd_cmd s /\
  sd_cmd_idx s' = sd_cmd_idx s /\ sd_state s' = sd_state s.
Proof.
  unfold reply_switch.
  repeat match goal with
  | |- context [bind (aget ?o ?a ?i) _] =>
      destruct (aget o a i) as [? | |]; cbn [bind]
  | |- context [if ?b then _ else _] => destruct b
  end; try discriminate; intros [= _ <-]; repeat split.
Qed.

Lemma reply_chain_frame (op ret r : Z) (s s' : sd) :
  reply_chain op ret s = Ok (r, s') ->
  sd_storage s' = sd_storage s /\ sd_cmd s' = sd_cmd s /\
  ((sd_cmd_idx s' = sd_cmd_idx s /\ sd_state s' = sd_state s) \/
   (sd_cmd_idx s' = 0 /\ sd_state s' = SD_IDLE)).
Proof.
  unfold reply_chain.
  repeat match goal with
  | |- context [bind (aget ?o ?a ?i) _] =>
      destruct (aget o a i) as [? | |]; cbn [bind]
  | |- context [bind (copy_block ?b ?st ?off) _] =>
      destruct (copy_block b st off) as [? | |]; cbn [bind]
  | |- context [if ?b then _ else _] => destruct b
  end; try discriminate; intros [= _ <-]; sd_cbn; auto.
Qed.

Lemma read_frame (s : sd) (addr r : Z) (s' : sd) :
  egos_sd_read s addr = Ok (r, s') ->
  sd_storage s' = sd_storage s /\ sd_cmd s' = sd_cmd s /\
  ((sd_cmd_idx s' = sd_cmd_idx s /\
    (sd_state s' = sd_state s \/ sd_state s' = SD_READY)) \/
   (sd_cmd_idx s' = 0 /\ sd_state s' = SD_IDLE)) /\
  is_byte r.
Proof.
  unfold egos_sd_read.
  destruct (negb (addr =? SPI1_RXDATA));
    [intros [= <- <-]; unfold is_byte; repeat split; (auto || lia) |].
  destruct (negb (bool_decide (sd_state s = SD_READY))).
  - intros [= <- <-].
    destruct (6 <=? sd_cmd_idx s); sd_cbn; unfold is_byte;
      repeat split; (auto || lia).
  - destruct (aset The_block_to_read (block_to_read s) 0 254) as [b | |];
      cbn [bind]; try discriminate.
    sd_cbn.
    destruct (aget The_sd_cmd (sd_cmd s) 0) as [c0 | |]; cbn [bind];
      try discriminate.
    destruct (reply_switch (char_to_int c0) _) as [[r1 s1] | |] eqn:E1;
      cbn [bind fst snd]; try discriminate.
    destruct (reply_chain (char_to_int c0) r1 s1) as [[r2 s2] | |] eqn:E2;
      cbn [bind fst snd]; try discriminate.
    intros [= <- <-].
    apply reply_switch_frame in E1. apply reply_chain_frame in E2.
    cbn [sd_storage sd_cmd sd_cmd_idx sd_state] in E1.
    destruct E1 as (A1 & A2 & A3 & A4). destruct E2 as (B1 & B2 & B3).
    split; [congruence |]. split; [congruence |].
    split; [| apply land_255_byte].
    destruct B3 as [[B3 B4] | [B3 B4]]; [left | right]; split;
      try congruence.
    left. congruence.
Qed.

Lemma write_frame (s : sd) (addr v : Z) (s' : sd) :
  egos_sd_write s addr v = Ok s' ->
  sd_storage s' = sd_storage s /\ block_to_read s' = block_to_read s /\
  cmd8_idx s' = cmd8_idx s /\ cmd58_idx s' = cmd58_idx s /\
  cmd17_idx s' = cmd17_idx s.
Proof.
  unfold egos_sd_write, push_cmd.
  repeat match goal with
  | |- context [bind (aset ?o ?a ?i ?c) _] =>
      destruct (aset o a i c) as [? | |]; cbn [bind]
  | |- context [match opcode_state ?v with _ => _ end] =>
      destruct (opcode_state v)
  | |- context [if ?b then _ else _] => destruct b
  end; try discriminate; intros [= <-]; repeat split.
Qed.

Lemma run_length (ops : list access) (s s' : sd) (o : list Z) :
  run ops s = Ok (o, s') ->
  length o = length (filter (fun a => is_read a = true) ops).
Proof.
  revert s o. induction ops as [| [a | a v] ops IH]; intros s o.
  - cbn [run]. intros [= <- _]. reflexivity.
  - cbn [run]. destruct (egos_sd_read s a) as [[r s1] | |];
      cbn [bind fst snd]; try discriminate.
    destruct (run ops s1) as [[o1 s2] | |] eqn:E1; cbn [bind fst snd];
      try discriminate.
    intros [= <- ->]. rewrite filter_cons_True by reflexivity.
    cbn [length]. f_equal. exact (IH s1 o1 E1).
  - cbn [run]. destruct (egos_sd_write s a v) as [s1 | |]; cbn [bind];
      try discriminate.
    intros H. rewrite filter_cons_False by discriminate. exact (IH s1 o H).
Qed.

(** X1.  The backing store is read-only: no sequence of accesses changes
    [sd_storage]. *)
Theorem storage_read_only (ops : list access) (s s' : sd) (o : list Z) :
  run ops s = Ok (o, s') -> sd_storage s' = sd_storage s.
Proof.
  revert s o. induction ops as [| [a | a v] ops IH]; intros s o.
  - cbn [run]. intros [= _ <-]. reflexivity.
  - cbn [run]. destruct (egos_sd_read s a) as [[r s1] | |] eqn:E;
      cbn [bind fst snd]; try discriminate.
    destruct (run ops s1) as [[o1 s2] | |] eqn:E1; cbn [bind fst snd];
      try discriminate.
    intros [= _ ->]. rewrite (IH s1 o1 E1).
    apply read_frame in E. tauto.
  - cbn [run]. destruct (egos_sd_write s a v) as [s1 | |] eqn:E; cbn [bind];
      try discriminate.
    intros H. rewrite (IH s1 o H). apply write_frame in E. tauto.
Qed.

(** X2.  A run returns one byte per read, each in 0..255, whatever the state it
    starts from. *)
Theorem reads_return_bytes (ops : list access) (s s' : sd) (o : list Z) :
  run ops s = Ok (o, s') ->
  Forall is_byte o /\
  length o = length (filter (fun a => is_read a = true) ops).
Proof.
  intros H. split; [| exact (run_length ops s s' o H)].
  revert s o H. induction ops as [| [a | a v] ops IH]; intros s o.
  - cbn [run]. intros [= <- _]. constructor.
  - cbn [run]. destruct (egos_sd_read s a) as [[r s1] | |] eqn:E;
      cbn [bind fst snd]; try discriminate.
    destruct (run ops s1) as [[o1 s2] | |] eqn:E1; cbn [bind fst snd];
      try discriminate.
    intros [= <- ->]. constructor; [| exact (IH s1 o1 E1)].
    apply read_frame in E. tauto.
  - cbn [run]. destruct (egos_sd_write s a v) as [s1 | |]; cbn [bind];
      try discriminate.
    apply IH.
Qed.

(** ** The dispatch never meets an unknown opcode *)

Lemma inv_opcode_init (sto : Z -> Z) : inv_opcode (sd_init sto).
Proof. intros H. contradiction H. reflexivity. Qed.

Lemma inv_opcode_read (s : sd) (addr r : Z) (s' : sd) :
  inv_opcode s -> egos_sd_read s addr = Ok (r, s') -> inv_opcode s'.
Proof.
  intros Hop H. apply read_frame in H.
  destruct H as (_ & Hcmd & Hidx & _). unfold inv_opcode in *.
  rewrite Hcmd. intros Hne. apply Hop. intuition congruence.
Qed.

Lemma inv_opcode_write (s : sd) (addr v : Z) (s' : sd) :
  inv s -> inv_opcode s -> egos_sd_write s addr v = Ok s' -> inv_opcode s'.
Proof.
  intros Hinv Hop. unfold egos_sd_write.
  destruct (negb (addr =? SPI1_TXDATA)); [intros [= <-]; exact Hop |].
  destruct Hinv as (Hlc & _ & _ & _ & Hidx & Hidle & _).
  destruct (negb (bool_decide (sd_state s = SD_IDLE))
            && negb (bool_decide (sd_state s = SD_READY))) eqn:Est.
  - bool_hyps.
    destruct (push_cmd (to_char v) s) as [s1 | |] eqn:Ep; try discriminate.
    apply push_cmd_Ok_inv in Ep. destruct Ep as [Hr ->]. cbn [bind].
    destruct (_ =? 32); [discriminate |]. intros [= <-].
    assert (Hne : sd_cmd_idx s <> 0) by tauto.
    unfold inv_opcode in *. sd_cbn.
    rewrite lookup0_insert_pos by lia. intros _. exact (Hop Hne).
  - destruct (opcode_state v) as [st |] eqn:Eop.
    + destruct (push_cmd v s) as [s1 | |] eqn:Ep; try discriminate.
      apply push_cmd_Ok_inv in Ep. destruct Ep as [Hr ->]. cbn [bind].
      intros [= <-]. unfold inv_opcode in *. sd_cbn. intros _.
      destruct (Z.eq_dec (sd_cmd_idx s) 0) as [E0 | Hne].
      * rewrite E0. exists v, st. split; [| exact Eop].
        apply list_lookup_insert_eq. lia.
      * rewrite lookup0_insert_pos by lia. exact (Hop Hne).
    + destruct (v =? 255); [| discriminate]. intros [= <-]. exact Hop.
Qed.

Lemma reachable_inv_opcode (s : sd) : reachable s -> inv_opcode s.
Proof.
  induction 1 as [st Hst | s addr r s' Hr IH Hrd | s addr v s' Hr IH Hwr].
  - apply inv_opcode_init.
  - eapply inv_opcode_read; eassumption.
  - eapply inv_opcode_write; [apply reachable_inv | |]; eassumption.
Qed.

Lemma opcode_state_reply (c : Z) (st : sd_state_t) :
  opcode_state c = Some st ->
  c = 0x48 \/ c = 0x7A \/ c = 0x51 \/
  (exists r, one_byte_reply c = Some r).
Proof.
  intros H. apply opcode_state_Some in H.
  destruct H as [[-> _] | [[-> _] | [[-> _] | [[-> _] | [[-> _] | [[-> _] | [-> _]]]]]]];
    try tauto; right; right; right; eexists; reflexivity.
Qed.

(** X3.  In a reachable state a read never reaches [assert(0)], and the only read
    that leaves an array is the first dispatch of a CMD17 frame whose byte
    offset lies outside [sd_storage]. *)
Theorem read_fails_only_on_bad_block (s : sd) (addr : Z) :
  reachable s ->
  egos_sd_read s addr <> Abort /\
  (forall o : object,
     egos_sd_read s addr = Undefined o ->
     o = The_sd_storage /\ addr = SPI1_RXDATA /\ sd_state s = SD_READY /\
     cmd17_idx s = -1 /\
     exists c1 c2 c3 c4 : Z,
       sd_cmd s !! 0%nat = Some 0x51 /\
       sd_cmd s !! 1%nat = Some c1 /\ sd_cmd s !! 2%nat = Some c2 /\
       sd_cmd s !! 3%nat = Some c3 /\ sd_cmd s !! 4%nat = Some c4 /\
       let off := wrap32 (cmd17_block_no c1 c2 c3 c4 * BLOCK_SIZE) in
       ~ (0 <= off /\ off + BLOCK_SIZE <= STORAGE_SIZE)).
Proof.
  intros Hreach.
  pose proof (reachable_inv s Hreach) as Hinv.
  pose proof (reachable_inv_opcode s Hreach) as Hop.
  destruct (Z.eq_dec addr SPI1_RXDATA) as [-> | Hne];
    [| rewrite read_other_offset by exact Hne; split; [| intros o]; discriminate].
  destruct (decide (sd_state s = SD_READY)) as [Hst | Hst];
    [| rewrite read_not_ready by exact Hst; split; [| intros o]; discriminate].
  destruct Hinv as (Hlc & Hlb & Hbc & Hsto & Hidx & Hidle & Hready
                    & H8 & H8op & H58 & H58op & H17 & H17op).
  destruct Hop as (c0 & st & Hc0 & Hst0); [pose proof (Hready Hst); lia |].
  assert (Hlow : 0 <= c0 < 128)
    by (apply opcode_state_receiving in Hst0; tauto).
  destruct (opcode_state_reply c0 st Hst0) as [-> | [-> | [-> | [r Hr]]]].
  - (* CMD8 *)
    destruct (aget_in_range The_cmd8_reply cmd8_reply (cmd8_idx s)) as [c Hc];
      [cbn [length cmd8_reply]; lia |].
    assert (Hcb : is_byte c).
    { apply aget_Ok_inv in Hc. destruct Hc as [_ Hc].
      assert (Hall : Forall is_byte cmd8_reply)
        by (unfold cmd8_reply, is_byte; repeat constructor; lia).
      eapply Forall_lookup_1; eassumption. }
    rewrite (read_ready_cmd8 s c) by (assumption || lia).
    split; [| intros o]; discriminate.
  - (* CMD58 *)
    destruct (aget_in_range The_cmd58_reply cmd58_reply (cmd58_idx s)) as [c Hc];
      [cbn [length cmd58_reply]; lia |].
    assert (Hcb : is_byte c).
    { apply aget_Ok_inv in Hc. destruct Hc as [_ Hc].
      assert (Hall : Forall is_byte cmd58_reply)
        by (unfold cmd58_reply, is_byte; repeat constructor; lia).
      eapply Forall_lookup_1; eassumption. }
    rewrite (read_ready_cmd58 s c) by (assumption || lia).
    split; [| intros o]; discriminate.
  - (* CMD17 *)
    destruct (Z.eq_dec (cmd17_idx s) (-1)) as [E17 | N17].
    + destruct (lookup_lt_is_Some_2 (sd_cmd s) 1) as [c1 E1]; [lia |].
      destruct (lookup_lt_is_Some_2 (sd_cmd s) 2) as [c2 E2]; [lia |].
      destruct (lookup_lt_is_Some_2 (sd_cmd s) 3) as [c3 E3]; [lia |].
      destruct (lookup_lt_is_Some_2 (sd_cmd s) 4) as [c4 E4]; [lia |].
      rewrite (read_cmd17_first s c1 c2 c3 c4) by (assumption || lia).
      set (off := wrap32 (cmd17_block_no c1 c2 c3 c4 * BLOCK_SIZE)).
      destruct (decide (0 <= off /\ off + BLOCK_SIZE <= STORAGE_SIZE))
        as [Hin | Hout].
      * rewrite copy_block_Ok by (rewrite ?length_insert; tauto).
        split; [| intros o]; discriminate.
      * rewrite copy_block_out by exact Hout. cbn [bind].
        split; [discriminate |]. intros o [= <-].
        repeat split; try assumption.
        exists c1, c2, c3, c4. repeat split; assumption.
    + rewrite (read_ready s 0x51) by (assumption || lia).
      rewrite char_to_int_low by lia.
      unfold reply_switch, reply_chain. sd_cbn.
      assert ((cmd17_idx s =? -1) = false) as ->
        by (apply Z.eqb_neq; exact N17).
      destruct (aget_in_range The_block_to_read
                  (<[0%nat := 0xFE]> (block_to_read s)) (cmd17_idx s)) as [c Hc];
        [rewrite length_insert; lia |].
      rewrite Hc. sd_cbn.
      destruct (cmd17_idx s <? BLOCK_SIZE);
        [split; [| intros o]; discriminate |].
      destruct (cmd17_idx s =? BLOCK_SIZE); split; try intros o; discriminate.
  - (* one byte *)
    rewrite (read_ready_one_byte s c0 r) by (assumption || lia).
    split; [| intros o]; discriminate.
Qed.

(** ** State, length and cursors *)

(** X4.  In every reachable state: the state is idle exactly when no command byte
    is held, ready only when at least six are, and at most 32 are ever held;
    at most one reply cursor is away from its rest value, and then the state
    is not idle and [sd_cmd[0]] is the opcode that cursor belongs to. *)
Theorem one_reply_at_a_time (s : sd) :
  reachable s ->
  0 <= sd_cmd_idx s <= 32 /\
  (sd_state s = SD_IDLE <-> sd_cmd_idx s = 0) /\
  (sd_state s = SD_READY -> 6 <= sd_cmd_idx s) /\
  (cmd8_idx s <> 0 ->
   0 < cmd8_idx s < 5 /\ sd_cmd s !! 0%nat = Some 0x48 /\
   sd_state s <> SD_IDLE /\ cmd58_idx s = 0 /\ cmd17_idx s = -1) /\
  (cmd58_idx s <> 0 ->
   0 < cmd58_idx s < 5 /\ sd_cmd s !! 0%nat = Some 0x7A /\
   sd_state s <> SD_IDLE /\ cmd8_idx s = 0 /\ cmd17_idx s = -1) /\
  (cmd17_idx s <> -1 ->
   0 <= cmd17_idx s <= 512 /\ sd_cmd s !! 0%nat = Some 0x51 /\
   sd_state s <> SD_IDLE /\ cmd8_idx s = 0 /\ cmd58_idx s = 0).
Proof.
  intros Hreach.
  destruct (reachable_inv s Hreach)
    as (Hlc & Hlb & Hbc & Hsto & Hidx & Hidle & Hready
        & H8 & H8op & H58 & H58op & H17 & H17op).
  split; [exact Hidx |]. split; [exact Hidle |]. split; [exact Hready |].
  assert (D8 : cmd8_idx s = 0 \/ cmd8_idx s <> 0) by lia.
  assert (D58 : cmd58_idx s = 0 \/ cmd58_idx s <> 0) by lia.
  assert (D17 : cmd17_idx s = -1 \/ cmd17_idx s <> -1) by lia.
  split; [| split]; intros Hne.
  - destruct (H8op Hne) as [E Hi].
    repeat split; try lia; try assumption; try tauto.
    + destruct D58 as [? | N]; [assumption |].
      destruct (H58op N) as [E' _]. congruence.
    + destruct D17 as [? | N]; [assumption |].
      destruct (H17op N) as [E' _]. congruence.
  - destruct (H58op Hne) as [E Hi].
    repeat split; try lia; try assumption; try tauto.
    + destruct D8 as [? | N]; [assumption |].
      destruct (H8op N) as [E' _]. congruence.
    + destruct D17 as [? | N]; [assumption |].
      destruct (H17op N) as [E' _]. congruence.
  - destruct (H17op Hne) as [E Hi].
    repeat split; try lia; try assumption; try tauto.
    + destruct D8 as [? | N]; [assumption |].
      destruct (H8op N) as [E' _]. congruence.
    + destruct D58 as [? | N]; [assumption |].
      destruct (H58op N) as [E' _]. congruence.
Qed.

(** ** The commands answered by one byte *)

(** X5.  From any reachable idle state a CMD16, ACMD41 or CMD55 frame, whatever
    its argument and trailer bytes, is answered by 0x00 on the read after
    the one that finds it complete; that read resets the state to idle with
    an empty command buffer and leaves the cursors and the store alone, and
    further reads return 0xFF. *)
Theorem one_byte_commands (s : sd) (op a1 a2 a3 a4 crc : Z) :
  reachable s -> sd_state s = SD_IDLE ->
  op = 0x50 \/ op = 0x69 \/ op = 0x77 ->
  exists s',
    run (frame op a1 a2 a3 a4 crc ++ reads 2) s = Ok ([0xFF; 0x00], s') /\
    sd_state s' = SD_IDLE /\ sd_cmd_idx s' = 0 /\
    cmd8_idx s' = cmd8_idx s /\ cmd58_idx s' = cmd58_idx s /\
    cmd17_idx s' = cmd17_idx s /\ sd_storage s' = sd_storage s /\
    handle_incoming_byte_request s' = Ok (0xFF, s').
Proof.
  intros Hreach Hidle Hop.
  destruct (idle_fields s (reachable_inv s Hreach) Hidle)
    as (Hidx & H8 & H58 & H17 & Hlc & Hlb).
  assert (Hst : exists st, opcode_state op = Some st)
    by (destruct Hop as [-> | [-> | ->]]; eexists; reflexivity).
  destruct Hst as [st Hst].
  assert (Hr : one_byte_reply op = Some 0x00)
    by (destruct Hop as [-> | [-> | ->]]; reflexivity).
  change (reads 2) with (reads 1 ++ reads 1). rewrite app_assoc.
  rewrite (run_Ok_app _ _ _ _ _
             (run_frame_ready s op a1 a2 a3 a4 crc st Hidle Hidx Hlc Hst)).
  cbn [reads replicate].
  rewrite (run_read_cons _ _ _ 0x00
             (read_ready_one_byte
                (after_frame SD_READY op a1 a2 a3 a4 crc s) op 0x00
                eq_refl ltac:(cbn [block_to_read after_frame set_sd_state
                                   set_sd_cmd_idx set_sd_cmd]; lia)
                eq_refl Hr)).
  cbn [run bind fst snd app].
  eexists. split; [reflexivity |].
  unfold handle_incoming_byte_request.
  rewrite read_not_ready by (sd_cbn; discriminate).
  sd_cbn. repeat split.
Qed.

(** ** Waiting *)

Lemma write_idle_byte (s : sd) :
  sd_state s = SD_IDLE \/ sd_state s = SD_READY ->
  egos_sd_write s SPI1_TXDATA 0xFF = Ok s.
Proof.
  intros Hst. unfold egos_sd_write. rewrite Z.eqb_refl. cbn [negb].
  assert (negb (bool_decide (sd_state s = SD_IDLE))
          && negb (bool_decide (sd_state s = SD_READY)) = false) as ->
    by (destruct Hst as [-> | ->]; reflexivity).
  reflexivity.
Qed.

Lemma is_poll_cases (a : access) :
  is_poll a = true -> a = Rd SPI1_RXDATA \/ a = Wr SPI1_TXDATA 0xFF.
Proof.
  destruct a as [addr | addr v]; cbn [is_poll]; intros H; bool_hyps.
  - left. congruence.
  - right. congruence.
Qed.

(** X6.  In a reachable idle state, any sequence of reads of RXDATA and writes of
    the idle byte 0xFF returns 0xFF for every read and leaves the state as it
    was: an idle device stays idle until an opcode is written. *)
Theorem idle_device_stays_idle (s : sd) (ops : list access) :
  reachable s -> sd_state s = SD_IDLE ->
  forallb is_poll ops = true ->
  run ops s
  = Ok (replicate (length (filter (fun a => is_read a = true) ops)) 0xFF, s).
Proof.
  intros Hreach Hidle.
  destruct (idle_fields s (reachable_inv s Hreach) Hidle) as (Hidx & _).
  induction ops as [| a ops IH]; intros Hall; [reflexivity |].
  cbn [forallb] in Hall. apply andb_true_iff in Hall. destruct Hall as [Ha Hall].
  destruct (is_poll_cases a Ha) as [-> | ->].
  - cbn [run]. rewrite read_not_ready by (rewrite Hidle; discriminate).
    rewrite Hidx. cbn [Z.leb Z.compare bind fst snd].
    rewrite (IH Hall). rewrite filter_cons_True by reflexivity. reflexivity.
  - cbn [run]. rewrite write_idle_byte by tauto. cbn [bind].
    rewrite (IH Hall). rewrite filter_cons_False by discriminate. reflexivity.
Qed.

(** ** The other offsets of the window *)

(** X7.  Accesses at offsets other than TXDATA (for writes) and RXDATA (for
    reads) are invisible to the device: dropping them from any sequence gives
    the same final state, or the same failure. *)
Theorem other_offsets_ignored (ops : list access) (s : sd) :
  final (run ops s)
  = final (run (filter (fun a => on_sd_register a = true) ops) s).
Proof.
  revert s. induction ops as [| [a | a v] ops IH]; intros s; [reflexivity | |].
  - destruct (a =? SPI1_RXDATA) eqn:E.
    + rewrite filter_cons_True by exact E. cbn [run].
      destruct (egos_sd_read s a) as [[r s1] | |]; cbn [bind fst snd];
        [| reflexivity | reflexivity].
      specialize (IH s1).
      destruct (run ops s1) as [[o1 s2] | |],
               (run (filter _ ops) s1) as [[o2 s3] | |];
        cbn [bind fst snd final] in *; congruence.
    + rewrite filter_cons_False by (cbn [on_sd_register]; congruence).
      cbn [run]. bool_hyps. rewrite read_other_offset by assumption.
      cbn [bind fst snd]. rewrite <- IH.
      destruct (run ops s) as [[o1 s2] | |]; reflexivity.
  - destruct (a =? SPI1_TXDATA) eqn:E.
    + rewrite filter_cons_True by exact E. cbn [run].
      destruct (egos_sd_write s a v) as [s1 | |]; cbn [bind];
        [apply IH | reflexivity | reflexivity].
    + rewrite filter_cons_False by (cbn [on_sd_register]; congruence).
      cbn [run]. bool_hyps. rewrite write_other_offset by assumption.
      cbn [bind]. apply IH.
Qed.

(** ** The length check does not cover every store into [sd_cmd] *)

(** X8.  An opcode written in a reachable ready state that holds 31 bytes is
    stored in the last cell and raises the length to 32 with no check; the
    state is then a receiving one, and whatever byte is written next is
    stored past the end of [sd_cmd]. *)
Theorem sd_cmd_overflow (s : sd) (v v' : Z) (st : sd_state_t) :
  reachable s -> sd_state s = SD_READY -> sd_cmd_idx s = 31 ->
  In (v, st) opcode_table ->
  exists s',
    handle_outgoing_byte s v = Ok s' /\
    sd_state s' = st /\ sd_cmd_idx s' = 32 /\
    handle_outgoing_byte s' v' = Undefined The_sd_cmd.
Proof.
  intros Hreach Hst Hidx Hin.
  destruct (reachable_inv s Hreach) as (Hlc & _).
  apply opcode_table_state in Hin.
  destruct (opcode_state_receiving v st Hin) as (Hni & Hnr & _).
  unfold handle_outgoing_byte.
  rewrite (write_opcode s v st) by (auto || lia).
  eexists. split; [reflexivity |]. sd_cbn. rewrite Hidx.
  split; [reflexivity |]. split; [reflexivity |].
  unfold egos_sd_write. rewrite Z.eqb_refl. sd_cbn.
  rewrite !bool_decide_eq_false_2 by assumption. sd_cbn.
  unfold push_cmd. sd_cbn.
  rewrite aset_out by (rewrite length_insert; lia). reflexivity.
Qed.

(** ** A ready device does not look at the command length *)

Lemma aget_ext (o : object) (a b : list Z) (i : Z) :
  a !! Z.to_nat i = b !! Z.to_nat i -> aget o a i = aget o b i.
Proof. intros H. unfold aget. rewrite H. reflexivity. Qed.

Ltac wait_leaf :=
  cbn [sim_outcome];
  first
    [ exact I
    | reflexivity
    | split;
      [ reflexivity
      | first
          [ left; unfold ready_rel; sd_cbn; repeat split;
            (reflexivity || assumption)
          | right; unfold idle_rel; sd_cbn; repeat split; reflexivity ] ] ].

Lemma read_wait_sim (s t : sd) :
  wait_rel s t ->
  sim_outcome wait_read_rel
    (egos_sd_read s SPI1_RXDATA) (egos_sd_read t SPI1_RXDATA).
Proof.
  intros [R | (Hs & Ht & Is & It)].
  2:{ rewrite !read_not_ready by congruence. rewrite Is, It.
      cbn [Z.leb Z.compare sim_outcome]. split; [reflexivity |].
      right. repeat split; assumption. }
  destruct s as [ss si cs sto i8 i58 i17 bs], t as [ts ti ct sto' j8 j58 j17 bt].
  unfold ready_rel in R.
  cbn [sd_state sd_storage sd_cmd cmd8_idx cmd58_idx cmd17_idx block_to_read]
    in R.
  destruct R as (-> & -> & <- & <- & <- & <- & <- & Hlk).
  unfold egos_sd_read. rewrite Z.eqb_refl.
  rewrite !bool_decide_eq_true_2 by reflexivity. sd_cbn.
  rewrite <- (aget_ext The_sd_cmd cs ct 0) by (apply Hlk; lia).
  destruct (aset The_block_to_read bs 0 254) as [b | |]; sd_cbn;
    [| exact I | reflexivity].
  destruct (aget The_sd_cmd cs 0) as [c0 | |]; sd_cbn;
    [| exact I | reflexivity].
  unfold reply_switch, reply_chain. sd_cbn.
  repeat match goal with
  | |- context [aget The_sd_cmd ct ?i] =>
      rewrite <- (aget_ext The_sd_cmd cs ct i) by (apply Hlk; lia)
  | |- context [bind (aget ?o ?a ?i) _] =>
      destruct (aget o a i) as [? | |]; sd_cbn
  | |- context [bind (copy_block ?x ?y ?off) _] =>
      destruct (copy_block x y off) as [? | |]; sd_cbn
  | |- context [if ?c then _ else _] => destruct c; sd_cbn
  end; wait_leaf.
Qed.

Lemma wait_sim (ops : list access) (s t : sd) :
  wait_rel s t -> forallb is_poll ops = true ->
  outputs (run ops s)
  = outputs (run (reads (length (filter (fun a => is_read a = true) ops))) t).
Proof.
  revert s t. induction ops as [| a ops IH]; intros s t R Hall; [reflexivity |].
  cbn [forallb] in Hall. apply andb_true_iff in Hall. destruct Hall as [Ha Hall].
  destruct (is_poll_cases a Ha) as [-> | ->].
  - rewrite filter_cons_True by reflexivity. cbn [length]. rewrite reads_S.
    cbn [run]. pose proof (read_wait_sim s t R) as Hs.
    destruct (egos_sd_read s SPI1_RXDATA) as [[r s1] | | o],
             (egos_sd_read t SPI1_RXDATA) as [[r' t1] | | o'];
      cbn [sim_outcome] in Hs; try contradiction; cbn [bind fst snd];
      [| reflexivity | congruence].
    destruct Hs as [Hr Hs]. cbn [fst snd] in Hr, Hs. subst r'.
    pose proof (IH s1 t1 Hs Hall) as Ho.
    destruct (run ops s1) as [[o1 s2] | |], (run (reads _) t1) as [[o2 t2] | |];
      cbn [outputs bind fst snd] in *; congruence.
  - rewrite filter_cons_False by discriminate. cbn [run].
    rewrite write_idle_byte
      by (destruct R as [(? & _) | (? & _)]; tauto).
    cbn [bind]. exact (IH s t R Hall).
Qed.

Lemma polls_S (n : nat) :
  polls (S n) = Wr SPI1_TXDATA 0xFF :: Rd SPI1_RXDATA :: polls n.
Proof. reflexivity. Qed.

Lemma polls_are_polls (n : nat) :
  forallb is_poll (polls n) = true /\
  length (filter (fun a => is_read a = true) (polls n)) = n.
Proof.
  induction n as [| n [IH1 IH2]]; [split; reflexivity |].
  rewrite polls_S. cbn [forallb is_poll]. rewrite !Z.eqb_refl, IH1.
  split; [reflexivity |].
  rewrite filter_cons_False by discriminate.
  rewrite filter_cons_True by reflexivity. cbn [length]. rewrite IH2.
  reflexivity.
Qed.

Lemma reads_are_polls (n : nat) :
  forallb is_poll (reads n) = true /\
  length (filter (fun a => is_read a = true) (reads n)) = n.
Proof.
  induction n as [| n [IH1 IH2]]; [split; reflexivity |].
  rewrite reads_S. cbn [forallb is_poll]. rewrite Z.eqb_refl, IH1.
  split; [reflexivity |].
  rewrite filter_cons_True by reflexivity. cbn [length]. rewrite IH2.
  reflexivity.
Qed.

(** X9.  Clocking the reply out with the idle byte: after a frame written from a
    reachable idle state, [n] exchanges of 0xFF (write, then read) return
    what [n] plain reads return, byte for byte and failure for failure, even
    though the first 0xFF is stored as a seventh frame byte. *)
Theorem polling_with_idle_byte (s : sd) (op a1 a2 a3 a4 crc : Z)
    (st : sd_state_t) (n : nat) :
  reachable s -> sd_state s = SD_IDLE -> In (op, st) opcode_table ->
  outputs (run (frame op a1 a2 a3 a4 crc ++ polls n) s)
  = outputs (run (frame op a1 a2 a3 a4 crc ++ reads n) s).
Proof.
  intros Hreach Hidle Hin.
  destruct (idle_fields s (reachable_inv s Hreach) Hidle)
    as (Hidx & _ & _ & _ & Hlc & _).
  apply opcode_table_state in Hin.
  destruct (opcode_state_receiving op st Hin) as (Hni & Hnr & _).
  rewrite !(run_Ok_app _ _ _ _ _
              (run_frame s op a1 a2 a3 a4 crc st Hidle Hidx Hlc Hin)).
  cbn [app].
  set (F := after_frame st op a1 a2 a3 a4 crc s).
  assert (Hout : forall x : outcome (list Z * sd),
            outputs (y <- x ;; Ok (fst y, snd y)) = outputs x)
    by (intros [[? ?] | |]; reflexivity).
  rewrite !Hout.
  destruct n as [| n]; [reflexivity |].
  rewrite polls_S, reads_S. cbn [run].
  rewrite (write_frame_byte F 0xFF)
    by (unfold F, after_frame, frame_cmd; sd_cbn;
        cbn [length]; rewrite ?length_drop; (assumption || lia)).
  unfold F, after_frame. sd_cbn. norm_consts. sd_cbn.
  rewrite !read_not_ready by (sd_cbn; assumption).
  sd_cbn.
  destruct (polls_are_polls n) as [Hp Hc].
  match goal with
  | |- outputs (bind (run _ ?a) _) = outputs (bind (run _ ?b) _) =>
      pose proof (wait_sim (polls n) a b) as Hsim
  end.
  rewrite Hc in Hsim.
  match type of Hsim with
  | ?P -> ?Q -> outputs ?x = outputs ?y =>
      assert (E : outputs x = outputs y)
  end.
  { apply Hsim; [| exact Hp]. left. unfold ready_rel. sd_cbn.
    repeat split. intros i Hi.
    apply list_lookup_insert_ne. change (Z.to_nat 6) with 6%nat. lia. }
  clear Hsim.
  match type of E with
  | outputs ?x = outputs ?y =>
      destruct x as [[o1 s1] | |], y as [[o2 s2] | |];
      cbn [outputs bind fst snd] in *; congruence
  end.
Qed.

(** X10.  An opcode written while a reply is being read does not start a new
    command: the next read returns 0xFF, and after it the reads go on with
    the interrupted reply exactly as if the opcode had not been written. *)
Theorem opcode_during_reply (s : sd) (v : Z) (st : sd_state_t) (n : nat) :
  reachable s -> sd_state s = SD_READY -> sd_cmd_idx s < 32 ->
  In (v, st) opcode_table ->
  outputs (run (Wr SPI1_TXDATA v :: Rd SPI1_RXDATA :: reads n) s)
  = cons_out 0xFF (outputs (run (reads n) s)).
Proof.
  intros Hreach Hst Hlt Hin.
  destruct (reachable_inv s Hreach)
    as (Hlc & _ & _ & _ & Hidx & _ & Hready & _).
  pose proof (Hready Hst) as Hge.
  apply opcode_table_state in Hin.
  destruct (opcode_state_receiving v st Hin) as (Hni & Hnr & _).
  cbn [run].
  rewrite (write_opcode s v st) by (auto || lia). cbn [bind].
  rewrite read_not_ready by (sd_cbn; assumption). sd_cbn.
  assert ((6 <=? sd_cmd_idx s + 1) = true) as -> by (apply Z.leb_le; lia).
  destruct (reads_are_polls n) as [Hp Hc].
  match goal with
  | |- outputs (bind (run _ ?a) _) = _ =>
      pose proof (wait_sim (reads n) a s) as Hsim
  end.
  rewrite Hc in Hsim.
  match type of Hsim with
  | ?P -> ?Q -> outputs ?x = outputs ?y =>
      assert (E : outputs x = outputs y)
  end.
  { apply Hsim; [| exact Hp]. left. unfold ready_rel. sd_cbn.
    repeat split; try assumption. intros i Hi.
    apply list_lookup_insert_ne. lia. }
  clear Hsim. rewrite <- E.
  match goal with
  | |- outputs (bind ?r _) = _ => destruct r as [[o1 s1] | |]
  end; reflexivity.
Qed.

(** ** A frame sent exchange by exchange *)

Ltac exchange_step :=
  sd_cbn; norm_consts; sd_cbn;
  rewrite read_not_ready by (sd_cbn; assumption);
  sd_cbn.

(** X11.  A driver that reads RXDATA after every byte it writes gets 0xFF for each
    of the six bytes of a frame sent from a reachable idle state, and the
    sixth read leaves the device ready with the frame held: the state is the
    one reached by writing the six bytes and reading once. *)
Theorem frame_by_exchanges (s : sd) (op a1 a2 a3 a4 crc : Z) (st : sd_state_t) :
  reachable s -> sd_state s = SD_IDLE -> In (op, st) opcode_table ->
  exists s',
    run (frame_exchanges op a1 a2 a3 a4 crc) s
    = Ok ([0xFF; 0xFF; 0xFF; 0xFF; 0xFF; 0xFF], s') /\
    run (frame op a1 a2 a3 a4 crc ++ reads 1) s = Ok ([0xFF], s') /\
    sd_state s' = SD_READY /\ sd_cmd_idx s' = 6 /\
    command_buffer s'
    = [op; to_char a1; to_char a2; to_char a3; to_char a4; to_char crc].
Proof.
  intros Hreach Hidle Hin.
  destruct (idle_fields s (reachable_inv s Hreach) Hidle)
    as (Hidx & _ & _ & _ & Hlc & _).
  apply opcode_table_state in Hin.
  destruct (opcode_state_receiving op st Hin) as (Hni & Hnr & _).
  exists (after_frame SD_READY op a1 a2 a3 a4 crc s).
  split; [| split; [exact (run_frame_ready s op a1 a2 a3 a4 crc st Hidle Hidx Hlc Hin) |]].
  - destruct s as [state idx cmd sto i8 i58 i17 btr].
    cbn [sd_state sd_cmd_idx sd_cmd] in Hidle, Hidx, Hlc.
    subst state idx. unfold frame_exchanges, exchange. cbn [app run].
    rewrite (write_opcode _ op st)
      by (cbn [sd_state sd_cmd_idx sd_cmd]; (auto || lia)).
    exchange_step.
    do 5 (rewrite write_frame_byte
            by (sd_cbn; rewrite ?length_insert; (assumption || lia));
          exchange_step).
    unfold after_frame, frame_cmd. sd_cbn.
    rewrite insert_frame by lia. reflexivity.
  - unfold after_frame, command_buffer, frame_cmd. sd_cbn.
    repeat split.
Qed.

(** ** Loading the image *)

Lemma total_cons (a : Z) (l : list Z) : total (a :: l) = a + total l.
Proof. reflexivity. Qed.

Lemma total_nonneg (l : list Z) : Forall (fun a => 0 < a) l -> 0 <= total l.
Proof.
  induction 1 as [| a l Ha _ IH]; [reflexivity |].
  rewrite total_cons. lia.
Qed.

Lemma load_loop_done (avail : list Z) (st_size : Z) (file : Z -> Z)
    (pos nread : Z) (sto : Z -> Z) :
  st_size <= nread ->
  load_loop avail st_size file pos nread sto = Some (Ok sto).
Proof.
  intros H. destruct avail; cbn [load_loop];
    (destruct (nread <? st_size) eqn:E; bool_hyps; [lia | reflexivity]).
Qed.

Lemma load_loop_spec (avail : list Z) (file : Z -> Z) (n : Z) (sto : Z -> Z) :
  Forall (fun a => 0 < a) avail ->
  0 <= n <= STORAGE_SIZE -> STORAGE_SIZE - n <= total avail ->
  exists sto',
    load_loop avail STORAGE_SIZE file n n sto = Some (Ok sto') /\
    forall i, sto' i = if (n <=? i) && (i <? STORAGE_SIZE) then file i else sto i.
Proof.
  revert n sto. induction avail as [| a avail IH]; intros n sto Hpos Hn Hsum.
  - cbn [total foldr] in Hsum. assert (n = STORAGE_SIZE) as -> by lia.
    exists sto. split; [apply load_loop_done; lia |].
    intros i. destruct (STORAGE_SIZE <=? i) eqn:E1, (i <? STORAGE_SIZE) eqn:E2;
      bool_hyps; (reflexivity || lia).
  - destruct (Z.eq_dec n STORAGE_SIZE) as [-> | Hne].
    + exists sto. split; [apply load_loop_done; lia |].
      intros i. destruct (STORAGE_SIZE <=? i) eqn:E1, (i <? STORAGE_SIZE) eqn:E2;
        bool_hyps; (reflexivity || lia).
    + apply Forall_cons in Hpos. destruct Hpos as [Ha Hpos].
      rewrite total_cons in Hsum.
      cbn [load_loop].
      assert ((n <? STORAGE_SIZE) = true) as -> by (apply Z.ltb_lt; lia).
      assert ((0 <? a) = true) as -> by (apply Z.ltb_lt; lia).
      cbv zeta.
      set (r := Z.min a (STORAGE_SIZE - n)).
      assert (Hr : 0 < r <= STORAGE_SIZE - n /\ r <= a) by (unfold r; lia).
      assert (Hr' : r = a \/ r = STORAGE_SIZE - n) by (unfold r; lia).
      pose proof (total_nonneg avail Hpos) as Htot.
      assert ((0 <=? n) && (n + r <=? STORAGE_SIZE) = true) as ->
        by (apply andb_true_iff; split; apply Z.leb_le; lia).
      rewrite wrap32_small by (unfold STORAGE_SIZE in *; lia).
      destruct (IH (n + r)
                  (fun i => if (n <=? i) && (i <? n + r)
                            then file (n + (i - n)) else sto i)
                  Hpos ltac:(lia) ltac:(lia)) as (sto' & Hl & Hs).
      exists sto'. split; [exact Hl |].
      intros i. rewrite Hs.
      destruct (n + r <=? i) eqn:E1, (i <? STORAGE_SIZE) eqn:E2,
               (n <=? i) eqn:E3, (i <? n + r) eqn:E4; bool_hyps;
        cbn [andb]; try lia; try reflexivity.
      f_equal. lia.
Qed.

(** X12.  [egos_sd_reset] stops at [assert(0)], before any [read], unless the size
    reported for the image is exactly the size of [sd_storage].  When it is,
    and every [read] finds at least one byte, the loop ends however the file
    system cuts the image into pieces: [sd_storage] then holds the image,
    byte for byte. *)
Theorem reset_loads_image (st_size : Z) (file : Z -> Z) (avail : list Z)
    (sto : Z -> Z) :
  (st_size <> STORAGE_SIZE ->
   egos_sd_reset st_size file avail sto = Some Abort) /\
  (st_size = STORAGE_SIZE ->
   Forall (fun a => 0 < a) avail -> STORAGE_SIZE <= total avail ->
   exists sto',
     egos_sd_reset st_size file avail sto = Some (Ok sto') /\
     (forall i, 0 <= i < STORAGE_SIZE -> sto' i = file i) /\
     (forall i, ~ 0 <= i < STORAGE_SIZE -> sto' i = sto i)).
Proof.
  unfold egos_sd_reset. split.
  - intros Hne. destruct (st_size =? STORAGE_SIZE) eqn:E; bool_hyps;
      [contradiction | reflexivity].
  - intros -> Hpos Hsum. rewrite Z.eqb_refl. cbn [negb].
    destruct (load_loop_spec avail file 0 sto Hpos
                ltac:(unfold STORAGE_SIZE; lia) ltac:(lia))
      as (sto' & Hl & Hs).
    exists sto'. split; [exact Hl |].
    split; intros i Hi; rewrite Hs;
      destruct (0 <=? i) eqn:E1, (i <? STORAGE_SIZE) eqn:E2; bool_hyps;
      cbn [andb]; (reflexivity || lia).
Qed.

Lemma load_loop_stuck (pieces : list Z) (k : nat) (file : Z -> Z)
    (pos n : Z) (sto : Z -> Z) :
  Forall (fun a => 0 < a) pieces ->
  0 <= n -> n + total pieces < STORAGE_SIZE ->
  load_loop (pieces ++ replicate k 0) STORAGE_SIZE file pos n sto = None.
Proof.
  revert pos n sto.
  induction pieces as [| a pieces IH]; intros pos n sto Hpos Hn Hsum.
  - cbn [total foldr app] in *.
    induction k as [| k IHk]; cbn [replicate load_loop];
      (assert ((n <? STORAGE_SIZE) = true) as -> by (apply Z.ltb_lt; lia));
      [reflexivity |].
    change (0 <? 0) with false. cbv iota.
    rewrite Z.add_0_r, wrap32_small by (unfold STORAGE_SIZE in *; lia).
    exact IHk.
  - apply Forall_cons in Hpos. destruct Hpos as [Ha Hpos].
    rewrite total_cons in Hsum.
    pose proof (total_nonneg pieces Hpos) as Htot.
    cbn [app load_loop].
    assert ((n <? STORAGE_SIZE) = true) as -> by (apply Z.ltb_lt; lia).
    assert ((0 <? a) = true) as -> by (apply Z.ltb_lt; lia).
    cbv zeta.
    replace (Z.min a (STORAGE_SIZE - n)) with a by lia.
    assert ((0 <=? n) && (n + a <=? STORAGE_SIZE) = true) as ->
      by (apply andb_true_iff; split; apply Z.leb_le; lia).
    rewrite wrap32_small by (unfold STORAGE_SIZE in *; lia).
    apply IH; (assumption || lia).
Qed.

(** X13.  A [read] that finds the end of the file before the image is complete
    makes no progress: when the pieces read so far fall short of the size of
    [sd_storage], then as long as [read] returns 0 the loop of
    [egos_sd_reset] neither ends nor fails. *)
Theorem reset_spins_at_end_of_file (file : Z -> Z) (pieces : list Z) (k : nat)
    (sto : Z -> Z) :
  Forall (fun a => 0 < a) pieces -> total pieces < STORAGE_SIZE ->
  egos_sd_reset STORAGE_SIZE file (pieces ++ replicate k 0) sto = None.
Proof.
  intros Hpos Hsum. unfold egos_sd_reset. rewrite Z.eqb_refl. cbn [negb].
  apply load_loop_stuck; (assumption || lia).
Qed.

Lemma load_loop_errors (j : nat) (l : list Z) (file : Z -> Z)
    (pos n : Z) (sto : Z -> Z) :
  n <= 0 -> - 2 ^ 31 <= n - Z.of_nat j ->
  load_loop (replicate j (-1) ++ l) STORAGE_SIZE file pos n sto
  = load_loop l STORAGE_SIZE file pos (n - Z.of_nat j) sto.
Proof.
  revert n. induction j as [| j IH]; intros n Hn Hj.
  - cbn [replicate app]. f_equal. lia.
  - cbn [replicate app load_loop].
    assert ((n <? STORAGE_SIZE) = true) as ->
      by (apply Z.ltb_lt; unfold STORAGE_SIZE; lia).
    change (0 <? -1) with false. cbv iota.
    rewrite wrap32_small by lia.
    rewrite IH by lia. f_equal. lia.
Qed.

(** X14.  A [read] that fails returns -1, which the loop adds to [nread] like any
    other result.  When the first calls fail, the first call that finds bytes
    is given an address before the start of [sd_storage] and a count larger
    than its size. *)
Theorem reset_read_error_underflows (file : Z -> Z) (j : nat) (a : Z)
    (rest : list Z) (sto : Z -> Z) :
  (1 <= j)%nat -> Z.of_nat j <= 2 ^ 31 -> 0 < a ->
  egos_sd_reset STORAGE_SIZE file (replicate j (-1) ++ a :: rest) sto
  = Some (Undefined The_sd_storage).
Proof.
  intros Hj Hmax Ha. unfold egos_sd_reset. rewrite Z.eqb_refl. cbn [negb].
  rewrite load_loop_errors by lia.
  cbn [load_loop].
  assert ((0 - Z.of_nat j <? STORAGE_SIZE) = true) as ->
    by (apply Z.ltb_lt; unfold STORAGE_SIZE; lia).
  assert ((0 <? a) = true) as -> by (apply Z.ltb_lt; lia).
  cbv zeta.
  assert ((0 <=? 0 - Z.of_nat j) = false) as -> by (apply Z.leb_gt; lia).
  reflexivity.
Qed.

(** ** Every reply comes to an end *)

Lemma reply_table_byte (o : object) (tbl : list Z) (i c : Z) :
  Forall is_byte tbl -> aget o tbl i = Ok c -> is_byte c.
Proof.
  intros Hall Hc. apply aget_Ok_inv in Hc. destruct Hc as [_ Hc].
  eapply Forall_lookup_1; eassumption.
Qed.

Lemma cmd8_reply_bytes : Forall is_byte cmd8_reply.
Proof. unfold cmd8_reply, is_byte. repeat constructor; lia. Qed.

Lemma cmd58_reply_bytes : Forall is_byte cmd58_reply.
Proof. unfold cmd58_reply, is_byte. repeat constructor; lia. Qed.

Lemma cmd8_finish (m : nat) (s : sd) :
  sd_state s = SD_READY -> (0 < length (block_to_read s))%nat ->
  sd_cmd s !! 0%nat = Some 0x48 ->
  (1 <= m <= 5)%nat -> cmd8_idx s = 5 - Z.of_nat m ->
  exists o s',
    run (reads m) s = Ok (o, s') /\ sd_state s' = SD_IDLE /\ sd_cmd_idx s' = 0.
Proof.
  revert s. induction m as [| m IH]; intros s Hst Hlen Hc0 Hm Hidx; [lia |].
  destruct (aget_in_range The_cmd8_reply cmd8_reply (cmd8_idx s)) as [c Hc];
    [cbn [length cmd8_reply]; lia |].
  pose proof (reply_table_byte _ _ _ _ cmd8_reply_bytes Hc) as Hcb.
  rewrite reads_S.
  rewrite (run_read_cons _ _ _ c (read_ready_cmd8 s c Hst Hlen Hc0 Hc Hcb)).
  cbv zeta.
  destruct (cmd8_idx s + 1 =? 5) eqn:E; bool_hyps.
  - assert (m = 0%nat) as -> by lia. cbn [reads replicate run bind fst snd].
    do 2 eexists. repeat split.
  - destruct (IH (set_cmd8_idx (cmd8_idx s + 1)
                    (set_block_to_read (<[0%nat := 0xFE]> (block_to_read s)) s)))
      as (o & s' & Hrun & Hs' & Hi');
      [sd_cbn; assumption | sd_cbn; rewrite length_insert; assumption
      | sd_cbn; assumption | lia | sd_cbn; lia |].
    cbv iota. rewrite Hrun. cbn [bind fst snd]. do 2 eexists.
    repeat split; assumption.
Qed.

Lemma cmd58_finish (m : nat) (s : sd) :
  sd_state s = SD_READY -> (0 < length (block_to_read s))%nat ->
  sd_cmd s !! 0%nat = Some 0x7A ->
  (1 <= m <= 5)%nat -> cmd58_idx s = 5 - Z.of_nat m ->
  exists o s',
    run (reads m) s = Ok (o, s') /\ sd_state s' = SD_IDLE /\ sd_cmd_idx s' = 0.
Proof.
  revert s. induction m as [| m IH]; intros s Hst Hlen Hc0 Hm Hidx; [lia |].
  destruct (aget_in_range The_cmd58_reply cmd58_reply (cmd58_idx s)) as [c Hc];
    [cbn [length cmd58_reply]; lia |].
  pose proof (reply_table_byte _ _ _ _ cmd58_reply_bytes Hc) as Hcb.
  rewrite reads_S.
  rewrite (run_read_cons _ _ _ c (read_ready_cmd58 s c Hst Hlen Hc0 Hc Hcb)).
  cbv zeta.
  destruct (cmd58_idx s + 1 =? 5) eqn:E; bool_hyps.
  - assert (m = 0%nat) as -> by lia. cbn [reads replicate run bind fst snd].
    do 2 eexists. repeat split.
  - destruct (IH (set_cmd58_idx (cmd58_idx s + 1)
                    (set_block_to_read (<[0%nat := 0xFE]> (block_to_read s)) s)))
      as (o & s' & Hrun & Hs' & Hi');
      [sd_cbn; assumption | sd_cbn; rewrite length_insert; assumption
      | sd_cbn; assumption | lia | sd_cbn; lia |].
    cbv iota. rewrite Hrun. cbn [bind fst snd]. do 2 eexists.
    repeat split; assumption.
Qed.

(** One read in the middle of a transfer, whatever the staging buffer holds. *)
Lemma read_cmd17_step (s : sd) :
  sd_state s = SD_READY -> sd_cmd s !! 0%nat = Some 0x51 ->
  length (block_to_read s) = 513%nat ->
  0 <= cmd17_idx s <= BLOCK_SIZE ->
  exists r,
    egos_sd_read s SPI1_RXDATA
    = Ok (r, let s0 := set_block_to_read (<[0%nat := 0xFE]> (block_to_read s)) s in
             if cmd17_idx s <? BLOCK_SIZE then set_cmd17_idx (cmd17_idx s + 1) s0
             else sd_done (set_cmd17_idx (-1) s0)).
Proof.
  intros Hst H0 Hlen Hidx. unfold BLOCK_SIZE in *.
  rewrite (read_ready s 0x51) by (assumption || lia).
  rewrite char_to_int_low by lia.
  unfold reply_switch, reply_chain. sd_cbn.
  assert ((cmd17_idx s =? -1) = false) as -> by (apply Z.eqb_neq; lia).
  destruct (aget_in_range The_block_to_read
              (<[0%nat := 0xFE]> (block_to_read s)) (cmd17_idx s)) as [c Hc];
    [rewrite length_insert; lia |].
  rewrite Hc. sd_cbn. unfold BLOCK_SIZE.
  destruct (cmd17_idx s <? 512) eqn:E; bool_hyps.
  - eexists. reflexivity.
  - assert ((cmd17_idx s =? 512) = true) as -> by (apply Z.eqb_eq; lia).
    eexists. reflexivity.
Qed.

Lemma cmd17_finish (m : nat) (s : sd) :
  sd_state s = SD_READY -> sd_cmd s !! 0%nat = Some 0x51 ->
  length (block_to_read s) = 513%nat ->
  (1 <= m <= 513)%nat -> cmd17_idx s = 513 - Z.of_nat m ->
  exists o s',
    run (reads m) s = Ok (o, s') /\ sd_state s' = SD_IDLE /\ sd_cmd_idx s' = 0.
Proof.
  revert s. induction m as [| m IH]; intros s Hst Hc0 Hlen Hm Hidx; [lia |].
  destruct (read_cmd17_step s Hst Hc0 Hlen ltac:(unfold BLOCK_SIZE; lia))
    as [r Hr].
  rewrite reads_S, (run_read_cons _ _ _ r Hr). cbv zeta.
  unfold BLOCK_SIZE.
  destruct (cmd17_idx s <? 512) eqn:E; bool_hyps.
  - destruct (IH (set_cmd17_idx (cmd17_idx s + 1)
                    (set_block_to_read (<[0%nat := 0xFE]> (block_to_read s)) s)))
      as (o & s' & Hrun & Hs' & Hi');
      [sd_cbn; assumption | sd_cbn; assumption
      | sd_cbn; rewrite length_insert; assumption | lia | sd_cbn; lia |].
    cbv iota. rewrite Hrun. cbn [bind fst snd]. do 2 eexists.
    repeat split; assumption.
  - assert (m = 0%nat) as -> by lia. cbn [reads replicate run bind fst snd].
    do 2 eexists. repeat split.
Qed.

Lemma ready_reply_ends (s : sd) :
  reachable s -> sd_state s = SD_READY ->
  exists n : nat,
    (1 <= n <= 514)%nat /\
    ((exists o s',
        run (reads n) s = Ok (o, s') /\
        sd_state s' = SD_IDLE /\ sd_cmd_idx s' = 0) \/
     run (reads n) s = Undefined The_sd_storage).
Proof.
  intros Hreach Hst.
  pose proof (reachable_inv_opcode s Hreach) as Hop.
  destruct (reachable_inv s Hreach)
    as (Hlc & Hlb & Hbc & Hsto & Hidx & Hidle & Hready
        & H8 & H8op & H58 & H58op & H17 & H17op).
  destruct Hop as (c0 & st & Hc0 & Hst0); [pose proof (Hready Hst); lia |].
  destruct (opcode_state_reply c0 st Hst0) as [-> | [-> | [-> | [r Hr]]]].
  - exists (Z.to_nat (5 - cmd8_idx s)). split; [lia |]. left.
    apply cmd8_finish; (assumption || lia).
  - exists (Z.to_nat (5 - cmd58_idx s)). split; [lia |]. left.
    apply cmd58_finish; (assumption || lia).
  - destruct (Z.eq_dec (cmd17_idx s) (-1)) as [E17 | N17].
    + destruct (lookup_lt_is_Some_2 (sd_cmd s) 1) as [c1 E1]; [lia |].
      destruct (lookup_lt_is_Some_2 (sd_cmd s) 2) as [c2 E2]; [lia |].
      destruct (lookup_lt_is_Some_2 (sd_cmd s) 3) as [c3 E3]; [lia |].
      destruct (lookup_lt_is_Some_2 (sd_cmd s) 4) as [c4 E4]; [lia |].
      set (off := wrap32 (cmd17_block_no c1 c2 c3 c4 * BLOCK_SIZE)).
      destruct (decide (0 <= off /\ off + BLOCK_SIZE <= STORAGE_SIZE))
        as [[Hin1 Hin2] | Hout].
      * exists 514%nat. split; [lia |]. left.
        destruct (cmd17_transfer s c1 c2 c3 c4 off Hst Hlb Hsto Hc0
                    E1 E2 E3 E4 E17 eq_refl Hin1 Hin2) as (Hfirst & _ & Hlast).
        rewrite reads_S, (run_read_cons _ _ _ _ Hfirst), Hlast.
        cbn [bind fst snd]. do 2 eexists. repeat split.
      * exists 1%nat. split; [lia |]. right.
        cbn [reads replicate run].
        rewrite (read_cmd17_first s c1 c2 c3 c4) by (assumption || lia).
        fold off. rewrite copy_block_out by exact Hout. reflexivity.
    + exists (Z.to_nat (513 - cmd17_idx s)). split; [lia |]. left.
      apply cmd17_finish; (assumption || lia).
  - exists 1%nat. split; [lia |]. left.
    cbn [reads replicate run].
    rewrite (read_ready_one_byte s c0 r) by (assumption || lia).
    cbn [bind fst snd]. do 2 eexists. repeat split.
Qed.

(** X15.  Once six or more bytes of a frame are held, reading brings every
    reachable state back to idle with an empty command buffer within 515
    reads, the only other outcome being the copy of a CMD17 block that lies
    outside [sd_storage]. *)
Theorem reply_ends (s : sd) :
  reachable s -> 6 <= sd_cmd_idx s ->
  exists n : nat,
    (1 <= n <= 515)%nat /\
    ((exists o s',
        run (reads n) s = Ok (o, s') /\
        sd_state s' = SD_IDLE /\ sd_cmd_idx s' = 0) \/
     run (reads n) s = Undefined The_sd_storage).
Proof.
  intros Hreach Hge.
  destruct (decide (sd_state s = SD_READY)) as [Hst | Hst].
  - destruct (ready_reply_ends s Hreach Hst) as (n & Hn & H).
    exists n. split; [lia | exact H].
  - assert (Hrd : egos_sd_read s SPI1_RXDATA = Ok (0xFF, set_sd_state SD_READY s)).
    { rewrite read_not_ready by exact Hst.
      assert ((6 <=? sd_cmd_idx s) = true) as -> by (apply Z.leb_le; lia).
      reflexivity. }
    destruct (ready_reply_ends (set_sd_state SD_READY s)
                (reach_read s _ _ _ Hreach Hrd) eq_refl) as (n & Hn & H).
    exists (S n). split; [lia |].
    rewrite reads_S, (run_read_cons _ _ _ _ Hrd).
    destruct H as [(o & s' & Hrun & Hs') | Hu].
    + left. rewrite Hrun. cbn [bind fst snd]. do 2 eexists.
      split; [reflexivity | exact Hs'].
    + right. rewrite Hu. reflexivity.
Qed.

(** ** When a write fails *)

Lemma push_cmd_full (c : Z) (s : sd) :
  sd_cmd_idx s = Z.of_nat (length (sd_cmd s)) -> push_cmd c s = Undefined The_sd_cmd.
Proof.
  intros H. unfold push_cmd, aset. rewrite H, Z.ltb_irrefl, andb_false_r.
  reflexivity.
Qed.

(** X16.  The failures of a write in a reachable state, exactly.  It reaches
    [assert(0)] when it is the 32nd byte of a frame being received, or a byte
    that is neither an opcode nor 0xFF while idle or ready; it stores past
    the end of [sd_cmd] when 32 bytes are already held and the byte is
    stored (any byte while receiving, an opcode while ready).  Every other
    write returns. *)
Theorem write_fails_exactly_when (s : sd) (addr v : Z) :
  reachable s ->
  (egos_sd_write s addr v = Abort <->
   addr = SPI1_TXDATA /\
   ((sd_state s <> SD_IDLE /\ sd_state s <> SD_READY /\ sd_cmd_idx s = 31) \/
    ((sd_state s = SD_IDLE \/ sd_state s = SD_READY) /\
     opcode_state v = None /\ v <> 0xFF))) /\
  (forall o : object,
     egos_sd_write s addr v = Undefined o <->
     o = The_sd_cmd /\ addr = SPI1_TXDATA /\ sd_cmd_idx s = 32 /\
     (sd_state s <> SD_READY \/ opcode_state v <> None)).
Proof.
  intros Hreach.
  destruct (reachable_inv s Hreach) as (Hlc & _ & _ & _ & Hidx & Hidle & _).
  destruct (Z.eq_dec addr SPI1_TXDATA) as [-> | Hne].
  2: { rewrite write_other_offset by exact Hne.
       split; [| intros o]; (split; [discriminate | tauto]). }
  destruct (decide (sd_state s = SD_IDLE \/ sd_state s = SD_READY)) as [Hst | Hst].
  - destruct (opcode_state v) as [st |] eqn:Eop.
    + destruct (Z.eq_dec (sd_cmd_idx s) 32) as [E32 | N32].
      * assert (Hw : egos_sd_write s SPI1_TXDATA v = Undefined The_sd_cmd).
        { unfold egos_sd_write. rewrite Z.eqb_refl. cbn [negb].
          assert (negb (bool_decide (sd_state s = SD_IDLE))
                  && negb (bool_decide (sd_state s = SD_READY)) = false) as ->
            by (destruct Hst as [-> | ->]; reflexivity).
          rewrite Eop, push_cmd_full by lia. reflexivity. }
        rewrite Hw. split; [| intros o].
        -- split; [discriminate |]. intros [_ [? | (_ & ? & _)]];
             [tauto | discriminate].
        -- split; [intros [= <-] | intros [-> _]; reflexivity].
           repeat split; try assumption. right. discriminate.
      * rewrite (write_opcode s v st Hst Eop) by lia.
        split; [| intros o].
        -- split; [discriminate |]. intros [_ [? | (_ & ? & _)]];
             [tauto | discriminate].
        -- split; [discriminate | intros (_ & _ & ? & _); contradiction].
    + assert (Hw : egos_sd_write s SPI1_TXDATA v
                   = if v =? 0xFF then Ok s else Abort).
      { unfold egos_sd_write. rewrite Z.eqb_refl. cbn [negb].
        assert (negb (bool_decide (sd_state s = SD_IDLE))
                && negb (bool_decide (sd_state s = SD_READY)) = false) as ->
          by (destruct Hst as [-> | ->]; reflexivity).
        rewrite Eop. reflexivity. }
      rewrite Hw.
      destruct (v =? 0xFF) eqn:Ev; bool_hyps; (split; [| intros o]).
      * split; [discriminate |]. intros [_ [? | (_ & _ & ?)]]; tauto.
      * split; [discriminate |]. intros (_ & _ & E32 & [Hn | Hn]);
          [| contradiction Hn; reflexivity].
        destruct Hst as [Hi | Hr]; [apply Hidle in Hi; lia | contradiction].
      * split; [intros _ | reflexivity]. split; [reflexivity |]. right. tauto.
      * split; [discriminate |]. intros (_ & _ & E32 & [Hn | Hn]);
          [| contradiction Hn; reflexivity].
        destruct Hst as [Hi | Hr]; [apply Hidle in Hi; lia | contradiction].
  - assert (Hni : sd_state s <> SD_IDLE) by tauto.
    assert (Hnr : sd_state s <> SD_READY) by tauto.
    destruct (Z.eq_dec (sd_cmd_idx s) 32) as [E32 | N32].
    + assert (Hw : egos_sd_write s SPI1_TXDATA v = Undefined The_sd_cmd).
      { unfold egos_sd_write. rewrite Z.eqb_refl. cbn [negb].
        rewrite !bool_decide_eq_false_2 by assumption. cbn [negb andb].
        rewrite push_cmd_full by lia. reflexivity. }
      rewrite Hw. split; [| intros o].
      * split; [discriminate |]. intros [_ [(_ & _ & ?) | [? _]]]; [lia | tauto].
      * split; [intros [= <-] | intros [-> _]; reflexivity].
        repeat split; try assumption. left. assumption.
    + rewrite write_frame_byte by (assumption || lia).
      destruct (sd_cmd_idx s + 1 =? 32) eqn:E; bool_hyps; (split; [| intros o]).
      * split; [intros _ | reflexivity]. split; [reflexivity |]. left.
        repeat split; (assumption || lia).
      * split; [discriminate | intros (_ & _ & ? & _); contradiction].
      * split; [discriminate |]. intros [_ [(_ & _ & ?) | [? _]]]; [lia | tauto].
      * split; [discriminate | intros (_ & _ & ? & _); contradiction].
Qed.

(** ** An opcode written while a frame is held *)

Lemma write_frame_byte_ok (s1 s : sd) (v : Z) :
  sd_state s1 <> SD_IDLE -> sd_state s1 <> SD_READY ->
  6 <= sd_cmd_idx s1 < 31 -> length (sd_cmd s1) = 32%nat ->
  ready_rel (set_sd_state SD_READY s1) s ->
  exists s2,
    egos_sd_write s1 SPI1_TXDATA v = Ok s2 /\
    sd_state s2 = sd_state s1 /\ sd_cmd_idx s2 = sd_cmd_idx s1 + 1 /\
    length (sd_cmd s2) = 32%nat /\
    ready_rel (set_sd_state SD_READY s2) s.
Proof.
  intros Hni Hnr Hidx Hlen R.
  rewrite write_frame_byte by (assumption || lia).
  destruct (sd_cmd_idx s1 + 1 =? 32) eqn:E; bool_hyps; [lia |].
  eexists. split; [reflexivity |]. sd_cbn.
  split; [reflexivity |]. split; [reflexivity |].
  split; [rewrite length_insert; exact Hlen |].
  unfold ready_rel in *. sd_cbn.
  destruct R as (R1 & R2 & R3 & R4 & R5 & R6 & R7 & R8).
  split; [reflexivity |]. split; [exact R2 |]. split; [exact R3 |].
  split; [exact R4 |]. split; [exact R5 |]. split; [exact R6 |].
  split; [exact R7 |].
  intros i Hi. rewrite list_lookup_insert_ne by lia. exact (R8 i Hi).
Qed.

(** A whole frame written in state [SD_READY], and the read after it: the
    frame lands behind the one held, and the state the read leaves differs
    from the one before the frame only past the first five command bytes. *)
Lemma run_frame_while_ready (s : sd) (op a1 a2 a3 a4 crc : Z) (st : sd_state_t) :
  sd_state s = SD_READY -> 6 <= sd_cmd_idx s -> sd_cmd_idx s + 6 < 32 ->
  length (sd_cmd s) = 32%nat -> opcode_state op = Some st ->
  exists s',
    run (frame op a1 a2 a3 a4 crc ++ reads 1) s = Ok ([0xFF], s') /\
    sd_cmd_idx s' = sd_cmd_idx s + 6 /\ ready_rel s' s.
Proof.
  intros Hst Hge Hlt Hlen Hop.
  destruct (opcode_state_receiving op st Hop) as (Hni & Hnr & _).
  pose proof (write_opcode s op st (or_intror Hst) Hop ltac:(lia)) as W1.
  set (s1 := set_sd_state st
               (set_sd_cmd_idx (sd_cmd_idx s + 1)
                  (set_sd_cmd (<[Z.to_nat (sd_cmd_idx s) := op]> (sd_cmd s)) s)))
    in W1.
  assert (St1 : sd_state s1 = st) by reflexivity.
  assert (I1 : sd_cmd_idx s1 = sd_cmd_idx s + 1) by reflexivity.
  assert (L1 : length (sd_cmd s1) = 32%nat)
    by (unfold s1; sd_cbn; rewrite length_insert; exact Hlen).
  assert (R1 : ready_rel (set_sd_state SD_READY s1) s).
  { unfold ready_rel, s1. sd_cbn. repeat split; try assumption.
    intros i Hi. apply list_lookup_insert_ne. lia. }
  destruct (write_frame_byte_ok s1 s a1) as (s2 & W2 & St2 & I2 & L2 & R2);
    try (assumption || congruence || lia).
  destruct (write_frame_byte_ok s2 s a2) as (s3 & W3 & St3 & I3 & L3 & R3);
    try (assumption || congruence || lia).
  destruct (write_frame_byte_ok s3 s a3) as (s4 & W4 & St4 & I4 & L4 & R4);
    try (assumption || congruence || lia).
  destruct (write_frame_byte_ok s4 s a4) as (s5 & W5 & St5 & I5 & L5 & R5);
    try (assumption || congruence || lia).
  destruct (write_frame_byte_ok s5 s crc) as (s6 & W6 & St6 & I6 & L6 & R6);
    try (assumption || congruence || lia).
  exists (set_sd_state SD_READY s6).
  split; [| split; [sd_cbn; lia | exact R6]].
  unfold frame. cbn [app reads replicate run].
  rewrite W1. cbn [bind]. rewrite W2. cbn [bind]. rewrite W3. cbn [bind].
  rewrite W4. cbn [bind]. rewrite W5. cbn [bind]. rewrite W6. cbn [bind].
  rewrite read_not_ready by congruence.
  assert ((6 <=? sd_cmd_idx s6) = true) as -> by (apply Z.leb_le; lia).
  reflexivity.
Qed.

(** C4, evaluated on the code.  Writing one of the seven recognised opcodes
    moves every reachable idle or ready state to the matching receiving
    state, but the write never resets the command buffer: it stores at
    [sd_cmd_idx].  In an idle state that index is 0 and the buffer is left
    holding exactly the opcode.  In state [SD_READY] the frame just completed
    is still held: the opcode is appended behind it, the command length
    becomes at least 7 and [sd_cmd[0]] keeps the old opcode.  With 32 bytes
    held the opcode is stored past the end of [sd_cmd].  A whole frame
    written in state [SD_READY] is never answered: the read that completes
    it returns 0xFF and the reads after it go on with the reply to the frame
    held before. *)
Theorem C4_opcode_while_ready_not_reset (s : sd) (v : Z) (st : sd_state_t) :
  reachable s -> In (v, st) opcode_table ->
  (sd_state s = SD_IDLE ->
   exists s',
     handle_outgoing_byte s v = Ok s' /\
     sd_state s' = st /\ sd_cmd_idx s' = 1 /\ command_buffer s' = [v] /\
     sd_cmd s' = <[0%nat := v]> (sd_cmd s) /\
     sd_storage s' = sd_storage s /\ block_to_read s' = block_to_read s /\
     cmd8_idx s' = cmd8_idx s /\ cmd58_idx s' = cmd58_idx s /\
     cmd17_idx s' = cmd17_idx s) /\
  (sd_state s = SD_READY -> sd_cmd_idx s < 32 ->
   exists s',
     handle_outgoing_byte s v = Ok s' /\
     sd_state s' = st /\
     sd_cmd_idx s' = sd_cmd_idx s + 1 /\ 7 <= sd_cmd_idx s' /\
     command_buffer s' = command_buffer s ++ [v] /\
     command_buffer s' <> [v] /\
     sd_cmd s' = <[Z.to_nat (sd_cmd_idx s) := v]> (sd_cmd s) /\
     sd_cmd s' !! 0%nat = sd_cmd s !! 0%nat /\
     sd_storage s' = sd_storage s /\ block_to_read s' = block_to_read s /\
     cmd8_idx s' = cmd8_idx s /\ cmd58_idx s' = cmd58_idx s /\
     cmd17_idx s' = cmd17_idx s) /\
  (sd_state s = SD_READY -> sd_cmd_idx s = 32 ->
   handle_outgoing_byte s v = Undefined The_sd_cmd) /\
  (sd_state s = SD_READY -> sd_cmd_idx s + 6 < 32 ->
   forall (a1 a2 a3 a4 crc : Z) (n : nat),
     outputs (run (frame v a1 a2 a3 a4 crc ++ reads (S n)) s)
     = cons_out 0xFF (outputs (run (reads n) s))).
Proof.
  intros Hreach Hin.
  destruct (reachable_inv s Hreach)
    as (Hlc & Hlb & _ & _ & Hidx & _ & Hready & _).
  apply opcode_table_state in Hin.
  unfold handle_outgoing_byte.
  split; [| split; [| split]].
  - intros Hidle.
    destruct (idle_fields s (reachable_inv s Hreach) Hidle)
      as (Hi0 & _).
    rewrite (write_opcode s v st) by (auto || lia).
    eexists. split; [reflexivity |].
    rewrite Hi0. unfold command_buffer. sd_cbn.
    destruct (sd_cmd s) as [| c0 cmd]; [discriminate Hlc |].
    repeat split; reflexivity.
  - intros Hst Hlt. pose proof (Hready Hst) as Hge.
    rewrite (write_opcode s v st) by (auto || lia).
    eexists. split; [reflexivity |].
    assert (Hcb : command_buffer
                    (set_sd_state st
                       (set_sd_cmd_idx (sd_cmd_idx s + 1)
                          (set_sd_cmd (<[Z.to_nat (sd_cmd_idx s) := v]> (sd_cmd s)) s)))
                  = command_buffer s ++ [v]).
    { unfold command_buffer. sd_cbn.
      replace (Z.to_nat (sd_cmd_idx s + 1)) with (S (Z.to_nat (sd_cmd_idx s)))
        by lia.
      rewrite (take_S_r _ _ v) by (apply list_lookup_insert_eq; lia).
      rewrite take_insert_ge by lia. reflexivity. }
    split; [reflexivity |]. split; [reflexivity |].
    split; [sd_cbn; lia |]. split; [exact Hcb |].
    split.
    { rewrite Hcb. intros E. apply (f_equal length) in E.
      rewrite length_app in E. unfold command_buffer in E.
      rewrite length_take in E. cbn [length] in E. lia. }
    sd_cbn. split; [reflexivity |].
    split; [apply list_lookup_insert_ne; lia |].
    repeat split; reflexivity.
  - intros Hst H32. unfold egos_sd_write. rewrite Z.eqb_refl. cbn [negb].
    rewrite Hst. cbn [bool_decide decide_rel negb andb].
    assert (negb (bool_decide (SD_READY = SD_IDLE))
            && negb (bool_decide (SD_READY = SD_READY)) = false) as ->
      by reflexivity.
    rewrite Hin, push_cmd_full by lia. reflexivity.
  - intros Hst Hlt a1 a2 a3 a4 crc n. pose proof (Hready Hst) as Hge.
    destruct (run_frame_while_ready s v a1 a2 a3 a4 crc st Hst Hge Hlt Hlc Hin)
      as (s' & Hrun & _ & R).
    replace (S n) with (1 + n)%nat by reflexivity.
    rewrite reads_add, app_assoc, (run_Ok_app _ _ _ _ _ Hrun).
    destruct (reads_are_polls n) as [Hp Hc].
    pose proof (wait_sim (reads n) s' s (or_introl R) Hp) as E.
    rewrite Hc in E. rewrite <- E.
    destruct (run (reads n) s') as [[o1 s1] | |]; reflexivity.
Qed.

End Device.

(** * Concrete runs

    The device with [image251] as its disk image, on a host where plain
    [char] is signed. *)

Lemma image251_bytes (i : Z) : is_byte (image251 i).
Proof.
  unfold is_byte, image251.
  pose proof (Z.mod_pos_bound i 251 ltac:(lia)). lia.
Qed.

Lemma reachable_init251 : reachable true (sd_init image251).
Proof. apply reach_init. exact image251_bytes. Qed.

Lemma reachable_from_init (ops : list access) (o : list Z) (s : sd) :
  run true ops (sd_init image251) = Ok (o, s) -> reachable true s.
Proof. apply reachable_run. exact reachable_init251. Qed.

(** The CMD17 frame for block 0x2000, the first block past the end of the
    store, on the example image. *)
Example cmd17_block_8192 :
  run true (frame 0x51 0x00 0x00 0x20 0x00 0xFF ++ reads 2) (sd_init image251)
  = Undefined The_sd_storage.
Proof. vm_compute. reflexivity. Qed.

(** C2 fails as stated: after the CMD17 frame for block 0 the first read in
    state [SD_READY] returns 0x00, not 0xFE, and after 513 such reads the
    state is still [SD_READY]. *)
Lemma C2_counterexample :
  exists s1 s2 o s513,
    run true (frame 0x51 0x00 0x00 0x00 0x00 0xFF ++ reads 1) (sd_init image251)
    = Ok ([0xFF], s1) /\
    sd_state s1 = SD_READY /\
    handle_incoming_byte_request true s1 = Ok (0x00, s2) /\
    0x00 <> 0xFE /\
    run true (reads 513) s1 = Ok (o, s513) /\
    sd_state s513 = SD_READY.
Proof.
  do 4 eexists.
  split; [vm_compute; reflexivity |].
  split; [reflexivity |].
  split; [vm_compute; reflexivity |].
  split; [discriminate |].
  split; [vm_compute; reflexivity | reflexivity].
Qed.

(** The amended C2 on the example image, for block 1. *)
Lemma C2_witness :
  reachable true (sd_init image251) /\
  sd_state (sd_init image251) = SD_IDLE /\
  is_byte 0 /\ is_byte 0 /\ is_byte 0 /\ is_byte 1 /\
  be32 0 0 0 1 * BLOCK_SIZE + BLOCK_SIZE <= STORAGE_SIZE /\
  exists s',
    run true (frame 0x51 0 0 0 1 0xFF ++ reads 515) (sd_init image251)
    = Ok (0xFF :: 0x00 :: 0xFE
            :: map (sd_storage (sd_init image251))
                 (seqZ (be32 0 0 0 1 * BLOCK_SIZE) BLOCK_SIZE),
          s') /\
    sd_state s' = SD_IDLE /\ sd_cmd_idx s' = 0 /\ cmd17_idx s' = -1 /\
    sd_storage s' = sd_storage (sd_init image251) /\
    handle_incoming_byte_request true s' = Ok (0xFF, s').
Proof.
  assert (Hb0 : is_byte 0) by (unfold is_byte; lia).
  assert (Hb1 : is_byte 1) by (unfold is_byte; lia).
  assert (Hr : be32 0 0 0 1 * BLOCK_SIZE + BLOCK_SIZE <= STORAGE_SIZE)
    by (vm_compute; discriminate).
  repeat (split; [first [exact reachable_init251 | reflexivity | assumption] |]).
  apply (C2_cmd17_reply true (sd_init image251) 0 0 0 1 0xFF
           reachable_init251 eq_refl Hb0 Hb0 Hb0 Hb1 Hr).
Defined.

(** C3 fails as stated: a seventh byte written while receiving is stored
    and the write returns normally. *)
Lemma C3_counterexample :
  exists s6 s7,
    run true (frame 0x40 0x00 0x00 0x00 0x00 0x95) (sd_init image251)
    = Ok ([], s6) /\
    sd_state s6 = SD_GETTING_CMD0 /\ sd_cmd_idx s6 = 6 /\
    handle_outgoing_byte s6 0x00 = Ok s7 /\
    handle_outgoing_byte s6 0x00 <> Abort /\
    sd_state s7 = SD_GETTING_CMD0 /\ sd_cmd_idx s7 = 7.
Proof.
  do 2 eexists.
  split; [vm_compute; reflexivity |].
  split; [reflexivity |]. split; [reflexivity |].
  split; [vm_compute; reflexivity |].
  split; [vm_compute; discriminate |].
  split; reflexivity.
Qed.

(** The amended C3 at the seventh byte of a CMD0 frame. *)
Lemma C3_witness :
  reachable true cmd0_received /\
  sd_state cmd0_received <> SD_IDLE /\ sd_state cmd0_received <> SD_READY /\
  (sd_cmd_idx cmd0_received < 31 ->
   exists s',
     handle_outgoing_byte cmd0_received 0x00 = Ok s' /\
     sd_state s' = sd_state cmd0_received /\
     sd_cmd_idx s' = sd_cmd_idx cmd0_received + 1 /\
     command_buffer s' = command_buffer cmd0_received ++ [to_char 0x00]) /\
  (sd_cmd_idx cmd0_received = 31 ->
   handle_outgoing_byte cmd0_received 0x00 = Abort).
Proof.
  assert (Hr : reachable true cmd0_received).
  { apply (reachable_from_init (frame 0x40 0x00 0x00 0x00 0x00 0x95) []).
    vm_compute. reflexivity. }
  split; [exact Hr |]. split; [discriminate |]. split; [discriminate |].
  apply (C3_frame_byte_limit true cmd0_received 0x00 Hr); discriminate.
Defined.

(** C4 fails as stated: an opcode written in state [SD_READY] is appended
    after the six bytes of the frame still held; the command length becomes
    7 and [sd_cmd[0]] keeps the old opcode. *)
Lemma C4_counterexample :
  exists s s',
    run true (frame 0x40 0x00 0x00 0x00 0x00 0x95 ++ reads 1) (sd_init image251)
    = Ok ([0xFF], s) /\
    sd_state s = SD_READY /\
    handle_outgoing_byte s 0x48 = Ok s' /\
    sd_state s' = SD_GETTING_CMD8 /\
    sd_cmd_idx s' = 7 /\
    command_buffer s' = [0x40; 0x00; 0x00; 0x00; 0x00; 0x95; 0x48] /\
    sd_cmd_idx s' <> 1 /\ command_buffer s' <> [0x48].
Proof.
  do 2 eexists.
  split; [vm_compute; reflexivity |].
  split; [reflexivity |].
  split; [vm_compute; reflexivity |].
  split; [reflexivity |]. split; [reflexivity |]. split; [reflexivity |].
  split; discriminate.
Qed.

Lemma reachable_cmd0_ready : reachable true cmd0_ready.
Proof.
  apply (reachable_from_init (frame 0x40 0x00 0x00 0x00 0x00 0x95 ++ reads 1)
           [0xFF]).
  vm_compute. reflexivity.
Qed.

(** C4 for the CMD8 opcode and the CMD8 frame of the specification, written
    while the reply to a CMD0 frame is still to be read: the opcode becomes
    the seventh byte held, and the frame is answered by the filler byte and
    then by 0x01, the reply to CMD0, not by the five bytes of the CMD8
    reply. *)
Lemma C4_witness :
  reachable true cmd0_ready /\
  In (0x48, SD_GETTING_CMD8) opcode_table /\
  sd_state cmd0_ready = SD_READY /\
  sd_cmd_idx cmd0_ready < 32 /\ sd_cmd_idx cmd0_ready + 6 < 32 /\
  (exists s',
     handle_outgoing_byte cmd0_ready 0x48 = Ok s' /\
     sd_state s' = SD_GETTING_CMD8 /\
     sd_cmd_idx s' = sd_cmd_idx cmd0_ready + 1 /\ 7 <= sd_cmd_idx s' /\
     command_buffer s' = command_buffer cmd0_ready ++ [0x48] /\
     command_buffer s' <> [0x48] /\
     sd_cmd s' = <[Z.to_nat (sd_cmd_idx cmd0_ready) := 0x48]> (sd_cmd cmd0_ready) /\
     sd_cmd s' !! 0%nat = sd_cmd cmd0_ready !! 0%nat /\
     sd_storage s' = sd_storage cmd0_ready /\
     block_to_read s' = block_to_read cmd0_ready /\
     cmd8_idx s' = cmd8_idx cmd0_ready /\
     cmd58_idx s' = cmd58_idx cmd0_ready /\
     cmd17_idx s' = cmd17_idx cmd0_ready) /\
  outputs (run true (frame 0x48 0x00 0x00 0x01 0xAA 0x87 ++ reads (S 5))
             cmd0_ready)
  = cons_out 0xFF (outputs (run true (reads 5) cmd0_ready)) /\
  outputs (run true (reads 5) cmd0_ready) = Ok [0x01; 0xFF; 0xFF; 0xFF; 0xFF].
Proof.
  assert (Hin : In (0x48, SD_GETTING_CMD8) opcode_table)
    by (right; left; reflexivity).
  assert (Hlt : sd_cmd_idx cmd0_ready < 32) by reflexivity.
  assert (Hlt6 : sd_cmd_idx cmd0_ready + 6 < 32) by reflexivity.
  destruct (C4_opcode_while_ready_not_reset true cmd0_ready 0x48 SD_GETTING_CMD8
              reachable_cmd0_ready Hin) as (_ & Hready & _ & Hframe).
  split; [exact reachable_cmd0_ready |]. split; [exact Hin |].
  split; [reflexivity |]. split; [exact Hlt |]. split; [exact Hlt6 |].
  split; [exact (Hready eq_refl Hlt) |].
  split; [exact (Hframe eq_refl Hlt6 0x00 0x00 0x01 0xAA 0x87 5%nat) |].
  vm_compute. reflexivity.
Defined.

(** C5 for the frames of the specification, written after reset. *)
Lemma C5_witness :
  reachable true (sd_init image251) /\
  sd_state (sd_init image251) = SD_IDLE /\
  (exists s4 s5,
     run true (frame 0x48 0x00 0x00 0x01 0xAA 0x87 ++ reads 5) (sd_init image251)
       = Ok ([0xFF; 0x01; 0x00; 0x00; 0x01], s4) /\
     sd_state s4 = SD_READY /\
     run true (frame 0x48 0x00 0x00 0x01 0xAA 0x87 ++ reads 6) (sd_init image251)
       = Ok ([0xFF; 0x01; 0x00; 0x00; 0x01; 0xAA], s5) /\
     sd_state s5 = SD_IDLE /\ sd_cmd_idx s5 = 0 /\ cmd8_idx s5 = 0) /\
  (exists s4 s5,
     run true (frame 0x7A 0x00 0x00 0x01 0xAA 0x87 ++ reads 5) (sd_init image251)
       = Ok ([0xFF; 0x00; 0xC0; 0xFF; 0x80], s4) /\
     sd_state s4 = SD_READY /\
     run true (frame 0x7A 0x00 0x00 0x01 0xAA 0x87 ++ reads 6) (sd_init image251)
       = Ok ([0xFF; 0x00; 0xC0; 0xFF; 0x80; 0x00], s5) /\
     sd_state s5 = SD_IDLE /\ sd_cmd_idx s5 = 0 /\ cmd58_idx s5 = 0).
Proof.
  split; [exact reachable_init251 |]. split; [reflexivity |].
  apply (C5_cmd8_cmd58_replies true (sd_init image251) 0x00 0x00 0x01 0xAA 0x87
           reachable_init251 eq_refl).
Defined.

(** C6 at the read that finds a CMD0 frame complete. *)
Lemma C6_witness :
  sd_state cmd0_received <> SD_READY /\
  exists s',
    handle_incoming_byte_request true cmd0_received = Ok (0xFF, s') /\
    (6 <= sd_cmd_idx cmd0_received ->
     s' = set_sd_state SD_READY cmd0_received /\ sd_state s' = SD_READY) /\
    (sd_cmd_idx cmd0_received < 6 -> s' = cmd0_received).
Proof.
  split; [discriminate |].
  apply (C6_read_before_ready true cmd0_received). discriminate.
Defined.

(** C7 for four argument bytes that all have their top bit set. *)
Lemma C7_witness :
  is_byte 0x81 /\ is_byte 0x82 /\ is_byte 0x83 /\ is_byte 0x84 /\
  cmd17_block_no true 0x81 0x82 0x83 0x84 = wrap32 (be32 0x81 0x82 0x83 0x84) /\
  cmd17_block_no true 0x81 0x82 0x83 0x84 mod 2 ^ 32 = be32 0x81 0x82 0x83 0x84 /\
  (0x81 < 0x80 ->
   cmd17_block_no true 0x81 0x82 0x83 0x84 = be32 0x81 0x82 0x83 0x84) /\
  (forall s : sd,
     sd_state s = SD_READY -> (0 < length (block_to_read s))%nat ->
     sd_cmd s !! 0%nat = Some 0x51 ->
     sd_cmd s !! 1%nat = Some 0x81 -> sd_cmd s !! 2%nat = Some 0x82 ->
     sd_cmd s !! 3%nat = Some 0x83 -> sd_cmd s !! 4%nat = Some 0x84 ->
     cmd17_idx s = -1 ->
     handle_incoming_byte_request true s
     = (btr <- copy_block (<[0%nat := 0xFE]> (block_to_read s)) (sd_storage s)
                 (wrap32 (wrap32 (be32 0x81 0x82 0x83 0x84) * BLOCK_SIZE)) ;;
        Ok (0x00, set_block_to_read btr (set_cmd17_idx 0 s)))).
Proof.
  assert (H1 : is_byte 0x81) by (unfold is_byte; lia).
  assert (H2 : is_byte 0x82) by (unfold is_byte; lia).
  assert (H3 : is_byte 0x83) by (unfold is_byte; lia).
  assert (H4 : is_byte 0x84) by (unfold is_byte; lia).
  repeat (split; [assumption |]).
  apply (C7_block_number_big_endian true 0x81 0x82 0x83 0x84 H1 H2 H3 H4).
Defined.

(** C8 for the two exchanges made right after reset. *)
Lemma C8_witness :
  reachable true (sd_init image251) /\
  sd_state (sd_init image251) = SD_IDLE /\
  exists s1,
    run true cmd0_exchange (sd_init image251) = Ok ([0xFF; 0x01], s1) /\
    sd_state s1 = sd_state (sd_init image251) /\
    sd_cmd_idx s1 = sd_cmd_idx (sd_init image251) /\
    command_buffer s1 = command_buffer (sd_init image251) /\
    cmd8_idx s1 = cmd8_idx (sd_init image251) /\
    cmd58_idx s1 = cmd58_idx (sd_init image251) /\
    cmd17_idx s1 = cmd17_idx (sd_init image251) /\
    sd_storage s1 = sd_storage (sd_init image251) /\
    run true cmd0_exchange s1 = Ok ([0xFF; 0x01], s1) /\
    run true (cmd0_exchange ++ cmd0_exchange) (sd_init image251)
    = Ok ([0xFF; 0x01; 0xFF; 0x01], s1) /\
    (forall ops : list access,
       outputs (run true ops s1) = outputs (run true ops (sd_init image251))).
Proof.
  split; [exact reachable_init251 |]. split; [reflexivity |].
  apply (C8_cmd0_exchange_twice true (sd_init image251)
           reachable_init251 eq_refl).
Defined.

Lemma reachable_cmd17_ready : reachable true cmd17_ready.
Proof.
  apply (reachable_from_init (frame 0x51 0x00 0x00 0x00 0x01 0xFF ++ reads 1)
           [0xFF]).
  vm_compute. reflexivity.
Qed.

(** C9 for the CMD17 frame of block 1 on the example image. *)
Lemma C9_witness :
  reachable true cmd17_ready /\
  sd_state cmd17_ready = SD_READY /\
  sd_cmd cmd17_ready !! 0%nat = Some 0x51 /\
  sd_cmd cmd17_ready !! 1%nat = Some 0x00 /\
  sd_cmd cmd17_ready !! 2%nat = Some 0x00 /\
  sd_cmd cmd17_ready !! 3%nat = Some 0x00 /\
  sd_cmd cmd17_ready !! 4%nat = Some 0x01 /\
  cmd17_idx cmd17_ready = -1 /\
  be32 0 0 0 1 * BLOCK_SIZE + BLOCK_SIZE <= STORAGE_SIZE /\
  let data := map (sd_storage cmd17_ready)
                (seqZ (be32 0 0 0 1 * BLOCK_SIZE) BLOCK_SIZE) in
  (exists s1 s2,
     handle_incoming_byte_request true cmd17_ready = Ok (0x00, s1) /\
     sd_state s1 = SD_READY /\ cmd17_idx s1 = 0 /\
     block_to_read s1 = 0xFE :: data /\
     handle_incoming_byte_request true s1 = Ok (0xFE, s2) /\
     sd_state s2 = SD_READY /\ cmd17_idx s2 = 1) /\
  (forall n : nat, (n <= 513)%nat ->
     exists sn,
       run true (reads n) cmd17_ready = Ok (take n (0x00 :: 0xFE :: data), sn) /\
       sd_state sn = SD_READY) /\
  (exists s514,
     run true (reads 514) cmd17_ready = Ok (0x00 :: 0xFE :: data, s514) /\
     sd_state s514 = SD_IDLE /\ sd_cmd_idx s514 = 0 /\ cmd17_idx s514 = -1).
Proof.
  assert (Hr : be32 0 0 0 1 * BLOCK_SIZE + BLOCK_SIZE <= STORAGE_SIZE)
    by (vm_compute; discriminate).
  split; [exact reachable_cmd17_ready |].
  repeat (split; [first [reflexivity | exact Hr] |]).
  apply (C9_cmd17_ack_then_block true cmd17_ready 0 0 0 1
           reachable_cmd17_ready eq_refl eq_refl eq_refl eq_refl eq_refl
           eq_refl eq_refl Hr).
Defined.

(** C10 in the state that holds a complete CMD17 frame. *)
Lemma C10_witness :
  reachable true cmd17_ready /\
  (cmd17_idx cmd17_ready = -1 \/ 0 <= cmd17_idx cmd17_ready <= 512) /\
  length (block_to_read cmd17_ready) = 513%nat /\
  (forall addr : Z, egos_sd_read true cmd17_ready addr <> Undefined The_block_to_read) /\
  (forall addr v : Z, egos_sd_write cmd17_ready addr v <> Undefined The_block_to_read).
Proof.
  split; [exact reachable_cmd17_ready |].
  apply (C10_block_cursor_in_bounds true cmd17_ready reachable_cmd17_ready).
Defined.

(** * The further properties on the example device *)

Lemma run_cmd17_ready :
  run true (frame 0x51 0x00 0x00 0x00 0x01 0xFF ++ reads 1) (sd_init image251)
  = Ok ([0xFF], cmd17_ready).
Proof. vm_compute. reflexivity. Qed.

Lemma reachable_cmd17_past_end : reachable true cmd17_past_end.
Proof.
  apply (reachable_from_init (frame 0x51 0x00 0x00 0x20 0x00 0xFF ++ reads 1)
           [0xFF]).
  vm_compute. reflexivity.
Qed.

Lemma reachable_cmd0_overlong : reachable true cmd0_overlong.
Proof.
  apply (reachable_from_init
           (frame 0x40 0x00 0x00 0x00 0x00 0x95
              ++ replicate 25 (Wr SPI1_TXDATA 0x00) ++ reads 1)
           [0xFF]).
  vm_compute. reflexivity.
Qed.

(** The store after a CMD17 frame and the read that completes it. *)
Lemma storage_read_only_witness :
  run true (frame 0x51 0x00 0x00 0x00 0x01 0xFF ++ reads 1) (sd_init image251)
  = Ok ([0xFF], cmd17_ready) /\
  sd_storage cmd17_ready = sd_storage (sd_init image251).
Proof.
  split; [exact run_cmd17_ready |].
  exact (storage_read_only true _ _ _ _ run_cmd17_ready).
Defined.

(** The bytes returned by the same accesses. *)
Lemma reads_return_bytes_witness :
  run true (frame 0x51 0x00 0x00 0x00 0x01 0xFF ++ reads 1) (sd_init image251)
  = Ok ([0xFF], cmd17_ready) /\
  Forall is_byte [0xFF] /\
  length [0xFF]
  = length (filter (fun a => is_read a = true)
              (frame 0x51 0x00 0x00 0x00 0x01 0xFF ++ reads 1)).
Proof.
  split; [exact run_cmd17_ready |].
  exact (reads_return_bytes true _ _ _ _ run_cmd17_ready).
Defined.

(** The read that dispatches the CMD17 frame of block 0x2000. *)
Lemma read_fails_only_on_bad_block_witness :
  reachable true cmd17_past_end /\
  egos_sd_read true cmd17_past_end SPI1_RXDATA = Undefined The_sd_storage /\
  egos_sd_read true cmd17_past_end SPI1_RXDATA <> Abort /\
  (forall o : object,
     egos_sd_read true cmd17_past_end SPI1_RXDATA = Undefined o ->
     o = The_sd_storage /\ SPI1_RXDATA = SPI1_RXDATA /\
     sd_state cmd17_past_end = SD_READY /\
     cmd17_idx cmd17_past_end = -1 /\
     exists c1 c2 c3 c4 : Z,
       sd_cmd cmd17_past_end !! 0%nat = Some 0x51 /\
       sd_cmd cmd17_past_end !! 1%nat = Some c1 /\
       sd_cmd cmd17_past_end !! 2%nat = Some c2 /\
       sd_cmd cmd17_past_end !! 3%nat = Some c3 /\
       sd_cmd cmd17_past_end !! 4%nat = Some c4 /\
       let off := wrap32 (cmd17_block_no true c1 c2 c3 c4 * BLOCK_SIZE) in
       ~ (0 <= off /\ off + BLOCK_SIZE <= STORAGE_SIZE)).
Proof.
  split; [exact reachable_cmd17_past_end |].
  split; [vm_compute; reflexivity |].
  exact (read_fails_only_on_bad_block true cmd17_past_end SPI1_RXDATA
           reachable_cmd17_past_end).
Defined.

(** The cursors of the device once a CMD17 frame is complete. *)
Lemma one_reply_at_a_time_witness :
  reachable true cmd17_ready /\
  0 <= sd_cmd_idx cmd17_ready <= 32 /\
  (sd_state cmd17_ready = SD_IDLE <-> sd_cmd_idx cmd17_ready = 0) /\
  (sd_state cmd17_ready = SD_READY -> 6 <= sd_cmd_idx cmd17_ready) /\
  (cmd8_idx cmd17_ready <> 0 ->
   0 < cmd8_idx cmd17_ready < 5 /\ sd_cmd cmd17_ready !! 0%nat = Some 0x48 /\
   sd_state cmd17_ready <> SD_IDLE /\ cmd58_idx cmd17_ready = 0 /\
   cmd17_idx cmd17_ready = -1) /\
  (cmd58_idx cmd17_ready <> 0 ->
   0 < cmd58_idx cmd17_ready < 5 /\ sd_cmd cmd17_ready !! 0%nat = Some 0x7A /\
   sd_state cmd17_ready <> SD_IDLE /\ cmd8_idx cmd17_ready = 0 /\
   cmd17_idx cmd17_ready = -1) /\
  (cmd17_idx cmd17_ready <> -1 ->
   0 <= cmd17_idx cmd17_ready <= 512 /\
   sd_cmd cmd17_ready !! 0%nat = Some 0x51 /\
   sd_state cmd17_ready <> SD_IDLE /\ cmd8_idx cmd17_ready = 0 /\
   cmd58_idx cmd17_ready = 0).
Proof.
  split; [exact reachable_cmd17_ready |].
  exact (one_reply_at_a_time true cmd17_ready reachable_cmd17_ready).
Defined.

(** CMD16 with block length 512, after reset. *)
Lemma one_byte_commands_witness :
  reachable true (sd_init image251) /\
  sd_state (sd_init image251) = SD_IDLE /\
  (0x50 = 0x50 \/ 0x50 = 0x69 \/ 0x50 = 0x77) /\
  exists s',
    run true (frame 0x50 0x00 0x00 0x02 0x00 0xFF ++ reads 2) (sd_init image251)
    = Ok ([0xFF; 0x00], s') /\
    sd_state s' = SD_IDLE /\ sd_cmd_idx s' = 0 /\
    cmd8_idx s' = cmd8_idx (sd_init image251) /\
    cmd58_idx s' = cmd58_idx (sd_init image251) /\
    cmd17_idx s' = cmd17_idx (sd_init image251) /\
    sd_storage s' = sd_storage (sd_init image251) /\
    handle_incoming_byte_request true s' = Ok (0xFF, s').
Proof.
  split; [exact reachable_init251 |]. split; [reflexivity |].
  split; [left; reflexivity |].
  exact (one_byte_commands true (sd_init image251) 0x50 0x00 0x00 0x02 0x00 0xFF
           reachable_init251 eq_refl (or_introl eq_refl)).
Defined.

(** Three polls and a bare read, after reset. *)
Lemma idle_device_stays_idle_witness :
  reachable true (sd_init image251) /\
  sd_state (sd_init image251) = SD_IDLE /\
  forallb is_poll (polls 3 ++ reads 1) = true /\
  run true (polls 3 ++ reads 1) (sd_init image251)
  = Ok (replicate
          (length (filter (fun a => is_read a = true) (polls 3 ++ reads 1)))
          0xFF,
        sd_init image251).
Proof.
  split; [exact reachable_init251 |]. split; [reflexivity |].
  split; [reflexivity |].
  exact (idle_device_stays_idle true (sd_init image251) (polls 3 ++ reads 1)
           reachable_init251 eq_refl eq_refl).
Defined.

(** The CMD8 opcode written with 31 bytes held, and the byte after it. *)
Lemma sd_cmd_overflow_witness :
  reachable true cmd0_overlong /\
  sd_state cmd0_overlong = SD_READY /\ sd_cmd_idx cmd0_overlong = 31 /\
  In (0x48, SD_GETTING_CMD8) opcode_table /\
  exists s',
    handle_outgoing_byte cmd0_overlong 0x48 = Ok s' /\
    sd_state s' = SD_GETTING_CMD8 /\ sd_cmd_idx s' = 32 /\
    handle_outgoing_byte s' 0x00 = Undefined The_sd_cmd.
Proof.
  assert (Hin : In (0x48, SD_GETTING_CMD8) opcode_table)
    by (right; left; reflexivity).
  split; [exact reachable_cmd0_overlong |]. split; [reflexivity |].
  split; [reflexivity |]. split; [exact Hin |].
  exact (sd_cmd_overflow true cmd0_overlong 0x48 0x00 SD_GETTING_CMD8
           reachable_cmd0_overlong eq_refl eq_refl Hin).
Defined.

(** A CMD8 exchange after reset, polled with 0xFF five times. *)
Lemma polling_with_idle_byte_witness :
  reachable true (sd_init image251) /\
  sd_state (sd_init image251) = SD_IDLE /\
  In (0x48, SD_GETTING_CMD8) opcode_table /\
  outputs (run true (frame 0x48 0x00 0x00 0x01 0xAA 0x87 ++ polls 6)
             (sd_init image251))
  = outputs (run true (frame 0x48 0x00 0x00 0x01 0xAA 0x87 ++ reads 6)
               (sd_init image251)).
Proof.
  assert (Hin : In (0x48, SD_GETTING_CMD8) opcode_table)
    by (right; left; reflexivity).
  split; [exact reachable_init251 |]. split; [reflexivity |].
  split; [exact Hin |].
  exact (polling_with_idle_byte true (sd_init image251)
           0x48 0x00 0x00 0x01 0xAA 0x87 SD_GETTING_CMD8 6
           reachable_init251 eq_refl Hin).
Defined.

(** The CMD0 opcode written before the reply to a CMD17 frame is read. *)
Lemma opcode_during_reply_witness :
  reachable true cmd17_ready /\
  sd_state cmd17_ready = SD_READY /\ sd_cmd_idx cmd17_ready < 32 /\
  In (0x40, SD_GETTING_CMD0) opcode_table /\
  outputs (run true (Wr SPI1_TXDATA 0x40 :: Rd SPI1_RXDATA :: reads 3)
             cmd17_ready)
  = cons_out 0xFF (outputs (run true (reads 3) cmd17_ready)).
Proof.
  assert (Hin : In (0x40, SD_GETTING_CMD0) opcode_table)
    by (left; reflexivity).
  assert (Hlt : sd_cmd_idx cmd17_ready < 32) by reflexivity.
  split; [exact reachable_cmd17_ready |]. split; [reflexivity |].
  split; [exact Hlt |]. split; [exact Hin |].
  exact (opcode_during_reply true cmd17_ready 0x40 SD_GETTING_CMD0 3
           reachable_cmd17_ready eq_refl Hlt Hin).
Defined.

(** A CMD58 frame sent by full-duplex exchanges, after reset. *)
Lemma frame_by_exchanges_witness :
  reachable true (sd_init image251) /\
  sd_state (sd_init image251) = SD_IDLE /\
  In (0x7A, SD_GETTING_CMD58) opcode_table /\
  exists s',
    run true (frame_exchanges 0x7A 0x00 0x00 0x00 0x00 0xFF) (sd_init image251)
    = Ok ([0xFF; 0xFF; 0xFF; 0xFF; 0xFF; 0xFF], s') /\
    run true (frame 0x7A 0x00 0x00 0x00 0x00 0xFF ++ reads 1) (sd_init image251)
    = Ok ([0xFF], s') /\
    sd_state s' = SD_READY /\ sd_cmd_idx s' = 6 /\
    command_buffer s'
    = [0x7A; to_char 0x00; to_char 0x00; to_char 0x00; to_char 0x00;
       to_char 0xFF].
Proof.
  assert (Hin : In (0x7A, SD_GETTING_CMD58) opcode_table)
    by (do 6 right; left; reflexivity).
  split; [exact reachable_init251 |]. split; [reflexivity |].
  split; [exact Hin |].
  exact (frame_by_exchanges true (sd_init image251)
           0x7A 0x00 0x00 0x00 0x00 0xFF SD_GETTING_CMD58
           reachable_init251 eq_refl Hin).
Defined.

(** The image read in two calls, a short one of 4096 bytes and one that
    offers more than what is left. *)
Lemma reset_loads_image_witness :
  Forall (fun a => 0 < a) [4096; STORAGE_SIZE] /\
  STORAGE_SIZE <= total [4096; STORAGE_SIZE] /\
  exists sto',
    egos_sd_reset STORAGE_SIZE image251 [4096; STORAGE_SIZE] (fun _ => 0)
    = Some (Ok sto') /\
    (forall i, 0 <= i < STORAGE_SIZE -> sto' i = image251 i) /\
    (forall i, ~ 0 <= i < STORAGE_SIZE -> sto' i = 0).
Proof.
  assert (Hpos : Forall (fun a => 0 < a) [4096; STORAGE_SIZE])
    by (repeat constructor).
  assert (Htot : STORAGE_SIZE <= total [4096; STORAGE_SIZE])
    by (vm_compute; discriminate).
  split; [exact Hpos |]. split; [exact Htot |].
  exact (proj2 (reset_loads_image STORAGE_SIZE image251 [4096; STORAGE_SIZE]
                  (fun _ => 0))
           eq_refl Hpos Htot).
Defined.

(** The reply to the CMD17 frame of block 1 comes to an end. *)
Lemma reply_ends_witness :
  reachable true cmd17_ready /\ 6 <= sd_cmd_idx cmd17_ready /\
  exists n : nat,
    (1 <= n <= 515)%nat /\
    ((exists o s',
        run true (reads n) cmd17_ready = Ok (o, s') /\
        sd_state s' = SD_IDLE /\ sd_cmd_idx s' = 0) \/
     run true (reads n) cmd17_ready = Undefined The_sd_storage).
Proof.
  assert (Hge : 6 <= sd_cmd_idx cmd17_ready) by (vm_compute; discriminate).
  split; [exact reachable_cmd17_ready |]. split; [exact Hge |].
  exact (reply_ends true cmd17_ready reachable_cmd17_ready Hge).
Defined.

(** A byte that is no opcode, written after reset. *)
Lemma write_fails_exactly_when_witness :
  reachable true (sd_init image251) /\
  egos_sd_write (sd_init image251) SPI1_TXDATA 0x00 = Abort /\
  (egos_sd_write (sd_init image251) SPI1_TXDATA 0x00 = Abort <->
   SPI1_TXDATA = SPI1_TXDATA /\
   ((sd_state (sd_init image251) <> SD_IDLE /\
     sd_state (sd_init image251) <> SD_READY /\
     sd_cmd_idx (sd_init image251) = 31) \/
    ((sd_state (sd_init image251) = SD_IDLE \/
      sd_state (sd_init image251) = SD_READY) /\
     opcode_state 0x00 = None /\ 0x00 <> 0xFF))) /\
  (forall o : object,
     egos_sd_write (sd_init image251) SPI1_TXDATA 0x00 = Undefined o <->
     o = The_sd_cmd /\ SPI1_TXDATA = SPI1_TXDATA /\
     sd_cmd_idx (sd_init image251) = 32 /\
     (sd_state (sd_init image251) <> SD_READY \/ opcode_state 0x00 <> None)).
Proof.
  split; [exact reachable_init251 |].
  split; [reflexivity |].
  exact (write_fails_exactly_when true (sd_init image251) SPI1_TXDATA 0x00
           reachable_init251).
Defined.

(** A file cut to 4096 bytes after its size was taken: three more calls of
    [read] leave the loop where it was. *)
Lemma reset_spins_at_end_of_file_witness :
  Forall (fun a => 0 < a) [4096] /\ total [4096] < STORAGE_SIZE /\
  egos_sd_reset STORAGE_SIZE image251 ([4096] ++ replicate 3 0) (fun _ => 0)
  = None.
Proof.
  assert (Hpos : Forall (fun a => 0 < a) [4096]) by (repeat constructor).
  assert (Htot : total [4096] < STORAGE_SIZE) by reflexivity.
  split; [exact Hpos |]. split; [exact Htot |].
  exact (reset_spins_at_end_of_file image251 [4096] 3 (fun _ => 0) Hpos Htot).
Defined.

(** One failed [read], then a call that finds the whole image. *)
Lemma reset_read_error_underflows_witness :
  (1 <= 1)%nat /\ Z.of_nat 1 <= 2 ^ 31 /\ 0 < STORAGE_SIZE /\
  egos_sd_reset STORAGE_SIZE image251 (replicate 1 (-1) ++ STORAGE_SIZE :: [])
    (fun _ => 0)
  = Some (Undefined The_sd_storage).
Proof.
  assert (H1 : (1 <= 1)%nat) by constructor.
  assert (H2 : Z.of_nat 1 <= 2 ^ 31) by (vm_compute; discriminate).
  assert (H3 : 0 < STORAGE_SIZE) by reflexivity.
  split; [exact H1 |]. split; [exact H2 |]. split; [exact H3 |].
  exact (reset_read_error_underflows image251 1 STORAGE_SIZE [] (fun _ => 0)
           H1 H2 H3).
Defined.
